(** * pic2list: credential vault, eBay OAuth flow and credential resolution

    A shallow embedding of [crypto-utils.js], [middleware/auth.js],
    [routes/ebay-oauth.js] and [routes/config.js], and the properties of the
    credential and token lifecycle proved about it.

    JavaScript values are modelled as follows.  A string is a [string]; a
    value that may be [null] or [undefined] is an [option]; a [Buffer] is a
    list of bytes ([ascii]).  Timestamps and durations are integers ([Z],
    milliseconds).  An exception is an explicit [Throw] completion. *)

From Stdlib Require Import ZArith Lia Ascii String List Bool.
From stdpp Require Import base option list gmap strings.

Local Open Scope string_scope.
Local Open Scope Z_scope.

(** ** JavaScript truthiness *)

(** [!!s] for a value that is a string, [null] or [undefined]. *)
Definition truthy (v : option string) : bool :=
  match v with
  | Some s => negb (String.eqb s "")
  | None => false
  end.

(** [!!n] for a value that is a number, [null] or [undefined]. *)
Definition truthy_num (v : option Z) : bool :=
  match v with
  | Some n => negb (n =? 0)
  | None => false
  end.

(** [a || b] on such values. *)
Definition or_else (a b : option string) : option string :=
  if truthy a then a else b.

(** [a || 'literal']. *)
Definition or_str (a : option string) (b : string) : string :=
  match a with
  | Some s => if String.eqb s "" then b else s
  | None => b
  end.

(** [a === b] on values that are strings or [undefined]. *)
Definition strict_eq (a b : option string) : bool :=
  match a, b with
  | Some x, Some y => String.eqb x y
  | None, None => true
  | _, _ => false
  end.

(** ** Base64, as Node's [Buffer] implements it *)

(** A base64 digit: six bits, most significant first. *)
Definition sextet : Type := (bool * bool * bool * bool * bool * bool)%type.

Definition sextet_index (s : sextet) : nat :=
  let '(b5, b4, b3, b2, b1, b0) := s in
  (Nat.b2n b5 * 32 + Nat.b2n b4 * 16 + Nat.b2n b3 * 8
   + Nat.b2n b2 * 4 + Nat.b2n b1 * 2 + Nat.b2n b0)%nat.

Definition index_sextet (n : nat) : sextet :=
  (Nat.testbit n 5, Nat.testbit n 4, Nat.testbit n 3,
   Nat.testbit n 2, Nat.testbit n 1, Nat.testbit n 0).

Definition b64_alphabet : string :=
  "ABCDEFGHIJKLMNOPQRSTUVWXYZabcdefghijklmnopqrstuvwxyz0123456789+/".

Definition b64_char (s : sextet) : ascii :=
  match String.get (sextet_index s) b64_alphabet with
  | Some c => c
  | None => "="%char
  end.

(** The decoder's table: the standard alphabet, and the URL-safe digits
    ['-'] and ['_'] as aliases of ['+'] and ['/']. *)
Definition unbase64 (c : ascii) : option sextet :=
  let n := nat_of_ascii c in
  if ((65 <=? n) && (n <=? 90))%nat then Some (index_sextet (n - 65))
  else if ((97 <=? n) && (n <=? 122))%nat then Some (index_sextet (n - 71))
  else if ((48 <=? n) && (n <=? 57))%nat then Some (index_sextet (n + 4))
  else if ((n =? 43) || (n =? 45))%nat then Some (index_sextet 62)
  else if ((n =? 47) || (n =? 95))%nat then Some (index_sextet 63)
  else None.

(** [buf.toString('base64')]: three bytes give four digits, the last group
    is padded with ['=']. *)
Fixpoint b64_encode (bs : list ascii) : string :=
  match bs with
  | [] => ""
  | [Ascii x0 x1 x2 x3 x4 x5 x6 x7] =>
      String (b64_char (x7, x6, x5, x4, x3, x2))
        (String (b64_char (x1, x0, false, false, false, false)) "==")
  | [Ascii x0 x1 x2 x3 x4 x5 x6 x7; Ascii y0 y1 y2 y3 y4 y5 y6 y7] =>
      String (b64_char (x7, x6, x5, x4, x3, x2))
        (String (b64_char (x1, x0, y7, y6, y5, y4))
           (String (b64_char (y3, y2, y1, y0, false, false)) "="))
  | Ascii x0 x1 x2 x3 x4 x5 x6 x7 :: Ascii y0 y1 y2 y3 y4 y5 y6 y7
      :: Ascii z0 z1 z2 z3 z4 z5 z6 z7 :: rest =>
      String (b64_char (x7, x6, x5, x4, x3, x2))
        (String (b64_char (x1, x0, y7, y6, y5, y4))
           (String (b64_char (y3, y2, y1, y0, z7, z6))
              (String (b64_char (z5, z4, z3, z2, z1, z0)) (b64_encode rest))))
  end.

(** [Buffer.from(s, 'base64')] is forgiving: a character outside the table
    is skipped, the first ['='] ends the input, and the bits of an
    incomplete last group that do not fill a byte are dropped. *)
Fixpoint b64_digits (s : string) : list sextet :=
  match s with
  | EmptyString => []
  | String c rest =>
      if Ascii.eqb c "="%char then []
      else match unbase64 c with
           | Some d => d :: b64_digits rest
           | None => b64_digits rest
           end
  end.

Fixpoint b64_bytes (ds : list sextet) : list ascii :=
  match ds with
  | (a5, a4, a3, a2, a1, a0) :: (b5, b4, b3, b2, b1, b0)
      :: (c5, c4, c3, c2, c1, c0) :: (d5, d4, d3, d2, d1, d0) :: rest =>
      Ascii b4 b5 a0 a1 a2 a3 a4 a5
        :: Ascii c2 c3 c4 c5 b0 b1 b2 b3
        :: Ascii d0 d1 d2 d3 d4 d5 c0 c1 :: b64_bytes rest
  | [(a5, a4, a3, a2, a1, a0); (b5, b4, b3, b2, b1, b0);
     (c5, c4, c3, c2, c1, c0)] =>
      [Ascii b4 b5 a0 a1 a2 a3 a4 a5; Ascii c2 c3 c4 c5 b0 b1 b2 b3]
  | [(a5, a4, a3, a2, a1, a0); (b5, b4, b3, b2, b1, b0)] =>
      [Ascii b4 b5 a0 a1 a2 a3 a4 a5]
  | _ => []
  end.

Definition b64_decode (s : string) : list ascii := b64_bytes (b64_digits s).


(** ** [String.prototype.split] with a one-character separator *)

Fixpoint split (sep : ascii) (s : string) : list string :=
  match s with
  | EmptyString => [EmptyString]
  | String c rest =>
      if Ascii.eqb c sep then EmptyString :: split sep rest
      else match split sep rest with
           | seg :: segs => String c seg :: segs
           | [] => [String c EmptyString]
           end
  end.

(** ** The parts of Node's [crypto] module the vault calls

    [sha256] is [createHash('sha256').update(s).digest()].  [gcm_seal key iv
    plaintext] is the cipher [createCipheriv('aes-256-gcm', key, iv)] fed the
    UTF-8 plaintext: it gives the ciphertext and the authentication tag.
    [gcm_open key iv tag ciphertext] is the decipher with [setAuthTag]: the
    plaintext, or [None] when any of its steps throws (bad nonce or tag
    length, tag mismatch).  A string stands for the text it holds: the
    ['utf8'] encoding on the way in and on the way out is part of the two
    functions. *)
Class NodeCrypto : Type := {
  sha256 : string -> list ascii;
  gcm_seal : list ascii -> list ascii -> string -> list ascii * list ascii;
  gcm_open : list ascii -> list ascii -> list ascii -> list ascii -> option string;
}.

(** The contract of an authenticated cipher: what was sealed opens. *)
Definition gcm_correct (L : NodeCrypto) : Prop :=
  forall key iv plaintext,
    gcm_open key iv (snd (gcm_seal key iv plaintext)) (fst (gcm_seal key iv plaintext))
    = Some plaintext.

(** ** Data model *)

(** [process.env], the variables this subsystem reads. *)
Record environment : Type := {
  SESSION_SECRET : option string;
  EBAY_APP_CLIENT_ID : option string;
  EBAY_APP_CLIENT_SECRET : option string;
  EBAY_RUNAME : option string;
}.

(** A row of table [users], keyed by [id] in the table below.  The columns
    are those the modelled queries read or write; [updated_at], which every
    update stamps and nothing reads, is left out.  The constraints of the
    schema (NOT NULL, UNIQUE) are the database's: a statement they reject is
    a rejected query, see [db_down] below. *)
Record user_row : Type := {
  role : string;
  account_id : option Z;
  first_name : option string;
  last_name : option string;
  company_name : option string;
  email : option string;
  example_template : option string;
  ebay_token : option string;
  ebay_client_id : option string;
  ebay_client_secret : option string;
  ebay_oauth_access_token : option string;
  ebay_oauth_refresh_token : option string;
  ebay_oauth_token_expiry : option Z;
  ebay_oauth_username : option string;
}.

(** [req.session]. *)
Record session_data : Type := {
  userId : option Z;
  session_role : option string;
  accountId : option Z;
  ebayOAuthState : option string;
}.

(** [req.userConfig], the resolved credential bundle. *)
Record user_config : Type := {
  ebayToken : string;
  ebayClientId : string;
  ebayClientSecret : string;
  ebayOAuthToken : option string;
  ebayOAuthConnected : bool;
  ebayOAuthUsername : option string;
}.

(** An outbound [fetch]: the URL, the [Authorization] header and the form
    fields of the body. *)
Record http_request : Type := {
  url : string;
  authorization : string;
  form : list (string * string);
}.

(** The JSON object a provider endpoint answers with. *)
Record json_body : Type := {
  access_token : option string;
  refresh_token : option string;
  expires_in : option Z;
  error_description : option string;
  error : option string;
  username : option string;
}.

(** What [fetch] followed by [resp.json()] can give: a rejected promise
    (network error), or a response with its [ok] flag and its body, [None]
    when the body does not parse as a JSON object. *)
Inductive fetch_result : Type :=
  | NetworkError
  | Response (ok : bool) (body : option json_body).

(** The world a handler runs in.  [db_down], [clock], [entropy] and
    [network] are the outside: whether the n-th query is rejected, what the
    n-th [Date.now()] reads, the bytes [crypto.randomBytes] yields, and what
    the provider answers to the n-th request.  The counters next to them and
    the remaining fields change as the handler runs. *)
Record world : Type := {
  env : environment;
  db : gmap Z user_row;
  db_down : nat -> bool;
  queries : nat;
  clock : nat -> Z;
  clock_reads : nat;
  entropy : nat -> ascii;
  entropy_used : nat;
  network : nat -> http_request -> fetch_result;
  requests : list http_request;
  session : option session_data;
  userConfig : option user_config;
}.

(** [{ set, preview }], what the configuration read shows of a manual key. *)
Record masked : Type := {
  set : bool;
  preview : string;
}.

(** The body of the configuration read; the three key entries are present
    for admins only. *)
Record config_view : Type := {
  view_first_name : string;
  view_last_name : string;
  view_company_name : string;
  view_email : string;
  view_example_template : string;
  view_role : option string;
  view_ebay_token : option masked;
  view_ebay_client_id : option masked;
  view_ebay_client_secret : option masked;
}.

(** How a handler ends the request: [next()], [res.redirect], or
    [res.status(..).json(..)]. *)
Inductive reply : Type :=
  | Next
  | Redirect (location : string)
  | JsonError (status : Z) (message : string)
  | JsonSuccess
  | JsonConfig (view : config_view).

(** A field of a JSON request body: absent, [null] or a string. *)
Inductive js_field : Type :=
  | Undefined
  | Null
  | Str (s : string).

Definition field_value (f : js_field) : option string :=
  match f with
  | Str s => Some s
  | _ => None
  end.

Definition is_undefined (f : js_field) : bool :=
  match f with
  | Undefined => true
  | _ => false
  end.

(** The body of the configuration write. *)
Record config_body : Type := {
  body_first_name : js_field;
  body_last_name : js_field;
  body_company_name : js_field;
  body_email : js_field;
  body_ebay_token : js_field;
  body_ebay_client_id : js_field;
  body_ebay_client_secret : js_field;
  body_example_template : js_field;
}.

(** [req.query] of the OAuth callback. *)
Record callback_query : Type := {
  query_code : option string;
  query_state : option string;
  query_error : option string;
}.

(** The text columns the configuration write sets by name. *)
Inductive column : Type :=
  | col_first_name
  | col_last_name
  | col_company_name
  | col_email
  | col_ebay_token
  | col_ebay_client_id
  | col_ebay_client_secret
  | col_example_template.

(** ** Completions and the handler monad *)

Inductive completion (A : Type) : Type :=
  | Return (a : A)
  | Throw (message : string).
Arguments Return {A} a.
Arguments Throw {A} message.

Definition M (A : Type) : Type := world -> completion A * world.

#[global] Instance M_ret : MRet M := fun A a w => (Return a, w).
#[global] Instance M_bind : MBind M := fun A B k m w =>
  match m w with
  | (Return a, w') => k a w'
  | (Throw e, w') => (Throw e, w')
  end.

Definition throw {A : Type} (message : string) : M A :=
  fun w => (Throw message, w).

(** [try { m } catch (e) { h(e) }]: the effects of [m] up to the throw stay. *)
Definition try_catch {A : Type} (m : M A) (h : string -> M A) : M A :=
  fun w =>
    match m w with
    | (Return a, w') => (Return a, w')
    | (Throw e, w') => h e w'
    end.

Definition get_world : M world := fun w => (Return w, w).

Definition set_db (d : gmap Z user_row) (w : world) : world :=
  {| env := env w; db := d; db_down := db_down w; queries := queries w;
     clock := clock w; clock_reads := clock_reads w;
     entropy := entropy w; entropy_used := entropy_used w;
     network := network w; requests := requests w;
     session := session w; userConfig := userConfig w |}.

Definition set_queries (n : nat) (w : world) : world :=
  {| env := env w; db := db w; db_down := db_down w; queries := n;
     clock := clock w; clock_reads := clock_reads w;
     entropy := entropy w; entropy_used := entropy_used w;
     network := network w; requests := requests w;
     session := session w; userConfig := userConfig w |}.

Definition set_clock_reads (n : nat) (w : world) : world :=
  {| env := env w; db := db w; db_down := db_down w; queries := queries w;
     clock := clock w; clock_reads := n;
     entropy := entropy w; entropy_used := entropy_used w;
     network := network w; requests := requests w;
     session := session w; userConfig := userConfig w |}.

Definition set_entropy_used (n : nat) (w : world) : world :=
  {| env := env w; db := db w; db_down := db_down w; queries := queries w;
     clock := clock w; clock_reads := clock_reads w;
     entropy := entropy w; entropy_used := n;
     network := network w; requests := requests w;
     session := session w; userConfig := userConfig w |}.

Definition set_requests (l : list http_request) (w : world) : world :=
  {| env := env w; db := db w; db_down := db_down w; queries := queries w;
     clock := clock w; clock_reads := clock_reads w;
     entropy := entropy w; entropy_used := entropy_used w;
     network := network w; requests := l;
     session := session w; userConfig := userConfig w |}.

Definition set_session (s : option session_data) (w : world) : world :=
  {| env := env w; db := db w; db_down := db_down w; queries := queries w;
     clock := clock w; clock_reads := clock_reads w;
     entropy := entropy w; entropy_used := entropy_used w;
     network := network w; requests := requests w;
     session := s; userConfig := userConfig w |}.

Definition set_userConfig (c : option user_config) (w : world) : world :=
  {| env := env w; db := db w; db_down := db_down w; queries := queries w;
     clock := clock w; clock_reads := clock_reads w;
     entropy := entropy w; entropy_used := entropy_used w;
     network := network w; requests := requests w;
     session := session w; userConfig := c |}.

(** [Date.now()]. *)
Definition Date_now : M Z := fun w =>
  (Return (clock w (clock_reads w)), set_clock_reads (S (clock_reads w)) w).

(** [crypto.randomBytes(n)]. *)
Definition randomBytes (n : nat) : M (list ascii) := fun w =>
  (Return (map (fun i => entropy w (entropy_used w + i)%nat) (seq 0 n)),
   set_entropy_used (entropy_used w + n)%nat w).

(** [await fetch(...)] and [await resp.json()] on the answer. *)
Definition fetch (r : http_request) : M fetch_result := fun w =>
  (Return (network w (length (requests w)) r), set_requests (requests w ++ [r]) w).

(** [await pool.query(...)]: the promise is rejected when the database
    refuses the statement (connection lost, constraint violated), otherwise
    the statement [q] runs on the table. *)
Definition pool_query {A : Type} (q : gmap Z user_row -> A * gmap Z user_row) : M A :=
  fun w =>
    let w' := set_queries (S (queries w)) w in
    if db_down w (queries w) then (Throw "pool.query rejected", w')
    else let '(a, d) := q (db w) in (Return a, set_db d w').

(** [UPDATE users SET ... WHERE id = $n]. *)
Definition sql_update (f : user_row -> user_row) (id : option Z)
    (d : gmap Z user_row) : unit * gmap Z user_row :=
  match id with
  | Some i => (tt, alter f i d)
  | None => (tt, d)
  end.

(** ** crypto-utils.js *)

Section Handlers.
Context {L : NodeCrypto}.

(** [getKey()]: hashing an undefined [SESSION_SECRET] throws a [TypeError]. *)
Definition getKey (e : environment) : completion (list ascii) :=
  match SESSION_SECRET e with
  | Some secret => Return (sha256 secret)
  | None => Throw "ERR_INVALID_ARG_TYPE"
  end.

(** The token [encrypt] builds from the key, the nonce and the plaintext. *)
Definition seal_token (key iv : list ascii) (plaintext : string) : string :=
  let encrypted := b64_encode (fst (gcm_seal key iv plaintext)) in
  let tag := snd (gcm_seal key iv plaintext) in
  b64_encode iv ++ ":" ++ b64_encode tag ++ ":" ++ encrypted.

Definition encrypt (plaintext : option string) : M (option string) :=
  match plaintext with
  | None => mret None
  | Some p =>
      if String.eqb p "" then mret None
      else
        w ← get_world;
        match getKey (env w) with
        | Throw e => throw e
        | Return key =>
            iv ← randomBytes 12;
            mret (Some (seal_token key iv p))
        end
  end.

(** [decrypt]: everything after the first test runs inside [try], and the
    [catch] returns [null].  Fewer than three segments leave [tagB64] or
    [ciphertext] undefined, on which [Buffer.from] and [decipher.update]
    throw. *)
Definition decrypt (e : environment) (stored : option string) : option string :=
  if negb (truthy stored) then None
  else
    match getKey e with
    | Throw _ => None
    | Return key =>
        match split ":" (default "" stored) with
        | ivB64 :: tagB64 :: ciphertext :: _ =>
            let iv := b64_decode ivB64 in
            let tag := b64_decode tagB64 in
            gcm_open key iv tag (b64_decode ciphertext)
        | _ => None
        end
    end.

(** ** Statements on table [users] *)

Definition set_column (c : column) (v : option string) (r : user_row) : user_row :=
  {| role := role r; account_id := account_id r;
     first_name := match c with col_first_name => v | _ => first_name r end;
     last_name := match c with col_last_name => v | _ => last_name r end;
     company_name := match c with col_company_name => v | _ => company_name r end;
     email := match c with col_email => v | _ => email r end;
     example_template := match c with col_example_template => v | _ => example_template r end;
     ebay_token := match c with col_ebay_token => v | _ => ebay_token r end;
     ebay_client_id := match c with col_ebay_client_id => v | _ => ebay_client_id r end;
     ebay_client_secret := match c with col_ebay_client_secret => v | _ => ebay_client_secret r end;
     ebay_oauth_access_token := ebay_oauth_access_token r;
     ebay_oauth_refresh_token := ebay_oauth_refresh_token r;
     ebay_oauth_token_expiry := ebay_oauth_token_expiry r;
     ebay_oauth_username := ebay_oauth_username r |}.

(** [SET c1 = $1, c2 = $2, ...], assigned left to right. *)
Definition set_columns (l : list (column * option string)) (r : user_row) : user_row :=
  fold_left (fun acc cv => set_column (fst cv) (snd cv) acc) l r.

(** [SET ebay_oauth_access_token = $1, ebay_oauth_refresh_token = $2,
    ebay_oauth_token_expiry = $3, ebay_oauth_username = $4]. *)
Definition set_oauth (access refresh : option string) (expiry : option Z)
    (name : option string) (r : user_row) : user_row :=
  {| role := role r; account_id := account_id r;
     first_name := first_name r; last_name := last_name r;
     company_name := company_name r; email := email r;
     example_template := example_template r;
     ebay_token := ebay_token r; ebay_client_id := ebay_client_id r;
     ebay_client_secret := ebay_client_secret r;
     ebay_oauth_access_token := access;
     ebay_oauth_refresh_token := refresh;
     ebay_oauth_token_expiry := expiry;
     ebay_oauth_username := name |}.

(** [SET ebay_oauth_access_token = $1, ebay_oauth_token_expiry = $2,
    ebay_oauth_refresh_token = $3]. *)
Definition set_refreshed_rotating (access : option string) (expiry : Z)
    (refresh : option string) (r : user_row) : user_row :=
  set_oauth access refresh (Some expiry) (ebay_oauth_username r) r.

(** [SET ebay_oauth_access_token = $1, ebay_oauth_token_expiry = $2]. *)
Definition set_refreshed (access : option string) (expiry : Z) (r : user_row) : user_row :=
  set_oauth access (ebay_oauth_refresh_token r) (Some expiry) (ebay_oauth_username r) r.

(** [SELECT u.role, u.account_id, owner.* FROM users u JOIN users owner ON
    owner.id = u.account_id WHERE u.id = $1]: each result row is given as
    the pair of the user's row and the owner's row. *)
Definition select_user_with_owner (id : option Z) (d : gmap Z user_row)
    : list (user_row * user_row) * gmap Z user_row :=
  (match id with
   | Some i =>
       match d !! i with
       | Some u =>
           match account_id u with
           | Some a =>
               match d !! a with
               | Some owner => [(u, owner)]
               | None => []
               end
           | None => []
           end
       | None => []
       end
   | None => []
   end, d).

(** [SELECT ... FROM users WHERE id = $1]. *)
Definition select_by_id (id : option Z) (d : gmap Z user_row)
    : list user_row * gmap Z user_row :=
  (match id with
   | Some i => match d !! i with Some r => [r] | None => [] end
   | None => []
   end, d).

(** ** Changes to [req] *)

Definition modify_session (f : session_data -> session_data) : M unit :=
  fun w => (Return tt, set_session (f <$> session w) w).

Definition session_destroy : M unit :=
  fun w => (Return tt, set_session None w).

Definition modify_userConfig (f : user_config -> user_config) : M unit :=
  fun w => (Return tt, set_userConfig (f <$> userConfig w) w).

Definition assign_userConfig (c : user_config) : M unit :=
  fun w => (Return tt, set_userConfig (Some c) w).

Definition set_session_role (r : option string) (s : session_data) : session_data :=
  {| userId := userId s; session_role := r; accountId := accountId s;
     ebayOAuthState := ebayOAuthState s |}.

Definition set_session_accountId (a : option Z) (s : session_data) : session_data :=
  {| userId := userId s; session_role := session_role s; accountId := a;
     ebayOAuthState := ebayOAuthState s |}.

Definition set_session_state (st : option string) (s : session_data) : session_data :=
  {| userId := userId s; session_role := session_role s; accountId := accountId s;
     ebayOAuthState := st |}.

Definition set_oauth_token (t : option string) (c : user_config) : user_config :=
  {| ebayToken := ebayToken c; ebayClientId := ebayClientId c;
     ebayClientSecret := ebayClientSecret c;
     ebayOAuthToken := t; ebayOAuthConnected := ebayOAuthConnected c;
     ebayOAuthUsername := ebayOAuthUsername c |}.

Definition set_oauth_connected (b : bool) (c : user_config) : user_config :=
  {| ebayToken := ebayToken c; ebayClientId := ebayClientId c;
     ebayClientSecret := ebayClientSecret c;
     ebayOAuthToken := ebayOAuthToken c; ebayOAuthConnected := b;
     ebayOAuthUsername := ebayOAuthUsername c |}.

(** Run [next] when the middleware before it called [next()]. *)
Definition and_then (middleware next : M reply) : M reply :=
  r ← middleware;
  match r with
  | Next => next
  | _ => mret r
  end.

(** ** middleware/auth.js *)

Definition starts_with (p s : string) : bool := String.prefix p s.

Definition requireAuth (path : string) : M reply :=
  w ← get_world;
  match session w with
  | Some s =>
      if truthy_num (userId s) then mret Next
      else if starts_with "/api/" path then mret (JsonError 401 "Not authenticated")
      else mret (Redirect "/login.html")
  | None =>
      if starts_with "/api/" path then mret (JsonError 401 "Not authenticated")
      else mret (Redirect "/login.html")
  end.

Definition requireRole (roles : list string) : M reply :=
  w ← get_world;
  let userRole := s ← session w; session_role s in
  if negb (truthy userRole) || negb (existsb (String.eqb (default "" userRole)) roles)
  then mret (JsonError 403 "Insufficient permissions")
  else mret Next.

Definition EBAY_OAUTH_SCOPES : string :=
  "https://api.ebay.com/oauth/api_scope"
  ++ " " ++ "https://api.ebay.com/oauth/api_scope/sell.inventory"
  ++ " " ++ "https://api.ebay.com/oauth/api_scope/sell.account"
  ++ " " ++ "https://api.ebay.com/oauth/api_scope/sell.fulfillment"
  ++ " " ++ "https://api.ebay.com/oauth/api_scope/commerce.identity.readonly".

Definition token_endpoint : string := "https://api.ebay.com/identity/v1/oauth2/token".

(** [Buffer.from(`${clientId}:${clientSecret}`).toString('base64')]. *)
Definition basic_credentials (clientId clientSecret : string) : string :=
  b64_encode (list_ascii_of_string (clientId ++ ":" ++ clientSecret)).

Definition refresh_request (clientId clientSecret refreshToken : string) : http_request :=
  {| url := token_endpoint;
     authorization := "Basic " ++ basic_credentials clientId clientSecret;
     form := [("grant_type", "refresh_token");
              ("refresh_token", refreshToken);
              ("scope", EBAY_OAUTH_SCOPES)] |}.

(** [(data.expires_in || 7200) * 1000]. *)
Definition lifetime_ms (expires : option Z) : Z :=
  (if truthy_num expires then default 0 expires else 7200) * 1000.

Definition refreshEbayOAuthToken (refreshToken : option string) (accountId : option Z)
    : M (option string) :=
  w ← get_world;
  let clientId := EBAY_APP_CLIENT_ID (env w) in
  let clientSecret := EBAY_APP_CLIENT_SECRET (env w) in
  if negb (truthy clientId) || negb (truthy clientSecret) || negb (truthy refreshToken)
  then mret None
  else
    resp ← fetch (refresh_request (default "" clientId) (default "" clientSecret)
                    (default "" refreshToken));
    match resp with
    | NetworkError => throw "fetch failed"
    | Response _ None => throw "invalid json response body"
    | Response ok (Some data) =>
        if negb ok || negb (truthy (access_token data))
        then throw (or_str (or_else (error_description data) (error data))
                      "Token refresh failed")
        else
          now ← Date_now;
          let newExpiry := now + lifetime_ms (expires_in data) in
          (if truthy (refresh_token data)
           then
             access ← encrypt (access_token data);
             refresh ← encrypt (refresh_token data);
             pool_query (sql_update (set_refreshed_rotating access newExpiry refresh) accountId)
           else
             access ← encrypt (access_token data);
             pool_query (sql_update (set_refreshed access newExpiry) accountId));;
          mret (access_token data)
    end.

Definition EXPIRY_BUFFER_MS : Z := 5 * 60 * 1000.

(** The block of [loadUserConfig] under "Try to use OAuth token if
    available". *)
Definition use_oauth_token (u owner : user_row) : M unit :=
  if truthy (ebay_oauth_access_token owner)
  then
    w ← get_world;
    isExpired ← match ebay_oauth_token_expiry owner with
                | None => mret true
                | Some expiry =>
                    now ← Date_now;
                    mret (now >? expiry - EXPIRY_BUFFER_MS)
                end;
    if negb isExpired
    then
      modify_userConfig (set_oauth_token (decrypt (env w) (ebay_oauth_access_token owner)));;
      modify_userConfig (set_oauth_connected true)
    else if truthy (ebay_oauth_refresh_token owner)
    then
      try_catch
        (refreshed ← refreshEbayOAuthToken
                       (decrypt (env w) (ebay_oauth_refresh_token owner)) (account_id u);
         if truthy refreshed
         then
           modify_userConfig (set_oauth_token refreshed);;
           modify_userConfig (set_oauth_connected true)
         else mret tt)
        (fun refreshErr => mret tt)
    else mret tt
  else mret tt.

(** The block under "Refresh session role/accountId from DB". *)
Definition sync_session (u : user_row) : M unit :=
  w ← get_world;
  (if negb (strict_eq (Some (role u)) (s ← session w; session_role s))
   then modify_session (set_session_role (Some (role u)))
   else mret tt);;
  w ← get_world;
  (if negb (bool_decide (account_id u = (s ← session w; accountId s)))
   then modify_session (set_session_accountId (account_id u))
   else mret tt).

Definition loadUserConfig : M reply :=
  w ← get_world;
  match session w with
  | None => mret Next
  | Some s =>
      if negb (truthy_num (userId s)) then mret Next
      else
        try_catch
          (rows ← pool_query (select_user_with_owner (userId s));
           match rows with
           | [] =>
               session_destroy;;
               mret (JsonError 401 "User not found")
           | (u, owner) :: _ =>
               assign_userConfig
                 {| ebayToken := or_str (decrypt (env w) (ebay_token owner)) "";
                    ebayClientId := or_str (decrypt (env w) (ebay_client_id owner)) "";
                    ebayClientSecret := or_str (decrypt (env w) (ebay_client_secret owner)) "";
                    ebayOAuthToken := None;
                    ebayOAuthConnected := false;
                    ebayOAuthUsername := or_else (ebay_oauth_username owner) None |};;
               use_oauth_token u owner;;
               sync_session u;;
               mret Next
           end)
          (fun err => mret (JsonError 500 "Internal server error"))
  end.

(** [loadUserConfig] as it was before the OAuth columns existed
    (src/unnamed/part_000); the bundle has the manual keys only, its OAuth
    fields stay unset. *)
Definition loadUserConfig_000 : M reply :=
  w ← get_world;
  match session w with
  | None => mret Next
  | Some s =>
      if negb (truthy_num (userId s)) then mret Next
      else
        try_catch
          (rows ← pool_query (select_user_with_owner (userId s));
           match rows with
           | [] =>
               session_destroy;;
               mret (JsonError 401 "User not found")
           | (u, owner) :: _ =>
               assign_userConfig
                 {| ebayToken := or_str (decrypt (env w) (ebay_token owner)) "";
                    ebayClientId := or_str (decrypt (env w) (ebay_client_id owner)) "";
                    ebayClientSecret := or_str (decrypt (env w) (ebay_client_secret owner)) "";
                    ebayOAuthToken := None;
                    ebayOAuthConnected := false;
                    ebayOAuthUsername := None |};;
               sync_session u;;
               mret Next
           end)
          (fun err => mret (JsonError 500 "Internal server error"))
  end.

(** ** routes/ebay-oauth.js *)

Definition exchange_request (clientId clientSecret code ruName : string) : http_request :=
  {| url := token_endpoint;
     authorization := "Basic " ++ basic_credentials clientId clientSecret;
     form := [("grant_type", "authorization_code");
              ("code", code);
              ("redirect_uri", ruName)] |}.

Definition identity_request (accessToken : string) : http_request :=
  {| url := "https://apiz.ebay.com/commerce/identity/v1/user/";
     authorization := "Bearer " ++ accessToken;
     form := [] |}.

(** The "Best-effort: fetch eBay username" block: its [catch] is empty. *)
Definition fetch_username (accessToken : string) : M (option string) :=
  try_catch
    (userResp ← fetch (identity_request accessToken);
     match userResp with
     | NetworkError => throw "fetch failed"
     | Response true (Some userData) => mret (or_else (username userData) None)
     | Response true None => throw "invalid json response body"
     | Response false _ => mret None
     end)
    (fun e => mret None).

(** The handler of [GET /callback]; it runs behind [requireAuth]. *)
Definition callback (query : callback_query) : M reply :=
  w ← get_world;
  match session w with
  | None => throw "TypeError: Cannot read properties of undefined"
  | Some s =>
      let code := query_code query in
      let state := query_state query in
      let savedState := ebayOAuthState s in
      modify_session (set_session_state None);;
      if strict_eq (query_error query) (Some "access_denied")
         || strict_eq (query_error query) (Some "consent_declined")
      then mret (Redirect "/config.html?ebay_oauth=declined")
      else if negb (truthy savedState) || negb (strict_eq state savedState)
      then mret (Redirect "/config.html?ebay_oauth=error&reason=invalid_state")
      else if negb (truthy code)
      then mret (Redirect "/config.html?ebay_oauth=declined")
      else
        let clientId := EBAY_APP_CLIENT_ID (env w) in
        let clientSecret := EBAY_APP_CLIENT_SECRET (env w) in
        let ruName := EBAY_RUNAME (env w) in
        if negb (truthy clientId) || negb (truthy clientSecret) || negb (truthy ruName)
        then mret (Redirect "/config.html?ebay_oauth=error&reason=server_error")
        else
          try_catch
            (tokenResp ← fetch (exchange_request (default "" clientId)
                                  (default "" clientSecret) (default "" code)
                                  (default "" ruName));
             match tokenResp with
             | NetworkError => throw "fetch failed"
             | Response _ None => throw "invalid json response body"
             | Response ok (Some tokenData) =>
                 if negb ok || negb (truthy (access_token tokenData))
                 then mret (Redirect "/config.html?ebay_oauth=error&reason=token_exchange")
                 else
                   let accessToken := access_token tokenData in
                   let refreshToken := or_else (refresh_token tokenData) None in
                   now ← Date_now;
                   let tokenExpiry := now + lifetime_ms (expires_in tokenData) in
                   ebayUsername ← fetch_username (default "" accessToken);
                   w' ← get_world;
                   let accountId := s' ← session w'; accountId s' in
                   access ← encrypt accessToken;
                   refresh ← (if truthy refreshToken then encrypt refreshToken
                              else mret None);
                   pool_query (sql_update
                                 (set_oauth access refresh (Some tokenExpiry) ebayUsername)
                                 accountId);;
                   mret (Redirect "/config.html?ebay_oauth=success")
             end)
            (fun err => mret (Redirect "/config.html?ebay_oauth=error&reason=server_error"))
  end.

(** The handler of [POST /disconnect]. *)
Definition disconnect : M reply :=
  try_catch
    (w ← get_world;
     match session w with
     | None => throw "TypeError: Cannot read properties of undefined"
     | Some s =>
         pool_query (sql_update (set_oauth None None None None) (accountId s));;
         mret JsonSuccess
     end)
    (fun err => mret (JsonError 500 "Failed to disconnect eBay account")).

(** [router.post('/disconnect', requireAuth, requireRole('admin'), ...)]. *)
Definition disconnect_route (path : string) : M reply :=
  and_then (requireAuth path) (and_then (requireRole ["admin"]) disconnect).

(** [router.get('/callback', requireAuth, ...)]. *)
Definition callback_route (path : string) (query : callback_query) : M reply :=
  and_then (requireAuth path) (callback query).

(** ** routes/config.js *)

(** [plain.slice(-n)]. *)
Definition slice_last (n : nat) (s : string) : string :=
  String.substring (String.length s - n) n s.

Definition mask (e : environment) (enc : option string) : masked :=
  if negb (truthy enc) then {| set := false; preview := "" |}
  else
    let plain := decrypt e enc in
    if negb (truthy plain) then {| set := false; preview := "" |}
    else
      let p := default "" plain in
      {| set := true; preview := String.substring 0 6 p ++ "..." ++ slice_last 4 p |}.

(** The handler of [GET /api/config]. *)
Definition get_config : M reply :=
  try_catch
    (w ← get_world;
     match session w with
     | None => throw "TypeError: Cannot read properties of undefined"
     | Some s =>
         profileResult ← pool_query (select_by_id (userId s));
         match profileResult with
         | [] => mret (JsonError 404 "User not found")
         | profile :: _ =>
             ownerResult ← pool_query (select_by_id (accountId s));
             let owner := head ownerResult in
             let admin := strict_eq (session_role s) (Some "admin") in
             let show (c : user_row -> option string) :=
               if admin then Some (mask (env w) (o ← owner; c o)) else None in
             mret (JsonConfig
                     {| view_first_name := or_str (first_name profile) "";
                        view_last_name := or_str (last_name profile) "";
                        view_company_name := or_str (company_name profile) "";
                        view_email := or_str (email profile) "";
                        view_example_template := or_str (o ← owner; example_template o) "";
                        view_role := session_role s;
                        view_ebay_token := show ebay_token;
                        view_ebay_client_id := show ebay_client_id;
                        view_ebay_client_secret := show ebay_client_secret |})
         end
     end)
    (fun err => mret (JsonError 500 "Failed to load config")).

(** The first loop of the write: [if (val !== undefined) push(val || null)]. *)
Fixpoint profile_updates (l : list (column * js_field)) : list (column * option string) :=
  match l with
  | [] => []
  | (col, val) :: rest =>
      if negb (is_undefined val)
      then (col, or_else (field_value val) None) :: profile_updates rest
      else profile_updates rest
  end.

(** The second loop: [if (val !== undefined) push(val ? encrypt(val) : null)]. *)
Fixpoint key_updates (l : list (column * js_field)) : M (list (column * option string)) :=
  match l with
  | [] => mret []
  | (col, val) :: rest =>
      if negb (is_undefined val)
      then
        v ← (if truthy (field_value val) then encrypt (field_value val) else mret None);
        updates ← key_updates rest;
        mret ((col, v) :: updates)
      else key_updates rest
  end.

(** The three manual-key fields of the body, with their columns. *)
Definition key_fields (body : config_body) : list (column * js_field) :=
  [(col_ebay_token, body_ebay_token body);
   (col_ebay_client_id, body_ebay_client_id body);
   (col_ebay_client_secret, body_ebay_client_secret body)].

(** [ebay_token || ebay_client_id || ebay_client_secret]. *)
Definition submits_key (body : config_body) : bool :=
  truthy (field_value (body_ebay_token body))
  || truthy (field_value (body_ebay_client_id body))
  || truthy (field_value (body_ebay_client_secret body)).

(** "1. Profile fields": written to the user's own row. *)
Definition save_profile (userId : option Z) (body : config_body) : M unit :=
  let profileUpdates :=
    profile_updates [(col_first_name, body_first_name body);
                     (col_last_name, body_last_name body);
                     (col_company_name, body_company_name body);
                     (col_email, body_email body)] in
  if (0 <? length profileUpdates)%nat
  then pool_query (sql_update (set_columns profileUpdates) userId)
  else mret tt.

(** "2. eBay keys": admin only, written to the owner's row.  [Next] stands
    for falling through to the next section. *)
Definition save_keys (role : option string) (accountId : option Z)
    (body : config_body) : M reply :=
  if submits_key body
  then
    if negb (strict_eq role (Some "admin"))
    then mret (JsonError 403 "Only admins can update eBay API keys")
    else
      keyUpdates ← key_updates (key_fields body);
      (if (0 <? length keyUpdates)%nat
       then pool_query (sql_update (set_columns keyUpdates) accountId)
       else mret tt);;
      mret Next
  else mret Next.

(** "3. Template": not for operators, written to the owner's row. *)
Definition save_template (role : option string) (accountId : option Z)
    (body : config_body) : M reply :=
  if negb (is_undefined (body_example_template body))
  then
    if strict_eq role (Some "operator")
    then mret (JsonError 403 "Operators cannot update the listing template")
    else
      pool_query (sql_update
                    (set_column col_example_template
                       (or_else (field_value (body_example_template body)) None))
                    accountId);;
      mret JsonSuccess
  else mret JsonSuccess.

(** The handler of [PUT /api/config].  A section that answers 403 ends the
    handler; otherwise the next section runs. *)
Definition put_config (body : config_body) : M reply :=
  w ← get_world;
  match session w with
  | None => throw "TypeError: Cannot read properties of undefined"
  | Some s =>
      let role := session_role s in
      let userId := userId s in
      let accountId := accountId s in
      try_catch
        (save_profile userId body;;
         keys ← save_keys role accountId body;
         match keys with
         | Next => save_template role accountId body
         | answered => mret answered
         end)
        (fun err => mret (JsonError 500 "Failed to save config"))
  end.

(** Reading a text column by name. *)
Definition get_column (c : column) (r : user_row) : option string :=
  match c with
  | col_first_name => first_name r
  | col_last_name => last_name r
  | col_company_name => company_name r
  | col_email => email r
  | col_ebay_token => ebay_token r
  | col_ebay_client_id => ebay_client_id r
  | col_ebay_client_secret => ebay_client_secret r
  | col_example_template => example_template r
  end.

(** The manual-key triplet of a row. *)
Definition manual_keys (r : user_row) : option string * option string * option string :=
  (ebay_token r, ebay_client_id r, ebay_client_secret r).

End Handlers.

(** ** A small instance of the [crypto] interface

    The concrete runs further down are evaluated on it: it is the instance
    a statement with no [NodeCrypto] of its own runs on.  The cipher xors
    every byte with a pad byte drawn from the key and the nonce; the tag is
    sixteen bytes of a running sum over key, nonce and ciphertext.  It
    stands in for AES-256-GCM where a run needs some cipher; what is proved
    for every [NodeCrypto] does not depend on it. *)

Definition xor_ascii (a b : ascii) : ascii :=
  let '(Ascii a0 a1 a2 a3 a4 a5 a6 a7) := a in
  let '(Ascii b0 b1 b2 b3 b4 b5 b6 b7) := b in
  Ascii (xorb a0 b0) (xorb a1 b1) (xorb a2 b2) (xorb a3 b3)
        (xorb a4 b4) (xorb a5 b5) (xorb a6 b6) (xorb a7 b7).

Definition sample_pad (key iv : list ascii) : ascii :=
  fold_right xor_ascii zero (key ++ iv).

Definition sample_tag (key iv ct : list ascii) : list ascii :=
  let total := fold_right (fun c n => (nat_of_ascii c + n)%nat) 0%nat (key ++ iv ++ ct) in
  map (fun i => ascii_of_nat ((total + 7 * i) mod 256)) (seq 1 16).

Definition list_ascii_eqb (a b : list ascii) : bool :=
  String.eqb (string_of_list_ascii a) (string_of_list_ascii b).

#[global] Instance sample_crypto : NodeCrypto := {|
  sha256 := fun s => list_ascii_of_string s;
  gcm_seal := fun key iv plaintext =>
    let ct := map (xor_ascii (sample_pad key iv)) (list_ascii_of_string plaintext) in
    (ct, sample_tag key iv ct);
  gcm_open := fun key iv tag ct =>
    if list_ascii_eqb tag (sample_tag key iv ct)
    then Some (string_of_list_ascii (map (xor_ascii (sample_pad key iv)) ct))
    else None;
|}.

(** [changed_at i c s]: the string [s] with the character at index [i]
    replaced by [c], when [c] differs from the character there. *)
Fixpoint changed_at (i : nat) (c : ascii) (s : string) : option string :=
  match s, i with
  | EmptyString, _ => None
  | String x rest, O => if Ascii.eqb x c then None else Some (String c rest)
  | String x rest, S j => String x <$> changed_at j c rest
  end.

(** [s.includes(c)] for a character. *)
Fixpoint contains (c : ascii) (s : string) : bool :=
  match s with
  | EmptyString => false
  | String x rest => Ascii.eqb x c || contains c rest
  end.

(** ** Sample data for the concrete runs *)

Definition sample_env : environment :=
  {| SESSION_SECRET := Some "session-secret";
     EBAY_APP_CLIENT_ID := Some "app-id";
     EBAY_APP_CLIENT_SECRET := Some "app-cert";
     EBAY_RUNAME := Some "ru-name" |}.

(** The account owner, user 1, with the given credential columns. *)
Definition sample_owner (token access refresh : option string) (expiry : option Z)
    : user_row :=
  {| role := "admin"; account_id := Some 1;
     first_name := Some "Ada"; last_name := Some "Owner";
     company_name := None; email := Some "ada@example.com";
     example_template := None;
     ebay_token := token; ebay_client_id := None; ebay_client_secret := None;
     ebay_oauth_access_token := access;
     ebay_oauth_refresh_token := refresh;
     ebay_oauth_token_expiry := expiry;
     ebay_oauth_username := Some "ada_on_ebay" |}.

Definition sample_session (state : option string) : session_data :=
  {| userId := Some 1; session_role := Some "admin"; accountId := Some 1;
     ebayOAuthState := state |}.

(** A world with the sample environment, a database that accepts every
    statement, a clock that always reads [now], and a fixed entropy source. *)
Definition sample_world (d : gmap Z user_row) (now : Z)
    (net : nat -> http_request -> fetch_result) (s : option session_data) : world :=
  {| env := sample_env; db := d; db_down := fun _ => false; queries := 0;
     clock := fun _ => now; clock_reads := 0;
     entropy := fun i => ascii_of_nat (17 * i + 3); entropy_used := 0;
     network := net; requests := [];
     session := s; userConfig := None |}.

Definition no_network : nat -> http_request -> fetch_result :=
  fun _ _ => NetworkError.

(** The key and a token of the sample environment. *)
Definition sample_key : list ascii := sha256 "session-secret".

Definition sample_iv : list ascii := list_ascii_of_string "0123456789ab".

Definition sample_token (plaintext : string) : string :=
  seal_token sample_key sample_iv plaintext.

(** [req.query.error === 'access_denied' || req.query.error ===
    'consent_declined']: the provider reports that the user declined. *)
Definition reports_denial (query : callback_query) : bool :=
  strict_eq (query_error query) (Some "access_denied")
  || strict_eq (query_error query) (Some "consent_declined").

(** The redirect that ends a callback whose state is not the pending one. *)
Definition invalid_state : reply :=
  Redirect "/config.html?ebay_oauth=error&reason=invalid_state".

(** The invariant of the OAuth columns: a row with an access token has an
    expiry. *)
Definition oauth_row_ok (r : user_row) : bool :=
  match ebay_oauth_access_token r, ebay_oauth_token_expiry r with
  | Some _, None => false
  | _, _ => true
  end.

Definition oauth_consistent (d : gmap Z user_row) : Prop :=
  map_Forall (fun _ r => oauth_row_ok r = true) d.

(** The refresh call fails: network error, a body that is no JSON object,
    a status outside 2xx, or no access token in the answer. *)
Definition refresh_fails (r : fetch_result) : bool :=
  match r with
  | NetworkError => true
  | Response ok None => true
  | Response ok (Some data) => negb ok || negb (truthy (access_token data))
  end.

(** The nonce the next [encrypt] draws. *)
Definition next_iv (w : world) : list ascii :=
  map (fun i => entropy w (entropy_used w + i)%nat) (seq 0 12).

(** The sample table: the owner alone, with a manual token, an OAuth access
    token and refresh token sealed under the sample key, and the given
    expiry. *)
Definition sample_db (expiry : option Z) : gmap Z user_row :=
  {[ 1 := sample_owner (Some (sample_token "manual-token"))
            (Some (sample_token "old-access"))
            (Some (sample_token "old-refresh")) expiry ]}.

(** A provider that answers every request with status 500. *)
Definition failing_provider : nat -> http_request -> fetch_result :=
  fun _ _ => Response false None.

(** A provider that answers every request with the given body. *)
Definition answering_provider (body : json_body) : nat -> http_request -> fetch_result :=
  fun _ _ => Response true (Some body).

Definition token_answer (access refresh : option string) : json_body :=
  {| access_token := access; refresh_token := refresh; expires_in := Some 7200;
     error_description := None; error := None; username := Some "ada_on_ebay" |}.

(** The identity label the callback takes from the identity endpoint's
    answer: [userData.username || null] when the answer is ok and parses. *)
Definition identity_label (r : fetch_result) : option string :=
  match r with
  | Response true (Some userData) => or_else (username userData) None
  | _ => None
  end.

Definition connected : reply := Redirect "/config.html?ebay_oauth=success".

(** A callback query that carries the given state and a code. *)
Definition sample_query (state : option string) : callback_query :=
  {| query_code := Some "auth-code"; query_state := state; query_error := None |}.

#[global] Instance column_eq_dec : EqDecision column.
Proof. solve_decision. Defined.

(** The columns of the manual keys. *)
Definition is_key_column (c : column) : bool :=
  match c with
  | col_ebay_token | col_ebay_client_id | col_ebay_client_secret => true
  | _ => false
  end.

(** A request body with the given manual-key fields and nothing else. *)
Definition keys_body (token client_id client_secret : js_field) : config_body :=
  {| body_first_name := Undefined; body_last_name := Undefined;
     body_company_name := Undefined; body_email := Undefined;
     body_ebay_token := token; body_ebay_client_id := client_id;
     body_ebay_client_secret := client_secret;
     body_example_template := Undefined |}.

(** The owner's row of the sample table. *)
Definition stored_owner (expiry : option Z) : user_row :=
  sample_owner (Some (sample_token "manual-token"))
    (Some (sample_token "old-access")) (Some (sample_token "old-refresh")) expiry.

(** A session with a pending OAuth state, and no user in the table. *)
Definition pending_world : world :=
  sample_world ∅ 0 no_network (Some (sample_session (Some "5f2a"))).

Definition forged_query : callback_query :=
  {| query_code := Some "code"; query_state := Some "0000"; query_error := None |}.

Definition replayed_query : callback_query :=
  {| query_code := Some "code"; query_state := Some "5f2a"; query_error := None |}.

(** A session of user 1, who is in no row of the table. *)
Definition stale_world : world :=
  sample_world ∅ 0 no_network (Some (sample_session None)).

(** The owner consents again: a pending state, stored tokens, and a provider
    that answers with an access token and no refresh token. *)
Definition reconsent_world : world :=
  sample_world (sample_db (Some 1000)) 5000
    (answering_provider (token_answer (Some "new-access") None))
    (Some (sample_session (Some "5f2a"))).

(** The stored token is long expired and the provider answers 500. *)
Definition refresh_failing_world : world :=
  sample_world (sample_db (Some 1000)) 5000000 failing_provider
    (Some (sample_session None)).

(** The stored token expires at 1000000; the clock reads [now]; the provider
    would answer a refresh with a new access token. *)
Definition refreshing_world (now : Z) : world :=
  sample_world (sample_db (Some 1000000)) now
    (answering_provider (token_answer (Some "new-access") None))
    (Some (sample_session None)).

(** An admin's session over the sample table. *)
Definition admin_world : world :=
  sample_world (sample_db (Some 1000)) 0 no_network (Some (sample_session None)).

(** ** Relations between the world before and after a handler *)

(** [keeps R m]: whatever the world, [m] takes it to a world related to it
    by [R], whether [m] returns or throws. *)
Definition keeps {A : Type} (R : relation world) (m : M A) : Prop :=
  forall w, R w (m w).2.

(** The session is as it was. *)
Definition same_session : relation world :=
  fun w w' => session w' = session w.

(** A consistent table stays consistent. *)
Definition keeps_consistent : relation world :=
  fun w w' => oauth_consistent (db w) -> oauth_consistent (db w').

(** Every row is still there with the manual keys it had. *)
Definition same_keys : relation world :=
  fun w w' => forall id, manual_keys <$> db w' !! id = manual_keys <$> db w !! id.

(** What the outside gives is as it was: environment, session, and the
    database's willingness. *)
Definition same_setting : relation world :=
  fun w w' => env w' = env w /\ session w' = session w /\ db_down w' = db_down w.

(** The entry of the configuration read for a manual-key column. *)
Definition view_key (c : column) (v : config_view) : option masked :=
  match c with
  | col_ebay_token => view_ebay_token v
  | col_ebay_client_id => view_ebay_client_id v
  | col_ebay_client_secret => view_ebay_client_secret v
  | _ => None
  end.

(** The table has the same rows (by id) as before. *)
Definition same_rows : relation world :=
  fun w w' => dom (db w') = dom (db w).

Definition unset : masked := {| set := false; preview := "" |}.

(** ** routes/ebay-oauth.js: the initiate route *)

(** [buf.toString('hex')]: two lower-case digits a byte, high nibble first. *)
Definition hex_digit (b3 b2 b1 b0 : bool) : ascii :=
  match String.get (Nat.b2n b3 * 8 + Nat.b2n b2 * 4 + Nat.b2n b1 * 2 + Nat.b2n b0)
          "0123456789abcdef" with
  | Some c => c
  | None => "0"%char
  end.

Fixpoint hex_encode (bs : list ascii) : string :=
  match bs with
  | [] => ""
  | Ascii b0 b1 b2 b3 b4 b5 b6 b7 :: rest =>
      String (hex_digit b7 b6 b5 b4) (String (hex_digit b3 b2 b1 b0) (hex_encode rest))
  end.

(** The bytes [URLSearchParams] leaves as they are: letters, digits and
    [*-._]. *)
Definition url_safe (c : ascii) : bool :=
  let n := nat_of_ascii c in
  ((48 <=? n) && (n <=? 57) || (65 <=? n) && (n <=? 90) || (97 <=? n) && (n <=? 122)
   || (n =? 42) || (n =? 45) || (n =? 46) || (n =? 95))%nat.

Definition upper_hex_digit (b3 b2 b1 b0 : bool) : ascii :=
  match String.get (Nat.b2n b3 * 8 + Nat.b2n b2 * 4 + Nat.b2n b1 * 2 + Nat.b2n b0)
          "0123456789ABCDEF" with
  | Some c => c
  | None => "0"%char
  end.

(** The serializer of [application/x-www-form-urlencoded]: a space becomes
    ['+'], a byte outside the safe set becomes ['%'] and two upper-case hex
    digits. *)
Fixpoint form_urlencode (s : string) : string :=
  match s with
  | EmptyString => ""
  | String c rest =>
      if Ascii.eqb c " " then String "+" (form_urlencode rest)
      else if url_safe c then String c (form_urlencode rest)
      else
        let '(Ascii b0 b1 b2 b3 b4 b5 b6 b7) := c in
        String "%" (String (upper_hex_digit b7 b6 b5 b4)
                      (String (upper_hex_digit b3 b2 b1 b0) (form_urlencode rest)))
  end.

(** [new URLSearchParams({...}).toString()]. *)
Definition URLSearchParams_toString (params : list (string * string)) : string :=
  String.concat "&"
    (map (fun kv => form_urlencode (fst kv) ++ "=" ++ form_urlencode (snd kv)) params).

Definition authorize_endpoint : string := "https://auth.ebay.com/oauth2/authorize".

Definition not_configured : reply :=
  JsonError 500
    "eBay OAuth is not configured. EBAY_APP_CLIENT_ID and EBAY_RUNAME must be set.".

(** The handler of [GET /initiate].  Assigning to [req.session] when there
    is no session throws. *)
Definition initiate : M reply :=
  w ← get_world;
  let clientId := EBAY_APP_CLIENT_ID (env w) in
  let ruName := EBAY_RUNAME (env w) in
  if negb (truthy clientId) || negb (truthy ruName)
  then mret not_configured
  else
    bytes ← randomBytes 16;
    let state := hex_encode bytes in
    w' ← get_world;
    match session w' with
    | None => throw "TypeError: Cannot set properties of undefined"
    | Some _ =>
        modify_session (set_session_state (Some state));;
        let params :=
          URLSearchParams_toString
            [("client_id", default "" clientId);
             ("response_type", "code");
             ("redirect_uri", default "" ruName);
             ("scope", EBAY_OAUTH_SCOPES);
             ("state", state)] in
        mret (Redirect (authorize_endpoint ++ "?" ++ params))
    end.

(** [router.get('/initiate', requireAuth, requireRole('admin'), ...)]. *)
Definition initiate_route (path : string) : M reply :=
  and_then (requireAuth path) (and_then (requireRole ["admin"]) initiate).

(** The state the next [initiate] generates. *)
Definition next_state (w : world) : string :=
  hex_encode (map (fun i => entropy w (entropy_used w + i)%nat) (seq 0 16)).

(** ** More relations and assertions *)

(** The table is as it was. *)
Definition same_table : relation world :=
  fun w w' => db w' = db w.

(** No request was sent. *)
Definition same_requests : relation world :=
  fun w w' => requests w' = requests w.

(** The four OAuth columns of a row. *)
Definition oauth_columns (r : user_row)
    : option string * option string * option Z * option string :=
  (ebay_oauth_access_token r, ebay_oauth_refresh_token r,
   ebay_oauth_token_expiry r, ebay_oauth_username r).

(** Every row is still there with the OAuth columns it had. *)
Definition same_oauth : relation world :=
  fun w w' => forall id, oauth_columns <$> db w' !! id = oauth_columns <$> db w !! id.

(** [triple I m Q]: from a world that satisfies [I], the handler [m] ends in
    a completion and a world that satisfy [Q]. *)
Definition triple {A : Type} (I : world -> Prop) (m : M A)
    (Q : completion A -> world -> Prop) : Prop :=
  forall w, I w -> Q (m w).1 (m w).2.

(** The five ways the callback redirects. *)
Definition declined : reply := Redirect "/config.html?ebay_oauth=declined".
Definition token_exchange_failed : reply :=
  Redirect "/config.html?ebay_oauth=error&reason=token_exchange".
Definition server_error : reply :=
  Redirect "/config.html?ebay_oauth=error&reason=server_error".

(** The columns the OAuth statements leave alone. *)
Definition other_columns (r : user_row)
    : string * option Z * list (option string) :=
  (role r, account_id r,
   [first_name r; last_name r; company_name r; email r; example_template r;
    ebay_token r; ebay_client_id r; ebay_client_secret r]).

(** Every row is still there with its role, its account and its text columns. *)
Definition same_other : relation world :=
  fun w w' => forall id, other_columns <$> db w' !! id = other_columns <$> db w !! id.

(** Every row but the one of account [a] is as it was. *)
Definition only_row (a : option Z) : relation world :=
  fun w w' => forall id, Some id <> a -> db w' !! id = db w !! id.

(** A bundle that is attached stays attached. *)
Definition attached : relation world :=
  fun w w' => is_Some (userConfig w) -> is_Some (userConfig w').

(** The session a request leaves when the middleware found the user's row
    [u]: role and account are the row's. *)
Definition synced (u : user_row) (s : session_data) : session_data :=
  {| userId := userId s; session_role := Some (role u); accountId := account_id u;
     ebayOAuthState := ebayOAuthState s |}.

(** A second user of the sample account: user 2, an operator. *)
Definition sample_operator : user_row :=
  {| role := "operator"; account_id := Some 1;
     first_name := Some "Bo"; last_name := Some "Packer";
     company_name := None; email := Some "bo@example.com";
     example_template := None;
     ebay_token := None; ebay_client_id := None; ebay_client_secret := None;
     ebay_oauth_access_token := None; ebay_oauth_refresh_token := None;
     ebay_oauth_token_expiry := None; ebay_oauth_username := None |}.

(** The sample table with both users. *)
Definition team_db (expiry : option Z) : gmap Z user_row :=
  <[2 := sample_operator]> (sample_db expiry).

(** User 2 in a session opened when the row still said [publisher]. *)
Definition outdated_session : session_data :=
  {| userId := Some 2; session_role := Some "publisher"; accountId := Some 1;
     ebayOAuthState := None |}.

Definition outdated_world : world :=
  sample_world (team_db (Some 1000)) 0 no_network (Some outdated_session).

(** The owner with manual keys only, and the table that holds this row. *)
Definition manual_owner : user_row :=
  set_oauth None None None None (stored_owner None).

Definition manual_db : gmap Z user_row := {[ 1 := manual_owner ]}.

Definition manual_world : world :=
  sample_world manual_db 0 no_network (Some (sample_session None)).

(** A row without OAuth data: no access token and no identity label. *)
Definition no_oauth_row (r : user_row) : bool :=
  negb (truthy (ebay_oauth_access_token r)) && negb (truthy (ebay_oauth_username r)).

(** The provider answers the refresh with a new refresh token as well. *)
Definition rotating_world : world :=
  sample_world (sample_db (Some 1000)) 5000
    (answering_provider (token_answer (Some "new-access") (Some "new-refresh")))
    (Some (sample_session None)).

(** The stored token is long expired, the provider would answer the refresh,
    and the database takes the lookup but rejects the statement after it. *)
Definition rejecting_world : world :=
  {| env := sample_env; db := sample_db (Some 1000);
     db_down := fun n => (0 <? n)%nat; queries := 0;
     clock := fun _ => 5000000; clock_reads := 0;
     entropy := fun i => ascii_of_nat (17 * i + 3); entropy_used := 0;
     network := answering_provider (token_answer (Some "new-access") None);
     requests := [];
     session := Some (sample_session None); userConfig := None |}.

(** The stored token is long expired and the app credentials are not
    configured. *)
Definition unconfigured_world : world :=
  {| env := {| SESSION_SECRET := Some "session-secret";
               EBAY_APP_CLIENT_ID := None; EBAY_APP_CLIENT_SECRET := None;
               EBAY_RUNAME := None |};
     db := sample_db (Some 1000);
     db_down := fun _ => false; queries := 0;
     clock := fun _ => 5000000; clock_reads := 0;
     entropy := fun i => ascii_of_nat (17 * i + 3); entropy_used := 0;
     network := answering_provider (token_answer (Some "new-access") None);
     requests := [];
     session := Some (sample_session None); userConfig := None |}.

(** The bundle the middleware attaches before it looks at the OAuth
    columns. *)
Definition manual_bundle {L : NodeCrypto} (e : environment) (owner : user_row)
    : user_config :=
  {| ebayToken := or_str (decrypt e (ebay_token owner)) "";
     ebayClientId := or_str (decrypt e (ebay_client_id owner)) "";
     ebayClientSecret := or_str (decrypt e (ebay_client_secret owner)) "";
     ebayOAuthToken := None;
     ebayOAuthConnected := false;
     ebayOAuthUsername := or_else (ebay_oauth_username owner) None |}.

(** What [requireAuth] answers a request without a session user. *)
Definition unauthenticated (path : string) : reply :=
  if starts_with "/api/" path then JsonError 401 "Not authenticated"
  else Redirect "/login.html".

Definition forbidden : reply := JsonError 403 "Insufficient permissions".

Definition is_hex_digit (c : ascii) : bool :=
  existsb (Ascii.eqb c) (list_ascii_of_string "0123456789abcdef").

(** The requests already sent are still there, in order; more may follow. *)
Definition requests_grow : relation world :=
  fun w w' => exists l, requests w' = (requests w ++ l)%list.

(** An operator's session over the sample table. *)
Definition operator_world : world :=
  sample_world (team_db (Some 1000)) 0 no_network
    (Some {| userId := Some 2; session_role := Some "operator"; accountId := Some 1;
             ebayOAuthState := None |}).

(** * Properties *)

(** ** Base64 *)

Lemma unbase64_b64_char (d : sextet) : unbase64 (b64_char d) = Some d.
Proof. by destruct d as [[[[[[] []] []] []] []] []]. Qed.

Lemma b64_char_not_pad (d : sextet) : Ascii.eqb (b64_char d) "=" = false.
Proof. by destruct d as [[[[[[] []] []] []] []] []]. Qed.

Lemma b64_char_not_colon (d : sextet) : Ascii.eqb (b64_char d) ":" = false.
Proof. by destruct d as [[[[[[] []] []] []] []] []]. Qed.

Lemma b64_digits_cons (d : sextet) (s : string) :
  b64_digits (String (b64_char d) s) = d :: b64_digits s.
Proof. cbn [b64_digits]. by rewrite b64_char_not_pad, unbase64_b64_char. Qed.

(** Induction on a list three elements at a time. *)
Lemma list_ind3 {A : Type} (P : list A -> Prop) :
  P [] -> (forall x, P [x]) -> (forall x y, P [x; y]) ->
  (forall x y z l, P l -> P (x :: y :: z :: l)) ->
  forall l, P l.
Proof.
  intros H0 H1 H2 H3.
  assert (H : forall l, P l /\ (forall x, P (x :: l)) /\ (forall x y, P (x :: y :: l))).
  { induction l as [|a l (IH0 & IH1 & IH2)]; [by auto|].
    split; [apply IH1|]. split; [intros; apply IH2|]. intros x y. by apply H3. }
  intros l. apply H.
Qed.

Lemma b64_decode_encode (bs : list ascii) : b64_decode (b64_encode bs) = bs.
Proof.
  unfold b64_decode. induction bs as [|x|x y|x y z l IH] using list_ind3.
  - done.
  - destruct x. cbn [b64_encode]. by rewrite !b64_digits_cons.
  - destruct x, y. cbn [b64_encode]. by rewrite !b64_digits_cons.
  - destruct x, y, z. cbn [b64_encode]. rewrite !b64_digits_cons.
    cbn [b64_bytes]. by rewrite IH.
Qed.

Lemma b64_encode_no_colon (bs : list ascii) : contains ":" (b64_encode bs) = false.
Proof.
  induction bs as [|x|x y|x y z l IH] using list_ind3.
  - done.
  - destruct x. cbn [b64_encode contains]. by rewrite !b64_char_not_colon.
  - destruct x, y. cbn [b64_encode contains]. by rewrite !b64_char_not_colon.
  - destruct x, y, z. cbn [b64_encode contains]. by rewrite !b64_char_not_colon, IH.
Qed.

(** ** Splitting *)

Lemma split_not_nil (sep : ascii) (s : string) : split sep s <> [].
Proof.
  destruct s as [|c s]; cbn; [done|].
  destruct (Ascii.eqb c sep); [done|]. by destruct (split sep s).
Qed.

Lemma split_no_sep (sep : ascii) (s : string) :
  contains sep s = false -> split sep s = [s].
Proof.
  induction s as [|c s IH]; cbn; [done|].
  intros [Hc Hs]%orb_false_iff. by rewrite Hc, IH.
Qed.

Lemma append_empty_l (s : string) : ("" ++ s)%string = s.
Proof. reflexivity. Qed.

Lemma append_String (c : ascii) (a b : string) :
  (String c a ++ b)%string = String c (a ++ b).
Proof. reflexivity. Qed.

Lemma split_app_sep (sep : ascii) (a b : string) :
  contains sep a = false -> split sep (a ++ String sep b) = a :: split sep b.
Proof.
  induction a as [|c a IH].
  - intros _. rewrite append_empty_l. cbn. by rewrite Ascii.eqb_refl.
  - intros [Hc Ha]%orb_false_iff. rewrite append_String. cbn [split].
    by rewrite Hc, IH.
Qed.

Lemma app_sep_not_empty (a b : string) (c : ascii) :
  String.eqb (a ++ String c b) "" = false.
Proof. destruct a; [by rewrite append_empty_l | by rewrite append_String]. Qed.

(** ** The vault *)

Section Vault.
Context {L : NodeCrypto}.

Lemma split_seal_token (key iv : list ascii) (p : string) :
  split ":" (seal_token key iv p)
  = [b64_encode iv; b64_encode (snd (gcm_seal key iv p));
     b64_encode (fst (gcm_seal key iv p))].
Proof.
  unfold seal_token. cbn zeta.
  change (?a ++ ":" ++ ?b)%string with (a ++ String ":" b)%string.
  rewrite split_app_sep by apply b64_encode_no_colon.
  change (?a ++ ":" ++ ?b)%string with (a ++ String ":" b)%string.
  rewrite split_app_sep by apply b64_encode_no_colon.
  by rewrite split_no_sep by apply b64_encode_no_colon.
Qed.

Lemma decrypt_seal_token (e : environment) (key iv : list ascii) (p : string) :
  gcm_correct L -> getKey e = Return key ->
  decrypt e (Some (seal_token key iv p)) = Some p.
Proof.
  intros Hgcm Hkey. unfold decrypt.
  assert (truthy (Some (seal_token key iv p)) = true) as ->.
  { unfold seal_token. cbn [truthy].
    change (?a ++ ":" ++ ?b)%string with (a ++ String ":" b)%string.
    by rewrite app_sep_not_empty. }
  cbn [negb from_option id]. rewrite Hkey, split_seal_token.
  rewrite !b64_decode_encode. apply Hgcm.
Qed.

End Vault.

(** ** Running a handler *)

(** Unfold the monad and the primitives, and nothing else. *)
Ltac run :=
  unfold mbind, mret, M_bind, M_ret;
  cbn [get_world throw try_catch and_then
       Date_now randomBytes fetch pool_query sql_update
       modify_session session_destroy modify_userConfig assign_userConfig
       set_db set_queries set_clock_reads set_entropy_used set_requests
       set_session set_userConfig
       env db db_down queries clock clock_reads entropy entropy_used
       network requests session userConfig
       fst snd negb orb andb fmap option_fmap option_map option_bind
       from_option id].

(** Read a field of a world written as a chain of updates. *)
Ltac simpl_world :=
  cbn [env db db_down queries clock clock_reads entropy entropy_used
       network requests session userConfig
       set_db set_queries set_clock_reads set_entropy_used set_requests
       set_session set_userConfig].

Lemma xor_ascii_involutive (a b : ascii) : xor_ascii a (xor_ascii a b) = b.
Proof.
  destruct a, b. cbn.
  by rewrite <- !xorb_assoc, !xorb_nilpotent, !xorb_false_l.
Qed.

Lemma sample_crypto_correct : gcm_correct sample_crypto.
Proof.
  intros key iv p. unfold gcm_open, gcm_seal, sample_crypto. cbn [fst snd].
  unfold list_ascii_eqb. rewrite String.eqb_refl.
  rewrite map_map. f_equal.
  rewrite <- (string_of_list_ascii_of_string p) at 2. f_equal.
  induction (list_ascii_of_string p) as [|c l IH]; [done|].
  cbn. by rewrite xor_ascii_involutive, IH.
Qed.



Section VaultClaims.
Context {L : NodeCrypto}.

Lemma decrypt_Some_truthy (e : environment) (stored : option string) (p : string) :
  decrypt e stored = Some p -> truthy stored = true.
Proof. unfold decrypt. by destruct (truthy stored). Qed.

Lemma decrypt_Some_key (e : environment) (stored : option string) (p : string) :
  decrypt e stored = Some p -> exists key, getKey e = Return key.
Proof.
  unfold decrypt. destruct (truthy stored); [|done]. cbn [negb].
  destruct (getKey e); [eauto|done].
Qed.

Lemma decrypt_segments (e : environment) (key : list ascii) (stored a b c : string)
    (rest : list string) :
  getKey e = Return key ->
  split ":" stored = a :: b :: c :: rest ->
  decrypt e (Some stored)
  = gcm_open key (b64_decode a) (b64_decode b) (b64_decode c).
Proof.
  intros Hkey Hsplit. unfold decrypt.
  destruct stored as [|x stored]; [done|].
  cbn [truthy String.eqb negb from_option id]. by rewrite Hkey, Hsplit.
Qed.

End VaultClaims.

(** *** Digits the decoder does not read in full *)

Lemma b64_char_inj (d d' : sextet) : b64_char d = b64_char d' -> d = d'.
Proof.
  intros H. apply (inj Some). by rewrite <- !unbase64_b64_char, H.
Qed.

Lemma changed_at_S (i : nat) (c x : ascii) (s : string) :
  changed_at (S i) c (String x s) = String x <$> changed_at i c s.
Proof. reflexivity. Qed.

Lemma changed_at_app_l (i : nat) (c : ascii) (s s' suffix : string) :
  changed_at i c s = Some s' ->
  changed_at i c (s ++ suffix) = Some (s' ++ suffix)%string.
Proof.
  revert i s'. induction s as [|x s IH]; intros i s' H; [by destruct i|].
  rewrite append_String. destruct i as [|i]; cbn [changed_at] in *.
  - destruct (Ascii.eqb x c); [done|]. injection H as <-. by rewrite append_String.
  - destruct (changed_at i c s) as [t|] eqn:E; [|done]. injection H as <-.
    by rewrite (IH i t E), append_String.
Qed.

Lemma changed_at_app_r (i : nat) (c : ascii) (prefix s s' : string) :
  changed_at i c s = Some s' ->
  changed_at (String.length prefix + i) c (prefix ++ s) = Some (prefix ++ s')%string.
Proof.
  intros H. induction prefix as [|x prefix IH]; [done|].
  rewrite !append_String. cbn [String.length Nat.add changed_at]. by rewrite IH.
Qed.

Lemma changed_at_contains (i : nat) (c x : ascii) (s s' : string) :
  changed_at i c s = Some s' -> contains x s = false -> Ascii.eqb c x = false ->
  contains x s' = false.
Proof.
  revert i s'. induction s as [|y s IH]; intros i s' H Hs Hc; [by destruct i|].
  cbn [contains] in Hs. apply orb_false_iff in Hs as [Hy Hs].
  destruct i as [|i]; cbn [changed_at] in H.
  - destruct (Ascii.eqb y c); [done|]. injection H as <-. cbn [contains].
    by rewrite Hc, Hs.
  - destruct (changed_at i c s) as [t|] eqn:E; [|done]. injection H as <-.
    cbn [contains]. by rewrite Hy, (IH i t E Hs Hc).
Qed.

(** The base64 of sixteen bytes ends in a digit that carries two bits: it
    can be changed without changing what the decoder reads. *)
Lemma tag_digit_slack (tag : list ascii) :
  length tag = 16%nat ->
  exists d s,
    changed_at 21 (b64_char d) (b64_encode tag) = Some s /\ b64_decode s = tag.
Proof.
  intros Hlen.
  do 16 (destruct tag as [|[] tag]; [discriminate Hlen|]).
  destruct tag; [|discriminate Hlen]. clear Hlen.
  match goal with
  | |- context [[Ascii ?x0 ?x1 _ _ _ _ _ _]] =>
      exists (x1, x0, false, false, false, true)
  end.
  eexists. cbn [b64_encode changed_at fmap option_fmap option_map]. split.
  - match goal with
    | |- context [Ascii.eqb (b64_char ?d) (b64_char ?d')] =>
        destruct (Ascii.eqb_spec (b64_char d) (b64_char d')) as [E|_];
          [by apply b64_char_inj in E|]
    end.
    reflexivity.
  - unfold b64_decode. by rewrite !b64_digits_cons.
Qed.

Section Malleable.
Context {L : NodeCrypto}.

(** Whatever the cipher, if its tags have sixteen bytes, every token has a
    character that can be changed with the token still decrypting to the
    plaintext. *)
Lemma tag_digit_change_accepted (e : environment) (key iv : list ascii) (p : string) :
  gcm_correct L ->
  getKey e = Return key ->
  length (snd (gcm_seal key iv p)) = 16%nat ->
  exists i c changed,
    changed_at i c (seal_token key iv p) = Some changed
    /\ decrypt e (Some changed) = Some p.
Proof.
  intros Hgcm Hkey Hlen.
  destruct (tag_digit_slack _ Hlen) as (d & s & Hs & Hdec).
  exists (String.length (b64_encode iv) + 22)%nat, (b64_char d).
  exists (b64_encode iv
          ++ String ":" (s ++ String ":" (b64_encode (fst (gcm_seal key iv p)))))%string.
  split.
  - change (seal_token key iv p)
      with (b64_encode iv
            ++ String ":" (b64_encode (snd (gcm_seal key iv p))
                           ++ String ":" (b64_encode (fst (gcm_seal key iv p)))))%string.
    apply changed_at_app_r. change 22%nat with (S 21).
    by rewrite changed_at_S, (changed_at_app_l _ _ _ _ _ Hs).
  - assert (Hsplit :
      split ":" (b64_encode iv
                 ++ String ":" (s ++ String ":" (b64_encode (fst (gcm_seal key iv p)))))
      = [b64_encode iv; s; b64_encode (fst (gcm_seal key iv p))]).
    { rewrite split_app_sep by apply b64_encode_no_colon.
      rewrite split_app_sep.
      2:{ eapply changed_at_contains; [exact Hs | apply b64_encode_no_colon
                                       | apply b64_char_not_colon]. }
      by rewrite split_no_sep by apply b64_encode_no_colon. }
    rewrite (decrypt_segments e key _ _ _ _ [] Hkey Hsplit).
    rewrite !b64_decode_encode, Hdec. apply Hgcm.
Qed.

End Malleable.




(** C10. When the stored value decrypts to a non-empty plaintext, the
    preview is its first six characters, three dots and its last four
    characters; for a plaintext of at most ten characters every character
    of the plaintext stands in the preview, within the first six or within
    the last four. *)
Theorem mask_shows_short_secret :
  forall (L : NodeCrypto) (e : environment) (enc : option string) (plain : string),
    decrypt e enc = Some plain ->
    plain <> "" ->
    mask e enc
    = {| set := true;
         preview := String.substring 0 6 plain ++ "..." ++ slice_last 4 plain |}
    /\ ((String.length plain <= 10)%nat ->
        forall i, (i < String.length plain)%nat ->
          ((i < 6)%nat
           /\ String.get i (preview (mask e enc)) = String.get i plain)
          \/ ((String.length plain - 4 <= i)%nat
              /\ String.get (String.length (preview (mask e enc))
                             - (String.length plain - i)) (preview (mask e enc))
                 = String.get i plain)).
Proof.
  intros L e enc plain Hdec Hne.
  assert (Hmask : mask e enc
                  = {| set := true;
                       preview := String.substring 0 6 plain ++ "..."
                                  ++ slice_last 4 plain |}).
  { unfold mask. rewrite (decrypt_Some_truthy _ _ _ Hdec), Hdec.
    cbn [negb truthy from_option id]. apply String.eqb_neq in Hne. by rewrite Hne. }
  split; [exact Hmask|]. rewrite Hmask. cbn [preview]. clear Hmask Hdec Hne.
  intros Hlen i Hi.
  do 11 (destruct plain as [|? plain]; [cbn in Hi;
    do 10 (destruct i as [|i]; [vm_compute; first [left; split; [lia|reflexivity]
                                                   | right; split; [lia|reflexivity]]|]);
    lia|]).
  cbn in Hlen. lia.
Qed.

Lemma mask_shows_short_secret_witness :
  mask sample_env (Some (sample_token "s3cret"))
  = {| set := true; preview := "s3cret...cret" |}
  /\ forall i, (i < 6)%nat ->
       ((i < 6)%nat
        /\ String.get i (preview (mask sample_env (Some (sample_token "s3cret"))))
           = String.get i "s3cret")
       \/ ((String.length "s3cret" - 4 <= i)%nat
           /\ String.get (String.length
                            (preview (mask sample_env (Some (sample_token "s3cret"))))
                          - (String.length "s3cret" - i))
                (preview (mask sample_env (Some (sample_token "s3cret"))))
              = String.get i "s3cret").
Proof.
  destruct (mask_shows_short_secret sample_crypto sample_env
              (Some (sample_token "s3cret")) "s3cret") as [Hshape Hcover].
  - vm_compute. reflexivity.
  - discriminate.
  - split; [exact Hshape|]. intros i Hi. apply Hcover; [vm_compute; lia|exact Hi].
Defined.

(** ** What a handler leaves as it is *)

Lemma run_bind {A B : Type} (m : M A) (k : A -> M B) (w : world) :
  (m ≫= k) w
  = match m w with
    | (Return a, w') => k a w'
    | (Throw e, w') => (Throw e, w')
    end.
Proof. reflexivity. Qed.

Section Keeps.
Context (R : relation world) `{!PreOrder R}.

Lemma keeps_ret {A : Type} (a : A) : keeps R (mret a).
Proof. intros w. reflexivity. Qed.

Lemma keeps_throw {A : Type} (e : string) : keeps R (@throw A e).
Proof. intros w. reflexivity. Qed.

Lemma keeps_get_world : keeps R get_world.
Proof. intros w. reflexivity. Qed.

Lemma keeps_bind {A B : Type} (m : M A) (k : A -> M B) :
  keeps R m -> (forall a, keeps R (k a)) -> keeps R (m ≫= k).
Proof.
  intros Hm Hk w. rewrite run_bind. specialize (Hm w).
  destruct (m w) as [[a|e] w']; cbn [snd] in *; [|done].
  etransitivity; [exact Hm | apply Hk].
Qed.

Lemma keeps_try_catch {A : Type} (m : M A) (h : string -> M A) :
  keeps R m -> (forall e, keeps R (h e)) -> keeps R (try_catch m h).
Proof.
  intros Hm Hh w. unfold try_catch. specialize (Hm w).
  destruct (m w) as [[a|e] w']; cbn [snd] in *; [done|].
  etransitivity; [exact Hm | apply Hh].
Qed.

Lemma keeps_and_then (m next : M reply) :
  keeps R m -> keeps R next -> keeps R (and_then m next).
Proof.
  intros Hm Hn. unfold and_then. apply keeps_bind; [done|].
  intros []; first [done | apply keeps_ret].
Qed.

End Keeps.

(** One step of a proof that a handler keeps a relation: follow the shape
    of the handler, and leave the primitives to the hints. *)
Create HintDb keeps.

Ltac keeps_step R :=
  lazymatch goal with
  | |- keeps _ (mbind _ _) => apply (keeps_bind R); [|intros ?]
  | |- keeps _ (mret _) => apply (keeps_ret R)
  | |- keeps _ (throw _) => apply (keeps_throw R)
  | |- keeps _ get_world => apply (keeps_get_world R)
  | |- keeps _ (try_catch _ _) => apply (keeps_try_catch R); [|intros ?]
  | |- keeps _ (and_then _ _) => apply (keeps_and_then R)
  | |- keeps _ (if ?b then _ else _) => destruct b
  | |- keeps _ (match ?x with _ => _ end) => destruct x
  | |- keeps _ (let _ := _ in _) => cbv zeta
  | |- _ => solve [eauto with keeps]
  end.

Ltac keeps_auto R := repeat keeps_step R.

(** *** The session is kept *)


#[local] Instance same_session_preorder : PreOrder same_session.
Proof. split; [by intros w | intros a b c Hab Hbc; unfold same_session in *; congruence]. Qed.

Section SessionKept.
Context {L : NodeCrypto}.

Lemma session_Date_now : keeps same_session Date_now.
Proof. by intros w. Qed.

Lemma session_randomBytes (n : nat) : keeps same_session (randomBytes n).
Proof. by intros w. Qed.

Lemma session_fetch (r : http_request) : keeps same_session (fetch r).
Proof. by intros w. Qed.

Lemma session_pool_query {A : Type} (q : gmap Z user_row -> A * gmap Z user_row) :
  keeps same_session (pool_query q).
Proof. intros w. unfold pool_query. destruct (db_down w (queries w)); [done|]. by destruct (q (db w)). Qed.

Lemma session_modify_userConfig (f : user_config -> user_config) :
  keeps same_session (modify_userConfig f).
Proof. by intros w. Qed.

Lemma session_assign_userConfig (c : user_config) :
  keeps same_session (assign_userConfig c).
Proof. by intros w. Qed.

#[local] Hint Resolve session_Date_now session_randomBytes session_fetch
  session_pool_query session_modify_userConfig session_assign_userConfig : keeps.

Lemma session_encrypt (p : option string) : keeps same_session (encrypt p).
Proof. unfold encrypt. keeps_auto same_session. Qed.

Lemma session_fetch_username (t : string) : keeps same_session (fetch_username t).
Proof. unfold fetch_username. keeps_auto same_session. Qed.

End SessionKept.

(** ** The OAuth callback *)

Lemma strict_eq_true (a b : option string) : strict_eq a b = true <-> a = b.
Proof.
  destruct a as [x|], b as [y|]; cbn; try (split; congruence).
  rewrite String.eqb_eq. split; congruence.
Qed.

Section Flow.
Context {L : NodeCrypto}.

#[local] Hint Resolve session_Date_now session_randomBytes session_fetch
  session_pool_query session_modify_userConfig session_assign_userConfig
  session_encrypt session_fetch_username : keeps.

(** The slot is deleted first, and nothing after it touches the session. *)
Lemma callback_session (query : callback_query) (w : world) (s : session_data) :
  session w = Some s ->
  session (callback query w).2 = Some (set_session_state None s).
Proof.
  intros Hs. unfold callback. rewrite run_bind. cbn [get_world]. rewrite Hs.
  rewrite run_bind. cbn [modify_session].
  match goal with
  | |- session (?m ?w').2 = _ =>
      assert (Hk : keeps same_session m) by (keeps_auto same_session);
      etransitivity; [apply (Hk w')|]
  end.
  cbn. by rewrite Hs.
Qed.

Lemma callback_rejects_state (query : callback_query) (w : world) (s : session_data) :
  session w = Some s ->
  reports_denial query = false ->
  negb (truthy (ebayOAuthState s))
  || negb (strict_eq (query_state query) (ebayOAuthState s)) = true ->
  callback query w
  = (Return invalid_state, set_session (Some (set_session_state None s)) w).
Proof.
  intros Hs Hden Hbad. unfold callback. rewrite run_bind. cbn [get_world].
  rewrite Hs. rewrite run_bind. cbn [modify_session]. rewrite Hs.
  unfold reports_denial in Hden. rewrite Hden, Hbad. reflexivity.
Qed.

End Flow.

(** C6. Whatever the outcome of a callback, the session it leaves has no
    pending state (and is otherwise as it was).  When the provider did not
    report denial and the returned state is absent or differs from the
    stored one, the callback ends in [invalid_state] and has done nothing
    else.  A further callback in the session the first one leaves, with
    whatever state, ends in [invalid_state] as well. *)
Theorem callback_state_single_use :
  forall (L : NodeCrypto) (query : callback_query) (w : world) (s : session_data),
    session w = Some s ->
    session (callback query w).2 = Some (set_session_state None s)
    /\ (reports_denial query = false ->
        query_state query = None \/ query_state query <> ebayOAuthState s ->
        callback query w
        = (Return invalid_state, set_session (Some (set_session_state None s)) w))
    /\ (forall again : callback_query,
          reports_denial again = false ->
          (callback again (callback query w).2).1 = Return invalid_state).
Proof.
  intros L query w s Hs. split; [by apply callback_session|]. split.
  - intros Hden Hstate. apply callback_rejects_state; [done..|].
    destruct Hstate as [Hnone | Hne].
    + rewrite Hnone. destruct (ebayOAuthState s) as [x|]; [|done].
      cbn [strict_eq negb]. apply orb_true_r.
    + apply orb_true_iff. right. apply negb_true_iff.
      destruct (strict_eq _ _) eqn:E; [|done]. by apply strict_eq_true in E.
  - intros again Hden.
    pose proof (callback_session query w s Hs) as Hs'.
    by rewrite (callback_rejects_state again _ _ Hs' Hden).
Qed.

Lemma callback_state_single_use_witness :
  session (callback forged_query pending_world).2 = Some (sample_session None)
  /\ callback forged_query pending_world
     = (Return invalid_state, set_session (Some (sample_session None)) pending_world)
  /\ (callback replayed_query (callback forged_query pending_world).2).1
     = Return invalid_state.
Proof.
  destruct (callback_state_single_use sample_crypto forged_query pending_world
              (sample_session (Some "5f2a")) eq_refl) as (H1 & H2 & H3).
  split; [exact H1|]. split.
  - apply H2; [reflexivity | right; discriminate].
  - apply H3. reflexivity.
Defined.

(** ** The credential-resolution middleware *)

Section Middleware.
Context {L : NodeCrypto}.

Lemma truthy_num_Some (n : Z) : n <> 0 -> truthy_num (Some n) = true.
Proof. intros Hn. cbn. by apply negb_true_iff, Z.eqb_neq. Qed.

Lemma select_missing_user (uid : Z) (d : gmap Z user_row) :
  d !! uid = None -> select_user_with_owner (Some uid) d = ([], d).
Proof. intros Hd. unfold select_user_with_owner. by rewrite Hd. Qed.

Lemma loadUserConfig_stale (w : world) (s : session_data) (uid : Z) :
  session w = Some s -> userId s = Some uid -> uid <> 0 ->
  db w !! uid = None -> db_down w (queries w) = false ->
  loadUserConfig w
  = (Return (JsonError 401 "User not found"),
     set_session None (set_db (db w) (set_queries (S (queries w)) w))).
Proof.
  intros Hs Hid Hnz Hdb Hup. unfold loadUserConfig. rewrite run_bind.
  cbn [get_world]. rewrite Hs, Hid, (truthy_num_Some _ Hnz). cbn [negb].
  unfold try_catch. rewrite run_bind. unfold pool_query.
  rewrite Hup, (select_missing_user _ _ Hdb). reflexivity.
Qed.

Lemma loadUserConfig_000_stale (w : world) (s : session_data) (uid : Z) :
  session w = Some s -> userId s = Some uid -> uid <> 0 ->
  db w !! uid = None -> db_down w (queries w) = false ->
  loadUserConfig_000 w
  = (Return (JsonError 401 "User not found"),
     set_session None (set_db (db w) (set_queries (S (queries w)) w))).
Proof.
  intros Hs Hid Hnz Hdb Hup. unfold loadUserConfig_000. rewrite run_bind.
  cbn [get_world]. rewrite Hs, Hid, (truthy_num_Some _ Hnz). cbn [negb].
  unfold try_catch. rewrite run_bind. unfold pool_query.
  rewrite Hup, (select_missing_user _ _ Hdb). reflexivity.
Qed.

End Middleware.

(** C9. A request whose session names a user that is in no row of the
    table: the lookup having been answered, the middleware destroys the
    session and replies 401 "User not found"; it does not call [next()] and
    attaches no bundle.  Both revisions of the middleware do so. *)
Theorem stale_session_rejected :
  forall (L : NodeCrypto) (w : world) (s : session_data) (uid : Z),
    session w = Some s ->
    userId s = Some uid ->
    uid <> 0 ->
    db w !! uid = None ->
    db_down w (queries w) = false ->
    ((loadUserConfig w).1 = Return (JsonError 401 "User not found")
     /\ session (loadUserConfig w).2 = None
     /\ userConfig (loadUserConfig w).2 = userConfig w)
    /\ ((loadUserConfig_000 w).1 = Return (JsonError 401 "User not found")
        /\ session (loadUserConfig_000 w).2 = None
        /\ userConfig (loadUserConfig_000 w).2 = userConfig w).
Proof.
  intros L w s uid Hs Hid Hnz Hdb Hup.
  rewrite (loadUserConfig_stale w s uid), (loadUserConfig_000_stale w s uid) by done.
  done.
Qed.

Lemma stale_session_rejected_witness :
  ((loadUserConfig stale_world).1 = Return (JsonError 401 "User not found")
   /\ session (loadUserConfig stale_world).2 = None
   /\ userConfig (loadUserConfig stale_world).2 = userConfig stale_world)
  /\ ((loadUserConfig_000 stale_world).1 = Return (JsonError 401 "User not found")
      /\ session (loadUserConfig_000 stale_world).2 = None
      /\ userConfig (loadUserConfig_000 stale_world).2 = userConfig stale_world).
Proof.
  apply (stale_session_rejected sample_crypto stale_world (sample_session None) 1).
  - reflexivity.
  - reflexivity.
  - lia.
  - reflexivity.
  - reflexivity.
Defined.

(** ** The invariant of the OAuth columns *)


#[local] Instance keeps_consistent_preorder : PreOrder keeps_consistent.
Proof. split; [intros w H; exact H | intros a b c Hab Hbc H; by apply Hbc, Hab]. Qed.

Section Invariant.
Context {L : NodeCrypto}.

Lemma consistent_Date_now : keeps keeps_consistent Date_now.
Proof. intros w H. exact H. Qed.

Lemma consistent_randomBytes (n : nat) : keeps keeps_consistent (randomBytes n).
Proof. intros w H. exact H. Qed.

Lemma consistent_fetch (r : http_request) : keeps keeps_consistent (fetch r).
Proof. intros w H. exact H. Qed.

Lemma consistent_modify_session (f : session_data -> session_data) :
  keeps keeps_consistent (modify_session f).
Proof. intros w H. exact H. Qed.

Lemma consistent_session_destroy : keeps keeps_consistent session_destroy.
Proof. intros w H. exact H. Qed.

Lemma consistent_modify_userConfig (f : user_config -> user_config) :
  keeps keeps_consistent (modify_userConfig f).
Proof. intros w H. exact H. Qed.

Lemma consistent_assign_userConfig (c : user_config) :
  keeps keeps_consistent (assign_userConfig c).
Proof. intros w H. exact H. Qed.

(** A statement that leaves consistent tables consistent. *)
Lemma consistent_pool_query {A : Type} (q : gmap Z user_row -> A * gmap Z user_row) :
  (forall d, oauth_consistent d -> oauth_consistent (q d).2) ->
  keeps keeps_consistent (pool_query q).
Proof.
  intros Hq w Hd. unfold pool_query. destruct (db_down w (queries w)); [exact Hd|].
  specialize (Hq (db w) Hd). by destruct (q (db w)).
Qed.

Lemma consistent_sql_update (f : user_row -> user_row) (id : option Z) :
  (forall r, oauth_row_ok (f r) = true) ->
  keeps keeps_consistent (pool_query (sql_update f id)).
Proof.
  intros Hf. apply consistent_pool_query. intros d Hd.
  destruct id as [i|]; [|exact Hd]. cbn [sql_update snd]. intros j r.
  rewrite lookup_alter. case_decide as Hij.
  - destruct (d !! i); [|done]. cbn. intros [= <-]. apply Hf.
  - apply Hd.
Qed.

Lemma consistent_select_user (id : option Z) :
  keeps keeps_consistent (pool_query (select_user_with_owner id)).
Proof. by apply consistent_pool_query. Qed.

Lemma consistent_persist_callback (access refresh name : option string) (expiry : Z)
    (id : option Z) :
  keeps keeps_consistent
    (pool_query (sql_update (set_oauth access refresh (Some expiry) name) id)).
Proof. apply consistent_sql_update. intros r. unfold oauth_row_ok. cbn. by destruct access. Qed.

Lemma consistent_persist_refresh (access : option string) (expiry : Z) (id : option Z) :
  keeps keeps_consistent (pool_query (sql_update (set_refreshed access expiry) id)).
Proof. apply consistent_sql_update. intros r. unfold oauth_row_ok. cbn. by destruct access. Qed.

Lemma consistent_persist_rotation (access refresh : option string) (expiry : Z)
    (id : option Z) :
  keeps keeps_consistent
    (pool_query (sql_update (set_refreshed_rotating access expiry refresh) id)).
Proof. apply consistent_sql_update. intros r. unfold oauth_row_ok. cbn. by destruct access. Qed.

Lemma consistent_clear (id : option Z) :
  keeps keeps_consistent (pool_query (sql_update (set_oauth None None None None) id)).
Proof. by apply consistent_sql_update. Qed.

#[local] Hint Resolve consistent_Date_now consistent_randomBytes consistent_fetch
  consistent_modify_session consistent_session_destroy
  consistent_modify_userConfig consistent_assign_userConfig
  consistent_select_user consistent_persist_callback consistent_persist_refresh
  consistent_persist_rotation consistent_clear : keeps.

Lemma consistent_encrypt (p : option string) : keeps keeps_consistent (encrypt p).
Proof. unfold encrypt. keeps_auto keeps_consistent. Qed.

Lemma consistent_fetch_username (t : string) :
  keeps keeps_consistent (fetch_username t).
Proof. unfold fetch_username. keeps_auto keeps_consistent. Qed.

#[local] Hint Resolve consistent_encrypt consistent_fetch_username : keeps.

Lemma consistent_refresh (rt : option string) (a : option Z) :
  keeps keeps_consistent (refreshEbayOAuthToken rt a).
Proof. unfold refreshEbayOAuthToken. keeps_auto keeps_consistent. Qed.

#[local] Hint Resolve consistent_refresh : keeps.

Lemma consistent_callback (query : callback_query) :
  keeps keeps_consistent (callback query).
Proof. unfold callback. keeps_auto keeps_consistent. Qed.

Lemma consistent_disconnect : keeps keeps_consistent disconnect.
Proof. unfold disconnect. keeps_auto keeps_consistent. Qed.

Lemma consistent_loadUserConfig : keeps keeps_consistent loadUserConfig.
Proof.
  unfold loadUserConfig, use_oauth_token, sync_session.
  keeps_auto keeps_consistent.
Qed.

Lemma consistent_requireAuth (path : string) : keeps keeps_consistent (requireAuth path).
Proof. unfold requireAuth. keeps_auto keeps_consistent. Qed.

Lemma consistent_requireRole (roles : list string) :
  keeps keeps_consistent (requireRole roles).
Proof. unfold requireRole. keeps_auto keeps_consistent. Qed.

#[local] Hint Resolve consistent_callback consistent_disconnect
  consistent_requireAuth consistent_requireRole : keeps.

Lemma consistent_callback_route (path : string) (query : callback_query) :
  keeps keeps_consistent (callback_route path query).
Proof. unfold callback_route. keeps_auto keeps_consistent. Qed.

Lemma consistent_disconnect_route (path : string) :
  keeps keeps_consistent (disconnect_route path).
Proof. unfold disconnect_route. keeps_auto keeps_consistent. Qed.

End Invariant.

(** C8. If every row with an OAuth access token has an expiry, this is
    still so after the callback (whatever the query and the provider's
    answers), after the token refresh, on its own and within the
    middleware, and after disconnect; for the two routes with their
    middleware in front as for the bare handlers. *)
Theorem oauth_pair_invariant :
  forall (L : NodeCrypto) (w : world),
    oauth_consistent (db w) ->
    (forall query, oauth_consistent (db (callback query w).2))
    /\ (forall refreshToken accountId,
          oauth_consistent (db (refreshEbayOAuthToken refreshToken accountId w).2))
    /\ oauth_consistent (db (loadUserConfig w).2)
    /\ oauth_consistent (db (disconnect w).2)
    /\ (forall path query, oauth_consistent (db (callback_route path query w).2))
    /\ (forall path, oauth_consistent (db (disconnect_route path w).2)).
Proof.
  intros L w Hw. repeat split.
  - intros query. by apply consistent_callback.
  - intros rt a. by apply consistent_refresh.
  - by apply consistent_loadUserConfig.
  - by apply consistent_disconnect.
  - intros path query. by apply consistent_callback_route.
  - intros path. by apply consistent_disconnect_route.
Qed.

Lemma sample_db_consistent (expiry : Z) : oauth_consistent (sample_db (Some expiry)).
Proof. unfold oauth_consistent, sample_db. by apply map_Forall_singleton. Qed.

Lemma oauth_pair_invariant_witness :
  (forall query, oauth_consistent (db (callback query reconsent_world).2))
  /\ (forall refreshToken accountId,
        oauth_consistent
          (db (refreshEbayOAuthToken refreshToken accountId reconsent_world).2))
  /\ oauth_consistent (db (loadUserConfig reconsent_world).2)
  /\ oauth_consistent (db (disconnect reconsent_world).2)
  /\ (forall path query,
        oauth_consistent (db (callback_route path query reconsent_world).2))
  /\ (forall path, oauth_consistent (db (disconnect_route path reconsent_world).2)).
Proof.
  apply (oauth_pair_invariant sample_crypto reconsent_world).
  exact (sample_db_consistent 1000).
Defined.

(** ** Token refresh within the middleware *)

Section Refresh.
Context {L : NodeCrypto}.

Lemma run_ret {A : Type} (a : A) (w : world) : (mret a : M A) w = (Return a, w).
Proof. reflexivity. Qed.

(** A failed refresh: [refreshEbayOAuthToken] returns [null] or throws, and
    has changed neither the table nor the request. *)
Lemma refresh_failure (rt : option string) (a : option Z) (w : world) :
  refresh_fails
    (network w (length (requests w))
       (refresh_request (default "" (EBAY_APP_CLIENT_ID (env w)))
          (default "" (EBAY_APP_CLIENT_SECRET (env w))) (default "" rt))) = true ->
  exists c w',
    refreshEbayOAuthToken rt a w = (c, w')
    /\ (c = Return None \/ exists e, c = Throw e)
    /\ userConfig w' = userConfig w /\ session w' = session w /\ db w' = db w.
Proof.
  intros Hfail. unfold refreshEbayOAuthToken. rewrite run_bind. cbn [get_world].
  destruct (negb (truthy (EBAY_APP_CLIENT_ID (env w)))
            || negb (truthy (EBAY_APP_CLIENT_SECRET (env w)))
            || negb (truthy rt)).
  { eexists _, _. split; [reflexivity|]. auto. }
  rewrite run_bind. cbn [fetch].
  destruct (network w _ _) as [|ok [data|]].
  - eexists _, _. split; [reflexivity|]. eauto 6.
  - cbn [refresh_fails] in Hfail. rewrite Hfail.
    eexists _, _. split; [reflexivity|]. eauto 6.
  - eexists _, _. split; [reflexivity|]. eauto 6.
Qed.

(** The OAuth block after a failed refresh: the bundle stays as assigned. *)
Lemma use_oauth_token_refresh_failed (u owner : user_row) (w : world) :
  truthy (ebay_oauth_access_token owner) = true ->
  truthy (ebay_oauth_refresh_token owner) = true ->
  match ebay_oauth_token_expiry owner with
  | Some expiry => clock w (clock_reads w) > expiry - EXPIRY_BUFFER_MS
  | None => True
  end ->
  refresh_fails
    (network w (length (requests w))
       (refresh_request (default "" (EBAY_APP_CLIENT_ID (env w)))
          (default "" (EBAY_APP_CLIENT_SECRET (env w)))
          (default "" (decrypt (env w) (ebay_oauth_refresh_token owner))))) = true ->
  exists w',
    use_oauth_token u owner w = (Return tt, w')
    /\ userConfig w' = userConfig w /\ session w' = session w /\ db w' = db w.
Proof.
  intros Hacc Href Hexp Hfail. unfold use_oauth_token. rewrite Hacc.
  rewrite run_bind. cbn [get_world]. rewrite run_bind.
  destruct (ebay_oauth_token_expiry owner) as [expiry|].
  - rewrite run_bind. cbn [Date_now]. rewrite run_ret.
    apply Z.gtb_gt in Hexp. rewrite Hexp. cbn [negb]. rewrite Href.
    unfold try_catch. rewrite run_bind.
    edestruct (refresh_failure (decrypt (env w) (ebay_oauth_refresh_token owner))
                 (account_id u) (set_clock_reads (S (clock_reads w)) w))
      as (c & w' & -> & Hc & Hcfg & Hsess & Hdb); [exact Hfail|].
    destruct Hc as [-> | [e ->]]; eexists; (split; [reflexivity|]); auto.
  - rewrite run_ret. cbn [negb]. rewrite Href.
    unfold try_catch. rewrite run_bind.
    edestruct (refresh_failure (decrypt (env w) (ebay_oauth_refresh_token owner))
                 (account_id u) w)
      as (c & w' & -> & Hc & Hcfg & Hsess & Hdb); [exact Hfail|].
    destruct Hc as [-> | [e ->]]; eexists; (split; [reflexivity|]); auto.
Qed.

End Refresh.

Section Resolve.
Context {L : NodeCrypto}.

Lemma select_found (uid a : Z) (u owner : user_row) (d : gmap Z user_row) :
  d !! uid = Some u -> account_id u = Some a -> d !! a = Some owner ->
  select_user_with_owner (Some uid) d = ([(u, owner)], d).
Proof. intros Hu Ha Ho. unfold select_user_with_owner. by rewrite Hu, Ha, Ho. Qed.

(** The session sync returns, and touches the session only. *)
Lemma sync_session_run (u : user_row) (w : world) :
  exists w',
    sync_session u w = (Return tt, w')
    /\ userConfig w' = userConfig w /\ db w' = db w /\ requests w' = requests w.
Proof.
  unfold sync_session. rewrite run_bind. cbn [get_world]. rewrite run_bind.
  destruct (negb (strict_eq _ _)); cbn [modify_session]; rewrite ?run_ret;
    rewrite run_bind; cbn [get_world];
    destruct (negb (bool_decide _)); cbn [modify_session]; rewrite ?run_ret;
    eexists; (split; [reflexivity|]); auto.
Qed.

(** The middleware up to the OAuth block, for a session whose user and
    owner are in the table. *)
Lemma loadUserConfig_found (w : world) (s : session_data) (uid a : Z)
    (u owner : user_row) :
  session w = Some s -> userId s = Some uid -> uid <> 0 ->
  db_down w (queries w) = false ->
  db w !! uid = Some u -> account_id u = Some a -> db w !! a = Some owner ->
  loadUserConfig w
  = try_catch
      (use_oauth_token u owner ≫= λ _, sync_session u ≫= λ _, mret Next)
      (fun err => mret (JsonError 500 "Internal server error"))
      (set_userConfig
         (Some {| ebayToken := or_str (decrypt (env w) (ebay_token owner)) "";
                  ebayClientId := or_str (decrypt (env w) (ebay_client_id owner)) "";
                  ebayClientSecret :=
                    or_str (decrypt (env w) (ebay_client_secret owner)) "";
                  ebayOAuthToken := None;
                  ebayOAuthConnected := false;
                  ebayOAuthUsername := or_else (ebay_oauth_username owner) None |})
         (set_db (db w) (set_queries (S (queries w)) w))).
Proof.
  intros Hs Hid Hnz Hup Hu Ha Ho. unfold loadUserConfig. rewrite run_bind.
  cbn [get_world]. rewrite Hs, Hid, (truthy_num_Some _ Hnz). cbn [negb].
  unfold try_catch. rewrite !run_bind. unfold pool_query.
  rewrite Hup, (select_found _ _ _ _ _ Hu Ha Ho). cbn [assign_userConfig].
  reflexivity.
Qed.

End Resolve.

(** C7. An owner row with an access token that is expired (no expiry, or
    the clock past expiry minus the buffer) and a refresh token; the refresh
    call fails.  Then the middleware does not throw and does not answer an
    error: it calls [next()], and the bundle it attached has
    [ebayOAuthConnected] false, [ebayOAuthToken] null, and the three manual
    keys as decrypted from that same row. *)
Theorem failed_refresh_falls_back :
  forall (L : NodeCrypto) (w : world) (s : session_data) (uid a : Z)
         (u owner : user_row),
    session w = Some s -> userId s = Some uid -> uid <> 0 ->
    db_down w (queries w) = false ->
    db w !! uid = Some u -> account_id u = Some a -> db w !! a = Some owner ->
    truthy (ebay_oauth_access_token owner) = true ->
    truthy (ebay_oauth_refresh_token owner) = true ->
    match ebay_oauth_token_expiry owner with
    | Some expiry => clock w (clock_reads w) > expiry - EXPIRY_BUFFER_MS
    | None => True
    end ->
    refresh_fails
      (network w (length (requests w))
         (refresh_request (default "" (EBAY_APP_CLIENT_ID (env w)))
            (default "" (EBAY_APP_CLIENT_SECRET (env w)))
            (default "" (decrypt (env w) (ebay_oauth_refresh_token owner))))) = true ->
    exists cfg,
      (loadUserConfig w).1 = Return Next
      /\ userConfig (loadUserConfig w).2 = Some cfg
      /\ ebayOAuthConnected cfg = false
      /\ ebayOAuthToken cfg = None
      /\ ebayToken cfg = or_str (decrypt (env w) (ebay_token owner)) ""
      /\ ebayClientId cfg = or_str (decrypt (env w) (ebay_client_id owner)) ""
      /\ ebayClientSecret cfg = or_str (decrypt (env w) (ebay_client_secret owner)) "".
Proof.
  intros L w s uid a u owner Hs Hid Hnz Hup Hu Ha Ho Hacc Href Hexp Hfail.
  rewrite (loadUserConfig_found w s uid a u owner) by done.
  unfold try_catch. rewrite run_bind.
  edestruct (use_oauth_token_refresh_failed u owner) as (w1 & -> & Hcfg & _);
    [exact Hacc | exact Href | exact Hexp | exact Hfail |].
  rewrite run_bind.
  destruct (sync_session_run u w1) as (w2 & -> & Hcfg2 & _). rewrite run_ret.
  eexists. split; [reflexivity|]. cbn [snd]. rewrite Hcfg2, Hcfg.
  split; [reflexivity|]. done.
Qed.

Lemma failed_refresh_falls_back_witness :
  exists cfg,
    (loadUserConfig refresh_failing_world).1 = Return Next
    /\ userConfig (loadUserConfig refresh_failing_world).2 = Some cfg
    /\ ebayOAuthConnected cfg = false
    /\ ebayOAuthToken cfg = None
    /\ ebayToken cfg = "manual-token"
    /\ ebayClientId cfg = ""
    /\ ebayClientSecret cfg = "".
Proof.
  destruct (failed_refresh_falls_back sample_crypto refresh_failing_world
              (sample_session None) 1 1
              (stored_owner (Some 1000)) (stored_owner (Some 1000)))
    as (cfg & H1 & H2 & H3 & H4 & H5 & H6 & H7);
    [reflexivity | reflexivity | lia | reflexivity | reflexivity | reflexivity
    | reflexivity | reflexivity | reflexivity | vm_compute; reflexivity
    | reflexivity |].
  exists cfg. repeat split; assumption.
Defined.

Section RefreshSuccess.
Context {L : NodeCrypto}.

Lemma encrypt_run (p : string) (key : list ascii) (w : world) :
  p <> "" -> getKey (env w) = Return key ->
  encrypt (Some p) w
  = (Return (Some (seal_token key (next_iv w) p)),
     set_entropy_used (entropy_used w + 12) w).
Proof.
  intros Hp Hkey. apply String.eqb_neq in Hp. unfold encrypt. rewrite Hp.
  rewrite run_bind. cbn [get_world]. rewrite Hkey. reflexivity.
Qed.

Lemma truthy_Some (v : option string) :
  truthy v = true -> exists p, v = Some p /\ p <> "".
Proof.
  destruct v as [p|]; [|done]. cbn. intros H%negb_true_iff%String.eqb_neq. eauto.
Qed.

(** A successful refresh: one request, the new access token sealed into the
    owner's row with the new expiry; the refresh token is replaced when the
    answer carries one and kept otherwise. *)
Lemma refresh_success (r : string) (a : Z) (w : world) (key : list ascii)
    (data : json_body) :
  gcm_correct L ->
  truthy (EBAY_APP_CLIENT_ID (env w)) = true ->
  truthy (EBAY_APP_CLIENT_SECRET (env w)) = true ->
  r <> "" ->
  network w (length (requests w))
    (refresh_request (default "" (EBAY_APP_CLIENT_ID (env w)))
       (default "" (EBAY_APP_CLIENT_SECRET (env w))) r)
  = Response true (Some data) ->
  truthy (access_token data) = true ->
  getKey (env w) = Return key ->
  db_down w (queries w) = false ->
  exists (w' : world) (f : user_row -> user_row),
    refreshEbayOAuthToken (Some r) (Some a) w = (Return (access_token data), w')
    /\ requests w'
       = (requests w
          ++ [refresh_request (default "" (EBAY_APP_CLIENT_ID (env w)))
                (default "" (EBAY_APP_CLIENT_SECRET (env w))) r])%list
    /\ db w' = alter f a (db w)
    /\ (forall row,
          decrypt (env w) (ebay_oauth_access_token (f row)) = access_token data
          /\ ebay_oauth_token_expiry (f row)
             = Some (clock w (clock_reads w) + lifetime_ms (expires_in data))
          /\ (if truthy (refresh_token data)
              then decrypt (env w) (ebay_oauth_refresh_token (f row))
                   = refresh_token data
              else ebay_oauth_refresh_token (f row) = ebay_oauth_refresh_token row))
    /\ userConfig w' = userConfig w /\ session w' = session w.
Proof.
  intros Hgcm Hcid Hcs Hr Hnet Hacc Hkey Hup.
  destruct (truthy_Some _ Hacc) as (t & Ht & Htne).
  unfold refreshEbayOAuthToken. rewrite run_bind. cbn [get_world].
  rewrite Hcid, Hcs. apply String.eqb_neq in Hr as Hr'.
  cbn [truthy negb orb from_option id]. rewrite Hr'. cbn [negb].
  rewrite run_bind. cbn [fetch]. rewrite Hnet, Hacc. cbn [negb orb].
  rewrite run_bind. cbn [Date_now]. rewrite run_bind.
  destruct (truthy (refresh_token data)) eqn:Hrot.
  - destruct (truthy_Some _ Hrot) as (t2 & Ht2 & Ht2ne).
    rewrite run_bind, Ht, (encrypt_run t key) by done.
    rewrite run_bind, Ht2, (encrypt_run t2 key) by done.
    unfold pool_query. cbn [queries db_down set_entropy_used set_clock_reads
                              set_requests]. rewrite Hup. cbn [sql_update].
    rewrite run_ret. eexists _, _. split; [reflexivity|].
    split; [reflexivity|]. split; [reflexivity|]. split; [|done].
    intros row. cbn. by rewrite !decrypt_seal_token.
  - rewrite run_bind, Ht, (encrypt_run t key) by done.
    unfold pool_query. cbn [queries db_down set_entropy_used set_clock_reads
                              set_requests]. rewrite Hup. cbn [sql_update].
    rewrite run_ret. eexists _, _. split; [reflexivity|].
    split; [reflexivity|]. split; [reflexivity|]. split; [|done].
    intros row. cbn. by rewrite !decrypt_seal_token.
Qed.

End RefreshSuccess.

Section ResolveRefresh.
Context {L : NodeCrypto}.

(** The OAuth block when the token is past the buffer boundary and the
    refresh succeeds. *)
Lemma use_oauth_token_refreshed (u owner : user_row) (w : world) (expiry a : Z)
    (r : string) (data : json_body) :
  gcm_correct L ->
  truthy (ebay_oauth_access_token owner) = true ->
  ebay_oauth_token_expiry owner = Some expiry ->
  clock w (clock_reads w) > expiry - EXPIRY_BUFFER_MS ->
  decrypt (env w) (ebay_oauth_refresh_token owner) = Some r ->
  r <> "" ->
  account_id u = Some a ->
  truthy (EBAY_APP_CLIENT_ID (env w)) = true ->
  truthy (EBAY_APP_CLIENT_SECRET (env w)) = true ->
  network w (length (requests w))
    (refresh_request (default "" (EBAY_APP_CLIENT_ID (env w)))
       (default "" (EBAY_APP_CLIENT_SECRET (env w))) r)
  = Response true (Some data) ->
  truthy (access_token data) = true ->
  db_down w (queries w) = false ->
  exists (w' : world) (f : user_row -> user_row),
    use_oauth_token u owner w = (Return tt, w')
    /\ requests w'
       = (requests w
          ++ [refresh_request (default "" (EBAY_APP_CLIENT_ID (env w)))
                (default "" (EBAY_APP_CLIENT_SECRET (env w))) r])%list
    /\ db w' = alter f a (db w)
    /\ (forall row,
          decrypt (env w) (ebay_oauth_access_token (f row)) = access_token data
          /\ ebay_oauth_token_expiry (f row)
             = Some (clock w (S (clock_reads w)) + lifetime_ms (expires_in data)))
    /\ userConfig w'
       = set_oauth_connected true
           <$> (set_oauth_token (access_token data) <$> userConfig w).
Proof.
  intros Hgcm Hacc Hexp Hlate Hdec Hr Ha Hcid Hcs Hnet Hok Hup.
  destruct (decrypt_Some_key _ _ _ Hdec) as (key' & Hkey).
  unfold use_oauth_token. rewrite Hacc, Hexp.
  rewrite run_bind. cbn [get_world]. rewrite !run_bind. cbn [Date_now].
  rewrite run_ret. apply Z.gtb_gt in Hlate. rewrite Hlate. cbn [negb].
  rewrite (decrypt_Some_truthy _ _ _ Hdec), Hdec, Ha.
  unfold try_catch. rewrite run_bind.
  edestruct (refresh_success r a (set_clock_reads (S (clock_reads w)) w) key' data)
    as (w1 & f & -> & Hreq & Hdb & Hf & Hcfg & _); [done..|].
  rewrite Hok. rewrite run_bind. cbn [modify_userConfig].
  eexists _, f. split; [reflexivity|]. cbn [requests db userConfig set_userConfig].
  split; [exact Hreq|]. split; [exact Hdb|]. split.
  - intros row. destruct (Hf row) as (H1 & H2 & _). by split.
  - by rewrite Hcfg.
Qed.

(** The OAuth block when the clock has not passed the boundary: no request,
    the stored token is used. *)
Lemma use_oauth_token_valid (u owner : user_row) (w : world) (expiry : Z) :
  truthy (ebay_oauth_access_token owner) = true ->
  ebay_oauth_token_expiry owner = Some expiry ->
  clock w (clock_reads w) <= expiry - EXPIRY_BUFFER_MS ->
  exists w',
    use_oauth_token u owner w = (Return tt, w')
    /\ requests w' = requests w
    /\ db w' = db w
    /\ userConfig w'
       = set_oauth_connected true
           <$> (set_oauth_token (decrypt (env w) (ebay_oauth_access_token owner))
                  <$> userConfig w).
Proof.
  intros Hacc Hexp Hearly. unfold use_oauth_token. rewrite Hacc, Hexp.
  rewrite run_bind. cbn [get_world]. rewrite !run_bind. cbn [Date_now].
  rewrite run_ret.
  assert (Hgt : (clock w (clock_reads w) >? expiry - EXPIRY_BUFFER_MS) = false)
    by (rewrite Z.gtb_ltb; apply Z.ltb_ge; lia).
  rewrite Hgt.
  cbn [negb]. rewrite run_bind. cbn [modify_userConfig].
  eexists. split; [reflexivity|]. done.
Qed.

End ResolveRefresh.

(** C3, as amended. An owner row with an access token, an expiry and a
    refresh token that decrypts; the provider answers the refresh with a new
    access token, and the database takes the update.  When the clock is past
    expiry minus the buffer, the middleware sends exactly one request, the
    refresh, stores the new access token sealed and the new expiry in the
    owner's row, and puts the new access token in the bundle.  When the
    clock is exactly at expiry minus the buffer, it sends no request, leaves
    the table as it is, and puts the stored access token in the bundle. *)
Theorem refresh_past_buffer_boundary :
  forall (L : NodeCrypto) (w : world) (s : session_data) (uid a : Z)
         (u owner : user_row) (expiry : Z) (r : string) (data : json_body),
    gcm_correct L ->
    session w = Some s -> userId s = Some uid -> uid <> 0 ->
    db_down w (queries w) = false ->
    db_down w (S (queries w)) = false ->
    db w !! uid = Some u -> account_id u = Some a -> db w !! a = Some owner ->
    truthy (ebay_oauth_access_token owner) = true ->
    ebay_oauth_token_expiry owner = Some expiry ->
    decrypt (env w) (ebay_oauth_refresh_token owner) = Some r ->
    r <> "" ->
    truthy (EBAY_APP_CLIENT_ID (env w)) = true ->
    truthy (EBAY_APP_CLIENT_SECRET (env w)) = true ->
    network w (length (requests w))
      (refresh_request (default "" (EBAY_APP_CLIENT_ID (env w)))
         (default "" (EBAY_APP_CLIENT_SECRET (env w))) r)
    = Response true (Some data) ->
    truthy (access_token data) = true ->
    (clock w (clock_reads w) > expiry - EXPIRY_BUFFER_MS ->
     (loadUserConfig w).1 = Return Next
     /\ requests (loadUserConfig w).2
        = (requests w
           ++ [refresh_request (default "" (EBAY_APP_CLIENT_ID (env w)))
                 (default "" (EBAY_APP_CLIENT_SECRET (env w))) r])%list
     /\ (exists row,
           db (loadUserConfig w).2 !! a = Some row
           /\ decrypt (env w) (ebay_oauth_access_token row) = access_token data
           /\ ebay_oauth_token_expiry row
              = Some (clock w (S (clock_reads w)) + lifetime_ms (expires_in data)))
     /\ (exists cfg,
           userConfig (loadUserConfig w).2 = Some cfg
           /\ ebayOAuthToken cfg = access_token data
           /\ ebayOAuthConnected cfg = true))
    /\ (clock w (clock_reads w) = expiry - EXPIRY_BUFFER_MS ->
        (loadUserConfig w).1 = Return Next
        /\ requests (loadUserConfig w).2 = requests w
        /\ db (loadUserConfig w).2 = db w
        /\ (exists cfg,
              userConfig (loadUserConfig w).2 = Some cfg
              /\ ebayOAuthToken cfg = decrypt (env w) (ebay_oauth_access_token owner)
              /\ ebayOAuthConnected cfg = true)).
Proof.
  intros L w s uid a u owner expiry r data Hgcm Hs Hid Hnz Hup Hup2 Hu Ha Ho
    Hacc Hexp Hdec Hr Hcid Hcs Hnet Hok.
  rewrite (loadUserConfig_found w s uid a u owner) by done.
  unfold try_catch. rewrite run_bind. split.
  - intros Hlate.
    edestruct (use_oauth_token_refreshed u owner) as (w1 & f & -> & Hreq & Hdb & Hf & Hcfg);
      [exact Hgcm | exact Hacc | exact Hexp | exact Hlate | exact Hdec | exact Hr
      | exact Ha | exact Hcid | exact Hcs | exact Hnet | exact Hok | exact Hup2 |].
    rewrite run_bind.
    destruct (sync_session_run u w1) as (w2 & -> & Hcfg2 & Hdb2 & Hreq2).
    rewrite run_ret. cbn [fst snd]. split; [reflexivity|].
    split; [by rewrite Hreq2, Hreq|]. split.
    + exists (f owner). rewrite Hdb2, Hdb. cbn [db set_userConfig set_db].
      rewrite lookup_alter, decide_True by done. rewrite Ho.
      split; [reflexivity|]. apply Hf.
    + rewrite Hcfg2, Hcfg. eexists. split; [reflexivity|]. done.
  - intros Hat.
    edestruct (use_oauth_token_valid u owner) as (w1 & -> & Hreq & Hdb & Hcfg);
      [exact Hacc | exact Hexp | cbn [clock clock_reads set_userConfig set_db set_queries]; lia |].
    rewrite run_bind.
    destruct (sync_session_run u w1) as (w2 & -> & Hcfg2 & Hdb2 & Hreq2).
    rewrite run_ret. cbn [fst snd]. split; [reflexivity|].
    split; [by rewrite Hreq2, Hreq|]. split; [by rewrite Hdb2, Hdb|].
    rewrite Hcfg2, Hcfg. eexists. split; [reflexivity|]. done.
Qed.

Lemma refresh_past_buffer_boundary_witness :
  (loadUserConfig (refreshing_world 700001)).1 = Return Next
  /\ requests (loadUserConfig (refreshing_world 700001)).2
     = [refresh_request "app-id" "app-cert" "old-refresh"]
  /\ (exists row,
        db (loadUserConfig (refreshing_world 700001)).2 !! 1 = Some row
        /\ decrypt sample_env (ebay_oauth_access_token row) = Some "new-access"
        /\ ebay_oauth_token_expiry row = Some (700001 + 7200000))
  /\ (exists cfg,
        userConfig (loadUserConfig (refreshing_world 700001)).2 = Some cfg
        /\ ebayOAuthToken cfg = Some "new-access"
        /\ ebayOAuthConnected cfg = true).
Proof.
  destruct (refresh_past_buffer_boundary sample_crypto (refreshing_world 700001)
              (sample_session None) 1 1
              (stored_owner (Some 1000000)) (stored_owner (Some 1000000))
              1000000 "old-refresh"
              (token_answer (Some "new-access") None)) as [Hlate _];
    [exact sample_crypto_correct | reflexivity | reflexivity | lia | reflexivity
    | reflexivity | reflexivity | reflexivity | reflexivity | reflexivity
    | reflexivity | vm_compute; reflexivity | discriminate | reflexivity
    | reflexivity | reflexivity | reflexivity |].
  apply Hlate. vm_compute. reflexivity.
Defined.

(** C3 as stated fails: with the clock exactly at expiry minus the buffer
    (700000 = 1000000 - 300000), a valid refresh token and a provider that
    would answer with a new token, the middleware sends no request, leaves
    the table as it is and returns the stored access token. *)
Lemma token_at_boundary_not_refreshed :
  clock (refreshing_world 700000) (clock_reads (refreshing_world 700000))
  = 1000000 - EXPIRY_BUFFER_MS
  /\ decrypt sample_env (Some (sample_token "old-refresh")) = Some "old-refresh"
  /\ (loadUserConfig (refreshing_world 700000)).1 = Return Next
  /\ length (requests (loadUserConfig (refreshing_world 700000)).2) = 0%nat
  /\ db (loadUserConfig (refreshing_world 700000)).2 = db (refreshing_world 700000)
  /\ (ebayOAuthToken <$> userConfig (loadUserConfig (refreshing_world 700000)).2)
     = Some (Some "old-access").
Proof. by vm_compute. Qed.

(** ** The callback's persisted columns *)

Section Connected.
Context {L : NodeCrypto}.

Lemma fetch_username_run (t : string) (w : world) :
  fetch_username t w
  = (Return (identity_label (network w (length (requests w)) (identity_request t))),
     set_requests (requests w ++ [identity_request t]) w).
Proof.
  unfold fetch_username, try_catch. rewrite run_bind. cbn [fetch].
  by destruct (network w _ _) as [|[] [d|]].
Qed.

Lemma callback_connected (query : callback_query) (w : world) (s : session_data)
    (a : Z) (t : string) (tokenData : json_body) (key : list ascii) :
  session w = Some s -> accountId s = Some a ->
  reports_denial query = false ->
  truthy (ebayOAuthState s) = true ->
  query_state query = ebayOAuthState s ->
  truthy (query_code query) = true ->
  truthy (EBAY_APP_CLIENT_ID (env w)) = true ->
  truthy (EBAY_APP_CLIENT_SECRET (env w)) = true ->
  truthy (EBAY_RUNAME (env w)) = true ->
  network w (length (requests w))
    (exchange_request (default "" (EBAY_APP_CLIENT_ID (env w)))
       (default "" (EBAY_APP_CLIENT_SECRET (env w)))
       (default "" (query_code query)) (default "" (EBAY_RUNAME (env w))))
  = Response true (Some tokenData) ->
  access_token tokenData = Some t -> t <> "" ->
  truthy (refresh_token tokenData) = false ->
  getKey (env w) = Return key ->
  db_down w (queries w) = false ->
  exists w',
    callback query w = (Return connected, w')
    /\ db w'
       = alter (set_oauth (Some (seal_token key (next_iv w) t)) None
                  (Some (clock w (clock_reads w) + lifetime_ms (expires_in tokenData)))
                  (identity_label
                     (network w (S (length (requests w))) (identity_request t))))
           a (db w).
Proof.
  intros Hs Ha Hden Hsaved Hstate Hcode Hcid Hcs Hru Hnet Ht Htne Hnoref Hkey Hup.
  unfold callback. rewrite run_bind. cbn [get_world]. rewrite Hs.
  rewrite run_bind. cbn [modify_session]. unfold reports_denial in Hden.
  rewrite Hden, Hsaved, Hstate.
  assert (strict_eq (ebayOAuthState s) (ebayOAuthState s) = true) as ->
    by by apply strict_eq_true.
  rewrite Hcode, Hcid, Hcs, Hru. cbn [negb orb].
  unfold try_catch. rewrite run_bind. cbn [fetch].
  cbn [network requests set_session]. rewrite Hnet, Ht.
  assert (truthy (Some t) = true) as ->
    by (cbn; by apply negb_true_iff, String.eqb_neq).
  cbn [negb orb]. rewrite run_bind. cbn [Date_now].
  rewrite run_bind, fetch_username_run. rewrite run_bind. cbn [get_world].
  rewrite run_bind, (encrypt_run t key) by done.
  unfold or_else. rewrite Hnoref. cbn [truthy]. rewrite run_bind, run_ret.
  rewrite run_bind. unfold pool_query.
  cbn [queries db_down db session set_entropy_used set_requests set_clock_reads
       set_session]. rewrite Hup, Hs. cbn [fmap option_fmap option_map mbind option_bind
                                        set_session_state accountId].
  rewrite Ha. cbn [sql_update]. rewrite run_ret.
  eexists. split; [reflexivity|]. cbn [db set_db]. f_equal.
  unfold next_iv. simpl_world. cbn [from_option id].
  by rewrite length_app, Nat.add_1_r.
Qed.

End Connected.

(** C1, as amended. A callback whose token exchange succeeds with an answer
    that carries no refresh token writes all four OAuth columns of the
    owner's row: the access token sealed, [NULL] for the refresh token
    (whatever was stored before), the new expiry, and the identity label.
    The other columns of the row stay as they were. *)
Theorem callback_overwrites_refresh_token :
  forall (L : NodeCrypto) (query : callback_query) (w : world) (s : session_data)
         (a : Z) (owner : user_row) (t : string) (tokenData : json_body)
         (key : list ascii),
    gcm_correct L ->
    session w = Some s -> accountId s = Some a -> db w !! a = Some owner ->
    reports_denial query = false ->
    truthy (ebayOAuthState s) = true ->
    query_state query = ebayOAuthState s ->
    truthy (query_code query) = true ->
    truthy (EBAY_APP_CLIENT_ID (env w)) = true ->
    truthy (EBAY_APP_CLIENT_SECRET (env w)) = true ->
    truthy (EBAY_RUNAME (env w)) = true ->
    network w (length (requests w))
      (exchange_request (default "" (EBAY_APP_CLIENT_ID (env w)))
         (default "" (EBAY_APP_CLIENT_SECRET (env w)))
         (default "" (query_code query)) (default "" (EBAY_RUNAME (env w))))
    = Response true (Some tokenData) ->
    access_token tokenData = Some t -> t <> "" ->
    truthy (refresh_token tokenData) = false ->
    getKey (env w) = Return key ->
    db_down w (queries w) = false ->
    (callback query w).1 = Return connected
    /\ exists sealed,
         decrypt (env w) (Some sealed) = Some t
         /\ db (callback query w).2 !! a
            = Some (set_oauth (Some sealed) None
                      (Some (clock w (clock_reads w)
                             + lifetime_ms (expires_in tokenData)))
                      (identity_label
                         (network w (S (length (requests w))) (identity_request t)))
                      owner).
Proof.
  intros L query w s a owner t tokenData key Hgcm Hs Ha Ho Hden Hsaved Hstate
    Hcode Hcid Hcs Hru Hnet Ht Htne Hnoref Hkey Hup.
  destruct (callback_connected query w s a t tokenData key) as (w' & -> & Hdb);
    [done..|].
  split; [reflexivity|]. eexists. split; [by apply decrypt_seal_token|].
  cbn [snd]. by rewrite Hdb, lookup_alter, decide_True, Ho.
Qed.

Lemma callback_overwrites_refresh_token_witness :
  (callback (sample_query (Some "5f2a")) reconsent_world).1 = Return connected
  /\ exists sealed,
       decrypt sample_env (Some sealed) = Some "new-access"
       /\ db (callback (sample_query (Some "5f2a")) reconsent_world).2 !! 1
          = Some (set_oauth (Some sealed) None (Some (5000 + 7200000))
                    (Some "ada_on_ebay") (stored_owner (Some 1000))).
Proof.
  apply (callback_overwrites_refresh_token sample_crypto (sample_query (Some "5f2a"))
           reconsent_world (sample_session (Some "5f2a")) 1
           (stored_owner (Some 1000))
           "new-access" (token_answer (Some "new-access") None) sample_key).
  - exact sample_crypto_correct.
  - reflexivity.
  - reflexivity.
  - reflexivity.
  - reflexivity.
  - reflexivity.
  - reflexivity.
  - reflexivity.
  - reflexivity.
  - reflexivity.
  - reflexivity.
  - reflexivity.
  - reflexivity.
  - discriminate.
  - reflexivity.
  - reflexivity.
  - reflexivity.
Defined.

(** C1 as stated fails: the owner's row holds a refresh token, the callback
    succeeds on an answer without a refresh token, and afterwards the column
    is [NULL]. *)
Lemma callback_discards_stored_refresh_token :
  (ebay_oauth_refresh_token <$> db reconsent_world !! 1)
  = Some (Some (sample_token "old-refresh"))
  /\ (callback (sample_query (Some "5f2a")) reconsent_world).1 = Return connected
  /\ (ebay_oauth_refresh_token
        <$> db (callback (sample_query (Some "5f2a")) reconsent_world).2 !! 1)
     = Some None.
Proof. by vm_compute. Qed.

(** ** The configuration write *)

Lemma get_set_column (c c' : column) (v : option string) (r : user_row) :
  get_column c (set_column c' v r) = if decide (c = c') then v else get_column c r.
Proof. by destruct c, c'. Qed.

Lemma get_column_set_columns_other (c : column) (l : list (column * option string))
    (r : user_row) :
  c ∉ l.*1 -> get_column c (set_columns l r) = get_column c r.
Proof.
  unfold set_columns. revert r. induction l as [|[c' v] l IH]; intros r Hc; [done|].
  cbn [fold_left fst snd].
  rewrite IH by (intros Hin; apply Hc; cbn; apply elem_of_cons; by right).
  rewrite get_set_column, decide_False; [done|].
  intros ->. apply Hc. cbn. apply elem_of_cons. by left.
Qed.

Lemma get_column_set_columns (c : column) (v : option string)
    (l : list (column * option string)) (r : user_row) :
  NoDup l.*1 -> (c, v) ∈ l -> get_column c (set_columns l r) = v.
Proof.
  unfold set_columns. revert r. induction l as [|[c' v'] l IH]; intros r Hnd Hin.
  { by apply elem_of_nil in Hin. }
  cbn [fmap list_fmap fst] in Hnd. apply NoDup_cons in Hnd as [Hc' Hnd].
  cbn [fold_left fst snd]. apply elem_of_cons in Hin as [[= <- <-] | Hin].
  - fold (set_columns l (set_column c v r)).
    rewrite get_column_set_columns_other by done.
    by rewrite get_set_column, decide_True.
  - by apply IH.
Qed.

Lemma manual_keys_columns (r r' : user_row) :
  (forall c, is_key_column c = true -> get_column c r' = get_column c r) ->
  manual_keys r' = manual_keys r.
Proof.
  intros H. unfold manual_keys.
  pose proof (H col_ebay_token eq_refl) as H1.
  pose proof (H col_ebay_client_id eq_refl) as H2.
  pose proof (H col_ebay_client_secret eq_refl) as H3.
  cbn [get_column] in H1, H2, H3. by rewrite H1, H2, H3.
Qed.

Lemma profile_updates_columns (c : column) (l : list (column * js_field)) :
  c ∈ (profile_updates l).*1 -> c ∈ l.*1.
Proof.
  induction l as [|[c' f] l IH]; [done|]. cbn [profile_updates].
  destruct (negb (is_undefined f)); cbn; rewrite !elem_of_cons; [|by auto].
  intros [-> | Hin]; auto.
Qed.

#[local] Instance same_keys_preorder : PreOrder same_keys.
Proof.
  split; [by intros w id|]. intros a b c Hab Hbc id. by rewrite Hbc, Hab.
Qed.

#[local] Instance same_setting_preorder : PreOrder same_setting.
Proof.
  split; [by intros w|]. intros a b c (H1 & H2 & H3) (H4 & H5 & H6).
  unfold same_setting. by rewrite H4, H5, H6.
Qed.

Section ConfigWrite.
Context {L : NodeCrypto}.

(** An update that leaves the manual keys of every row as they are. *)
Lemma keys_sql_update (f : user_row -> user_row) (id : option Z) :
  (forall r, manual_keys (f r) = manual_keys r) ->
  keeps same_keys (pool_query (sql_update f id)).
Proof.
  intros Hf w. unfold pool_query. destruct (db_down w (queries w)); [by intros j|].
  destruct id as [i|]; [|by intros j]. intros j. cbn.
  rewrite lookup_alter. case_decide as Hij; [|done]. subst j.
  destruct (db w !! i); [|done]. cbn. by rewrite Hf.
Qed.

Lemma keys_save_profile (userId : option Z) (body : config_body) :
  keeps same_keys (save_profile userId body).
Proof.
  unfold save_profile. cbv zeta. destruct (0 <? _)%nat; [|apply (keeps_ret same_keys)].
  apply keys_sql_update. intros r. apply manual_keys_columns. intros c Hc.
  apply get_column_set_columns_other. intros Hin%profile_updates_columns.
  cbn in Hin. set_unfold in Hin. by destruct Hin as [->|[->|[->|[->|[]]]]].
Qed.

Lemma keys_save_template (role : option string) (accountId : option Z)
    (body : config_body) :
  keeps same_keys (save_template role accountId body).
Proof.
  unfold save_template.
  destruct (negb _); [|apply (keeps_ret same_keys)].
  destruct (strict_eq _ _); [apply (keeps_ret same_keys)|].
  apply (keeps_bind same_keys); [|intros ?; apply (keeps_ret same_keys)].
  by apply keys_sql_update.
Qed.

(** A write without a non-empty manual key leaves the manual keys of every
    row as they are. *)
Lemma keys_put_config_blank (body : config_body) :
  submits_key body = false -> keeps same_keys (put_config body).
Proof.
  intros Hblank. unfold put_config, save_keys. rewrite Hblank.
  pose proof keys_save_profile. pose proof keys_save_template.
  keeps_auto same_keys.
Qed.

End ConfigWrite.

Section ConfigWriteRuns.
Context {L : NodeCrypto}.

Lemma pool_query_run {A : Type} (q : gmap Z user_row -> A * gmap Z user_row)
    (w : world) :
  db_down w (queries w) = false ->
  pool_query q w
  = (Return (q (db w)).1, set_db (q (db w)).2 (set_queries (S (queries w)) w)).
Proof. intros Hup. unfold pool_query. rewrite Hup. by destruct (q (db w)). Qed.

Lemma save_profile_run (userId : option Z) (body : config_body) (w : world) :
  (forall n, db_down w n = false) ->
  exists w', save_profile userId body w = (Return tt, w') /\ same_setting w w'.
Proof.
  intros Hup. unfold save_profile. cbv zeta. destruct (0 <? _)%nat.
  - rewrite pool_query_run by done. eexists. split; [by destruct userId|done].
  - eexists. split; [reflexivity|done].
Qed.

Lemma save_template_run (accountId : option Z) (body : config_body) (w : world) :
  (forall n, db_down w n = false) ->
  exists w',
    save_template (Some "admin") accountId body w = (Return JsonSuccess, w')
    /\ same_setting w w'.
Proof.
  intros Hup. unfold save_template. destruct (negb _).
  - cbn [strict_eq String.eqb Ascii.eqb Bool.eqb]. rewrite run_bind.
    rewrite pool_query_run by done. eexists. split; [by destruct accountId|done].
  - eexists. split; [reflexivity|done].
Qed.

(** The second loop, when the key is there: it returns the updates, one for
    every field that is not undefined, [NULL] for a blank one. *)
Lemma key_updates_run (items : list (column * js_field)) (key : list ascii) (w : world) :
  getKey (env w) = Return key ->
  exists l w',
    key_updates items w = (Return l, w')
    /\ same_setting w w' /\ db w' = db w /\ queries w' = queries w
    /\ (forall c f, (c, f) ∈ items -> is_undefined f = false ->
                    truthy (field_value f) = false -> (c, None) ∈ l)
    /\ sublist l.*1 items.*1.
Proof.
  revert w. induction items as [|[c0 f0] items IH]; intros w Hkey.
  { eexists [], w. split; [reflexivity|]. split; [done|]. split; [done|].
    split; [done|]. split; [|done]. intros c f Hin. by apply elem_of_nil in Hin. }
  cbn [key_updates]. destruct (is_undefined f0) eqn:Hundef; cbn [negb].
  - destruct (IH w Hkey) as (l & w' & Hrun & Hset & Hdb & Hq & Hblank & Hcols).
    exists l, w'. split; [done|]. split; [done|]. split; [done|]. split; [done|].
    split.
    + intros c f [[= -> ->] | Hin]%elem_of_cons Hdef Hfalsy; [congruence|eauto].
    + cbn. by apply sublist_cons.
  - rewrite run_bind. destruct (truthy (field_value f0)) eqn:Htruthy.
    + destruct (truthy_Some _ Htruthy) as (p & Hp & Hpne).
      rewrite Hp, (encrypt_run p key) by done. rewrite run_bind.
      destruct (IH (set_entropy_used (entropy_used w + 12) w) Hkey)
        as (l & w' & -> & Hset & Hdb & Hq & Hblank & Hcols).
      rewrite run_ret. eexists _, w'. split; [reflexivity|].
      split; [exact Hset|]. split; [exact Hdb|]. split; [exact Hq|]. split.
      * intros c f [[= -> ->] | Hin]%elem_of_cons Hdef Hfalsy; [congruence|].
        apply elem_of_cons. right. eauto.
      * cbn. by apply sublist_skip.
    + rewrite run_ret, run_bind.
      destruct (IH w Hkey) as (l & w' & -> & Hset & Hdb & Hq & Hblank & Hcols).
      rewrite run_ret. eexists _, w'. split; [reflexivity|].
      split; [exact Hset|]. split; [exact Hdb|]. split; [exact Hq|]. split.
      * intros c f [[= -> ->] | Hin]%elem_of_cons Hdef Hfalsy;
          apply elem_of_cons; [by left|]. right. eauto.
      * cbn. by apply sublist_skip.
Qed.

(** The key section when a blank field comes with a non-empty one: the
    blank field's column of the owner's row is [NULL] afterwards. *)
Lemma save_keys_clears (a : Z) (body : config_body) (w : world) (key : list ascii)
    (c : column) (f : js_field) (owner : user_row) :
  submits_key body = true ->
  getKey (env w) = Return key ->
  (forall n, db_down w n = false) ->
  (c, f) ∈ key_fields body -> is_undefined f = false ->
  truthy (field_value f) = false ->
  db w !! a = Some owner ->
  exists w' row,
    save_keys (Some "admin") (Some a) body w = (Return Next, w')
    /\ same_setting w w'
    /\ db w' !! a = Some row /\ get_column c row = None.
Proof.
  intros Hsub Hkey Hup Hin Hdef Hblank Ho. unfold save_keys. rewrite Hsub.
  cbn [strict_eq String.eqb Ascii.eqb Bool.eqb negb]. rewrite run_bind.
  destruct (key_updates_run (key_fields body) key w Hkey)
    as (l & w1 & -> & (He & Hs & Hd) & Hdb & Hq & Hnull & Hcols).
  specialize (Hnull c f Hin Hdef Hblank).
  assert ((0 <? length l)%nat = true) as ->.
  { destruct l; [by apply elem_of_nil in Hnull|done]. }
  rewrite run_bind, pool_query_run by (rewrite Hd; apply Hup). rewrite run_ret.
  eexists _, (set_columns l owner). split; [reflexivity|].
  split; [by unfold same_setting|]. cbn [sql_update snd db set_db].
  split; [by rewrite lookup_alter, decide_True, Hdb, Ho|].
  apply get_column_set_columns; [|done].
  eapply sublist_NoDup; [|exact Hcols]. cbn.
  by apply (bool_decide_unpack _).
Qed.

End ConfigWriteRuns.

#[local] Instance same_rows_preorder : PreOrder same_rows.
Proof.
  split; [by intros w|]. intros a b c Hab Hbc. unfold same_rows in *. congruence.
Qed.

Section ConfigFrames.
Context {L : NodeCrypto}.

Lemma setting_pool_query {A : Type} (q : gmap Z user_row -> A * gmap Z user_row) :
  keeps same_setting (pool_query q).
Proof.
  intros w. unfold pool_query. destruct (db_down w (queries w)); [done|].
  by destruct (q (db w)).
Qed.

Lemma setting_randomBytes (n : nat) : keeps same_setting (randomBytes n).
Proof. by intros w. Qed.

Lemma rows_sql_update (f : user_row -> user_row) (id : option Z) :
  keeps same_rows (pool_query (sql_update f id)).
Proof.
  intros w. unfold pool_query. destruct (db_down w (queries w)); [done|].
  destruct id as [i|]; [|done]. unfold same_rows. cbn. apply dom_alter_L.
Qed.

Lemma rows_randomBytes (n : nat) : keeps same_rows (randomBytes n).
Proof. by intros w. Qed.

#[local] Hint Resolve setting_pool_query setting_randomBytes rows_sql_update
  rows_randomBytes : keeps.

Lemma setting_encrypt (p : option string) : keeps same_setting (encrypt p).
Proof. unfold encrypt. keeps_auto same_setting. Qed.

Lemma rows_encrypt (p : option string) : keeps same_rows (encrypt p).
Proof. unfold encrypt. keeps_auto same_rows. Qed.

#[local] Hint Resolve setting_encrypt rows_encrypt : keeps.

Lemma setting_key_updates (items : list (column * js_field)) :
  keeps same_setting (key_updates items).
Proof.
  induction items as [|[c f] items IH]; cbn [key_updates];
    keeps_auto same_setting.
Qed.

Lemma rows_key_updates (items : list (column * js_field)) :
  keeps same_rows (key_updates items).
Proof.
  induction items as [|[c f] items IH]; cbn [key_updates]; keeps_auto same_rows.
Qed.

#[local] Hint Resolve setting_key_updates rows_key_updates : keeps.

Lemma setting_put_config (body : config_body) : keeps same_setting (put_config body).
Proof.
  unfold put_config, save_profile, save_keys, save_template.
  keeps_auto same_setting.
Qed.

Lemma rows_put_config (body : config_body) : keeps same_rows (put_config body).
Proof.
  unfold put_config, save_profile, save_keys, save_template.
  keeps_auto same_rows.
Qed.

Lemma same_keys_lookup (w w' : world) (id : Z) (r : user_row) :
  same_keys w w' -> db w !! id = Some r ->
  exists r', db w' !! id = Some r' /\ manual_keys r' = manual_keys r.
Proof.
  intros Hk Hr. specialize (Hk id). rewrite Hr in Hk.
  destruct (db w' !! id) as [r'|]; cbn [fmap option_fmap option_map] in Hk; [|done].
  exists r'. split; [reflexivity|]. congruence.
Qed.

Lemma same_rows_lookup (w w' : world) (id : Z) (r : user_row) :
  same_rows w w' -> db w !! id = Some r -> exists r', db w' !! id = Some r'.
Proof.
  intros Hrows Hr. apply (elem_of_dom (db w') id). rewrite Hrows.
  apply elem_of_dom. eauto.
Qed.

Lemma key_column_get (c : column) (r r' : user_row) :
  is_key_column c = true -> manual_keys r' = manual_keys r ->
  get_column c r' = get_column c r.
Proof. intros Hc [= H1 H2 H3]. by destruct c. Qed.

Lemma key_fields_key_column (c : column) (f : js_field) (body : config_body) :
  (c, f) ∈ key_fields body -> is_key_column c = true.
Proof.
  unfold key_fields. intros Hin.
  repeat (apply elem_of_cons in Hin as [[= -> _] | Hin]; [done|]).
  by apply elem_of_nil in Hin.
Qed.

(** What the configuration read shows an admin of the owner's manual keys. *)
Lemma get_config_shows (w : world) (s : session_data) (uid a : Z)
    (profile owner : user_row) :
  session w = Some s -> session_role s = Some "admin" ->
  userId s = Some uid -> accountId s = Some a ->
  (forall n, db_down w n = false) ->
  db w !! uid = Some profile -> db w !! a = Some owner ->
  exists view,
    (get_config w).1 = Return (JsonConfig view)
    /\ forall c, is_key_column c = true ->
                 view_key c view = Some (mask (env w) (get_column c owner)).
Proof.
  intros Hs Hrole Hid Ha Hup Hp Ho. unfold get_config, try_catch.
  rewrite run_bind. cbn [get_world]. rewrite Hs, Hid, Ha, Hrole.
  rewrite run_bind, pool_query_run by done. unfold select_by_id.
  cbn [fst snd]. rewrite Hp. rewrite run_bind, pool_query_run by apply Hup.
  simpl_world. cbn [fst snd]. rewrite Ho. rewrite run_ret.
  eexists. split; [reflexivity|].
  intros c Hc. by destruct c.
Qed.

End ConfigFrames.

Section ConfigClears.
Context {L : NodeCrypto}.

(** The write, when a blank manual-key field comes with a non-empty one. *)
Lemma put_config_clears (body : config_body) (w : world) (s : session_data) (a : Z)
    (owner : user_row) (key : list ascii) (c : column) (f : js_field) :
  session w = Some s -> session_role s = Some "admin" -> accountId s = Some a ->
  db w !! a = Some owner ->
  getKey (env w) = Return key ->
  (forall n, db_down w n = false) ->
  (c, f) ∈ key_fields body -> is_undefined f = false ->
  truthy (field_value f) = false ->
  submits_key body = true ->
  exists row,
    (put_config body w).1 = Return JsonSuccess
    /\ db (put_config body w).2 !! a = Some row
    /\ get_column c row = None.
Proof.
  intros Hs Hrole Ha Ho Hkey Hup Hin Hdef Hblank Hsub.
  pose proof (key_fields_key_column _ _ _ Hin) as Hc.
  unfold put_config. rewrite run_bind. cbn [get_world]. rewrite Hs, Hrole, Ha.
  cbv zeta. unfold try_catch. rewrite run_bind.
  destruct (save_profile_run (userId s) body w Hup) as (w1 & Hrun1 & (He1 & Hs1 & Hd1)).
  pose proof (keys_save_profile (userId s) body w) as Hk1.
  rewrite Hrun1 in Hk1 |- *. cbn [snd] in Hk1.
  destruct (same_keys_lookup w w1 a owner Hk1 Ho) as (owner1 & Ho1 & _).
  rewrite run_bind.
  destruct (save_keys_clears a body w1 key c f owner1)
    as (w2 & row2 & Hrun2 & (He2 & Hs2 & Hd2) & Hrow2 & Hnull2);
    [done | by rewrite He1 | by intros n; rewrite Hd1 | done..|].
  rewrite Hrun2.
  destruct (save_template_run (Some a) body w2) as (w3 & Hrun3 & _);
    [by intros n; rewrite Hd2, Hd1|].
  pose proof (keys_save_template (Some "admin") (Some a) body w2) as Hk3.
  rewrite Hrun3 in Hk3 |- *. cbn [snd] in Hk3.
  destruct (same_keys_lookup w2 w3 a row2 Hk3 Hrow2) as (row3 & Hrow3 & Hsame3).
  exists row3. split; [reflexivity|]. split; [exact Hrow3|].
  by rewrite (key_column_get c _ _ Hc Hsame3).
Qed.

End ConfigClears.

(** C2, as amended. An admin writes the configuration with a manual-key
    field that is blank ([null] or the empty string); the master secret is
    set and the database takes every statement.  If the same request carries
    a non-empty value for one of the three manual keys, the write succeeds,
    the blank field's column of the owner's row is [NULL] afterwards, and
    the following read shows it unset.  If none of the three is non-empty,
    the key section is skipped: the column keeps its value and the
    following read shows what it showed before. *)
Theorem blank_key_cleared_only_with_another :
  forall (L : NodeCrypto) (body : config_body) (w : world) (s : session_data)
         (uid a : Z) (profile owner : user_row) (key : list ascii)
         (c : column) (f : js_field),
    session w = Some s -> session_role s = Some "admin" ->
    userId s = Some uid -> accountId s = Some a ->
    db w !! uid = Some profile -> db w !! a = Some owner ->
    getKey (env w) = Return key ->
    (forall n, db_down w n = false) ->
    (c, f) ∈ key_fields body ->
    is_undefined f = false ->
    truthy (field_value f) = false ->
    (submits_key body = true ->
     (put_config body w).1 = Return JsonSuccess
     /\ (exists row,
           db (put_config body w).2 !! a = Some row /\ get_column c row = None)
     /\ (exists view,
           (get_config (put_config body w).2).1 = Return (JsonConfig view)
           /\ view_key c view = Some unset))
    /\ (submits_key body = false ->
        (exists row,
           db (put_config body w).2 !! a = Some row
           /\ get_column c row = get_column c owner)
        /\ (exists view,
              (get_config (put_config body w).2).1 = Return (JsonConfig view)
              /\ view_key c view = Some (mask (env w) (get_column c owner)))).
Proof.
  intros L body w s uid a profile owner key c f Hs Hrole Hid Ha Hp Ho Hkey Hup
    Hin Hdef Hblank.
  pose proof (key_fields_key_column _ _ _ Hin) as Hc.
  destruct (setting_put_config body w) as (He' & Hs' & Hd').
  destruct (same_rows_lookup _ _ _ _ (rows_put_config body w) Hp) as (profile' & Hp').
  assert (Hup' : forall n, db_down (put_config body w).2 n = false)
    by (intros n; by rewrite Hd').
  assert (Hs2 : session (put_config body w).2 = Some s) by by rewrite Hs'.
  split.
  - intros Hsub.
    destruct (put_config_clears body w s a owner key c f)
      as (row & Hreply & Hrow & Hnull); [done..|].
    split; [exact Hreply|]. split; [eauto|].
    destruct (get_config_shows _ s uid a profile' row Hs2 Hrole Hid Ha Hup' Hp' Hrow)
      as (view & Hview & Hkeys).
    exists view. split; [exact Hview|]. by rewrite (Hkeys c Hc), Hnull.
  - intros Hsub.
    destruct (same_keys_lookup _ _ _ _ (keys_put_config_blank body Hsub w) Ho)
      as (row & Hrow & Hsame).
    pose proof (key_column_get c _ _ Hc Hsame) as Hcol.
    split; [eauto|].
    destruct (get_config_shows _ s uid a profile' row Hs2 Hrole Hid Ha Hup' Hp' Hrow)
      as (view & Hview & Hkeys).
    exists view. split; [exact Hview|]. by rewrite (Hkeys c Hc), Hcol, He'.
Qed.

Lemma blank_key_cleared_only_with_another_witness :
  (put_config (keys_body (Str "") (Str "new-client-id") Undefined) admin_world).1
  = Return JsonSuccess
  /\ (exists row,
        db (put_config (keys_body (Str "") (Str "new-client-id") Undefined)
              admin_world).2 !! 1 = Some row
        /\ get_column col_ebay_token row = None)
  /\ (exists view,
        (get_config
           (put_config (keys_body (Str "") (Str "new-client-id") Undefined)
              admin_world).2).1 = Return (JsonConfig view)
        /\ view_key col_ebay_token view = Some unset).
Proof.
  destruct (blank_key_cleared_only_with_another sample_crypto
              (keys_body (Str "") (Str "new-client-id") Undefined) admin_world
              (sample_session None) 1 1
              (stored_owner (Some 1000)) (stored_owner (Some 1000)) sample_key
              col_ebay_token (Str "")) as [Hclears _];
    [reflexivity | reflexivity | reflexivity | reflexivity | reflexivity
    | reflexivity | reflexivity | reflexivity | apply elem_of_cons; by left
    | reflexivity | reflexivity |].
  apply Hclears. reflexivity.
Defined.

(** C2 as stated fails: an admin writes [ebay_token = ""] and nothing else
    while the owner's row holds a token.  The write answers success, the
    column still holds the token, and the following read shows the field
    set, with the preview of the stored token. *)
Lemma blank_key_alone_not_cleared :
  (put_config (keys_body (Str "") Undefined Undefined) admin_world).1
  = Return JsonSuccess
  /\ (ebay_token
        <$> db (put_config (keys_body (Str "") Undefined Undefined) admin_world).2 !! 1)
     = Some (Some (sample_token "manual-token"))
  /\ (view_key col_ebay_token
        <$> match (get_config
                     (put_config (keys_body (Str "") Undefined Undefined)
                        admin_world).2).1 with
            | Return (JsonConfig view) => Some view
            | _ => None
            end)
     = Some (Some {| set := true; preview := "manual...oken" |}).
Proof. by vm_compute. Qed.

(** * Further properties of the handlers *)

(** ** Assertions before and after a handler *)

Section Triples.
Context {A B : Type}.

Lemma triple_ret (I : world -> Prop) (a : A) (Q : completion A -> world -> Prop) :
  (forall w, I w -> Q (Return a) w) -> triple I (mret a) Q.
Proof. intros H w Hw. by apply H. Qed.

Lemma triple_throw (I : world -> Prop) (e : string)
    (Q : completion A -> world -> Prop) :
  (forall w, I w -> Q (Throw e) w) -> triple I (throw e) Q.
Proof. intros H w Hw. by apply H. Qed.

Lemma triple_bind (I : world -> Prop) (m : M A) (k : A -> M B)
    (Q1 : completion A -> world -> Prop) (Q : completion B -> world -> Prop) :
  triple I m Q1 ->
  (forall a, triple (Q1 (Return a)) (k a) Q) ->
  (forall e w, Q1 (Throw e) w -> Q (Throw e) w) ->
  triple I (m ≫= k) Q.
Proof.
  intros Hm Hk He w Hw. rewrite run_bind. specialize (Hm w Hw).
  destruct (m w) as [[a|e] w']; cbn [fst snd] in Hm; [by apply Hk | by apply He].
Qed.

(** The step of a handler that keeps the assertion, whatever it returns. *)
Lemma triple_bind_inv (I : world -> Prop) (m : M A) (k : A -> M B)
    (Q : completion B -> world -> Prop) :
  triple I m (fun _ w => I w) ->
  (forall a, triple I (k a) Q) ->
  (forall e w, I w -> Q (Throw e) w) ->
  triple I (m ≫= k) Q.
Proof. intros Hm Hk He. by apply (triple_bind I m k (fun _ w => I w)). Qed.

Lemma triple_try_catch (I : world -> Prop) (m : M A) (h : string -> M A)
    (Q1 Q : completion A -> world -> Prop) :
  triple I m Q1 ->
  (forall a w, Q1 (Return a) w -> Q (Return a) w) ->
  (forall e, triple (Q1 (Throw e)) (h e) Q) ->
  triple I (try_catch m h) Q.
Proof.
  intros Hm Hr Hh w Hw. unfold try_catch. specialize (Hm w Hw).
  destruct (m w) as [[a|e] w']; cbn [fst snd] in *; [by apply Hr | by apply Hh].
Qed.

(** A handler that keeps a relation keeps every assertion the relation
    carries along. *)
Lemma triple_keeps (R : relation world) (I : world -> Prop) (m : M A) :
  keeps R m -> (forall w w', I w -> R w w' -> I w') ->
  triple I m (fun _ w => I w).
Proof. intros Hm HI w Hw. eapply HI; [exact Hw | apply Hm]. Qed.

End Triples.

#[local] Instance same_table_preorder : PreOrder same_table.
Proof. split; [by intros w|]. intros a b c Hab Hbc. unfold same_table in *. congruence. Qed.

#[local] Instance same_requests_preorder : PreOrder same_requests.
Proof.
  split; [by intros w|]. intros a b c Hab Hbc. unfold same_requests in *. congruence.
Qed.

#[local] Instance same_oauth_preorder : PreOrder same_oauth.
Proof.
  split; [by intros w id|]. intros a b c Hab Hbc id. by rewrite Hbc, Hab.
Qed.

(** *** The table is kept *)

Section TableKept.
Context {L : NodeCrypto}.

Lemma table_Date_now : keeps same_table Date_now.
Proof. by intros w. Qed.

Lemma table_randomBytes (n : nat) : keeps same_table (randomBytes n).
Proof. by intros w. Qed.

Lemma table_fetch (r : http_request) : keeps same_table (fetch r).
Proof. by intros w. Qed.

Lemma table_modify_session (f : session_data -> session_data) :
  keeps same_table (modify_session f).
Proof. by intros w. Qed.

Lemma table_session_destroy : keeps same_table session_destroy.
Proof. by intros w. Qed.

Lemma table_modify_userConfig (f : user_config -> user_config) :
  keeps same_table (modify_userConfig f).
Proof. by intros w. Qed.

Lemma table_assign_userConfig (c : user_config) :
  keeps same_table (assign_userConfig c).
Proof. by intros w. Qed.

Lemma table_select_user (id : option Z) :
  keeps same_table (pool_query (select_user_with_owner id)).
Proof. intros w. unfold pool_query. by destruct (db_down w (queries w)). Qed.

Lemma table_select_by_id (id : option Z) :
  keeps same_table (pool_query (select_by_id id)).
Proof. intros w. unfold pool_query. by destruct (db_down w (queries w)). Qed.

#[local] Hint Resolve table_Date_now table_randomBytes table_fetch
  table_modify_session table_session_destroy table_modify_userConfig
  table_assign_userConfig table_select_user table_select_by_id : keeps.

Lemma table_encrypt (p : option string) : keeps same_table (encrypt p).
Proof. unfold encrypt. keeps_auto same_table. Qed.

Lemma table_fetch_username (t : string) : keeps same_table (fetch_username t).
Proof. unfold fetch_username. keeps_auto same_table. Qed.

Lemma table_requireAuth (path : string) : keeps same_table (requireAuth path).
Proof. unfold requireAuth. keeps_auto same_table. Qed.

Lemma table_requireRole (roles : list string) : keeps same_table (requireRole roles).
Proof. unfold requireRole. keeps_auto same_table. Qed.

Lemma table_get_config : keeps same_table get_config.
Proof. unfold get_config. keeps_auto same_table. Qed.

Lemma table_initiate : keeps same_table initiate.
Proof. unfold initiate. keeps_auto same_table. Qed.

End TableKept.

(** *** More rules *)

Section TripleRules.
Context {A B : Type}.

Lemma triple_weaken (I I' : world -> Prop) (m : M A)
    (Q : completion A -> world -> Prop) :
  (forall w, I w -> I' w) -> triple I' m Q -> triple I m Q.
Proof. intros HI Hm w Hw. apply Hm, HI, Hw. Qed.

Lemma triple_post (I : world -> Prop) (m : M A)
    (Q Q' : completion A -> world -> Prop) :
  (forall c w, Q c w -> Q' c w) -> triple I m Q -> triple I m Q'.
Proof. intros HQ Hm w Hw. apply HQ, Hm, Hw. Qed.

(** Reading the world: the continuation runs from that very world. *)
Lemma triple_get_world (I : world -> Prop) (k : world -> M B)
    (Q : completion B -> world -> Prop) :
  (forall w0, I w0 -> triple (fun w => w = w0) (k w0) Q) ->
  triple I (get_world ≫= k) Q.
Proof. intros Hk w Hw. rewrite run_bind. cbn [get_world]. by apply (Hk w Hw). Qed.

(** A step that keeps a relation which carries the assertion along. *)
Lemma triple_bind_keeps (R : relation world) (I : world -> Prop) (m : M A)
    (k : A -> M B) (Q : completion B -> world -> Prop) :
  keeps R m -> (forall w w', I w -> R w w' -> I w') ->
  (forall a, triple I (k a) Q) ->
  (forall e w, I w -> Q (Throw e) w) ->
  triple I (m ≫= k) Q.
Proof.
  intros Hm HI Hk He. apply triple_bind_inv; [by apply (triple_keeps R)|done|done].
Qed.

End TripleRules.

Ltac triple_step :=
  lazymatch goal with
  | |- triple _ (mret _) _ => apply triple_ret
  | |- triple _ (throw _) _ => apply triple_throw
  | |- triple _ (if ?b then _ else _) _ => destruct b
  | |- triple _ (match ?x with _ => _ end) _ => destruct x
  | |- triple _ (let _ := _ in _) _ => cbv zeta
  end.

(** ** The callback: what it can end in *)

Section CallbackOutcomes.
Context {L : NodeCrypto}.

#[local] Hint Resolve table_Date_now table_randomBytes table_fetch
  table_modify_session table_modify_userConfig table_encrypt
  table_fetch_username : keeps.

Lemma same_table_carries (d : gmap Z user_row) (w w' : world) :
  db w = d -> same_table w w' -> db w' = d.
Proof. intros Hw Hww'. by rewrite Hww'. Qed.

(** A rejected statement leaves the table as it was. *)
Lemma pool_query_rejected {A : Type} (q : gmap Z user_row -> A * gmap Z user_row)
    (d : gmap Z user_row) :
  triple (fun w => db w = d) (pool_query q)
    (fun c w' => match c with Return _ => True | Throw _ => db w' = d end).
Proof.
  intros w Hw. unfold pool_query. destruct (db_down w (queries w)); [done|].
  by destruct (q (db w)).
Qed.

(** The part of the callback inside [try]: it ends in success, or the table
    is as it was. *)
Lemma callback_outcomes_try (d : gmap Z user_row) (r : http_request)
    (k : fetch_result -> M reply) :
  (forall resp, triple (fun w => db w = d) (k resp)
                  (fun c w' => c = Return connected
                               \/ ((c = Return token_exchange_failed \/ exists e, c = Throw e)
                                   /\ db w' = d))) ->
  triple (fun w => db w = d)
    (try_catch (fetch r ≫= k) (fun err => mret server_error))
    (fun c w' => c = Return connected
                 \/ ((c = Return token_exchange_failed \/ c = Return server_error)
                     /\ db w' = d)).
Proof.
  intros Hk.
  eapply triple_try_catch.
  - apply (triple_bind_keeps same_table); [auto with keeps| |exact Hk|].
    + apply same_table_carries.
    + intros e w Hw. right. split; [right; by exists e|done].
  - intros a w [H|[[H|[e H]] Hd]]; [by left|right; split; [by left|done]|done].
  - intros e. apply triple_ret. intros w [H|[[H|_] Hd]]; [done|done|].
    right. split; [by right|done].
Qed.

End CallbackOutcomes.

Ltac table_prim :=
  first [apply table_Date_now | apply table_fetch | apply table_fetch_username
        | apply table_encrypt | apply table_randomBytes].

(** Behind [requireAuth], the callback never throws and ends in one of five
    redirects.  Unless it ends in the success redirect the table is as it
    was: a failed exchange, a failed encryption or a rejected update leaves
    no partial write.  When it ends in [declined] or [invalid_state] it has
    sent no request and no statement either. *)
Theorem callback_outcomes :
  forall (L : NodeCrypto) (query : callback_query) (w : world) (s : session_data),
    session w = Some s ->
    (callback query w).1 = Return connected
    \/ (((callback query w).1 = Return token_exchange_failed
         \/ (callback query w).1 = Return server_error)
        /\ db (callback query w).2 = db w)
    \/ (((callback query w).1 = Return declined
         \/ (callback query w).1 = Return invalid_state)
        /\ db (callback query w).2 = db w
        /\ requests (callback query w).2 = requests w
        /\ queries (callback query w).2 = queries w).
Proof.
  intros L query w s Hs. unfold callback. rewrite run_bind. cbn [get_world]. rewrite Hs.
  rewrite run_bind. cbn [modify_session].
  destruct (strict_eq (query_error query) (Some "access_denied")
            || strict_eq (query_error query) (Some "consent_declined")).
  { rewrite run_ret. right; right. simpl_world. by repeat split; [left|..]. }
  destruct (negb (truthy (ebayOAuthState s))
            || negb (strict_eq (query_state query) (ebayOAuthState s))).
  { rewrite run_ret. right; right. simpl_world. by repeat split; [right|..]. }
  destruct (negb (truthy (query_code query))).
  { rewrite run_ret. right; right. simpl_world. by repeat split; [left|..]. }
  cbv zeta.
  destruct (negb (truthy (EBAY_APP_CLIENT_ID (env w)))
            || negb (truthy (EBAY_APP_CLIENT_SECRET (env w)))
            || negb (truthy (EBAY_RUNAME (env w)))).
  { rewrite run_ret. right; left. simpl_world. by split; [right|]. }
  match goal with
  | |- context [try_catch ?m ?h ?w1] =>
      assert (Ht : triple (fun w' => db w' = db w) (try_catch m h)
                     (fun c w' => c = Return connected
                        \/ ((c = Return token_exchange_failed \/ c = Return server_error)
                            /\ db w' = db w)));
      [|specialize (Ht w1 eq_refl); cbv beta in Ht]
  end.
  2: { destruct Ht as [H|[H Hd]]; [by left|right; left; done]. }
  apply callback_outcomes_try. intros resp.
  destruct resp as [|ok [tokenData|]].
  - apply triple_throw. intros w' Hw'. right. split; [right; by eexists|done].
  - destruct (negb ok || negb (truthy (access_token tokenData))).
    { apply triple_ret. intros w' Hw'. right. split; [by left|done]. }
    cbv zeta.
    assert (Hthrow : forall e w', db w' = db w ->
              Throw e = Return connected
              \/ ((Throw e = Return token_exchange_failed
                   \/ exists e', @Throw reply e = Throw e') /\ db w' = db w)).
    { intros e w' Hw'. right. split; [right; by eexists|done]. }
    apply (triple_bind_keeps same_table);
      [table_prim|apply same_table_carries| |exact Hthrow]. intros now.
    apply (triple_bind_keeps same_table);
      [table_prim|apply same_table_carries| |exact Hthrow]. intros ebayUsername.
    apply triple_get_world. intros w2 Hw2.
    apply (triple_weaken _ (fun w' => db w' = db w)); [by intros ? ->|].
    apply (triple_bind_keeps same_table);
      [table_prim|apply same_table_carries| |exact Hthrow]. intros access.
    apply (triple_bind_keeps same_table);
      [|apply same_table_carries| |exact Hthrow].
    { destruct (truthy _); [table_prim|apply (keeps_ret same_table)]. }
    intros refresh.
    eapply triple_bind; [apply pool_query_rejected| |].
    + intros []. apply triple_ret. intros w' _. by left.
    + intros e w' Hw'. by apply Hthrow.
  - apply triple_throw. intros w' Hw'. right. split; [right; by eexists|done].
Qed.

Lemma callback_outcomes_witness :
  (callback forged_query pending_world).1 = Return connected
  \/ (((callback forged_query pending_world).1 = Return token_exchange_failed
       \/ (callback forged_query pending_world).1 = Return server_error)
      /\ db (callback forged_query pending_world).2 = db pending_world)
  \/ (((callback forged_query pending_world).1 = Return declined
       \/ (callback forged_query pending_world).1 = Return invalid_state)
      /\ db (callback forged_query pending_world).2 = db pending_world
      /\ requests (callback forged_query pending_world).2 = requests pending_world
      /\ queries (callback forged_query pending_world).2 = queries pending_world).
Proof.
  exact (callback_outcomes sample_crypto forged_query pending_world
           (sample_session (Some "5f2a")) eq_refl).
Defined.

(** ** What the OAuth statements write *)

#[local] Instance same_other_preorder : PreOrder same_other.
Proof.
  split; [by intros w id|]. intros a b c Hab Hbc id. by rewrite Hbc, Hab.
Qed.

#[local] Instance only_row_preorder (a : option Z) : PreOrder (only_row a).
Proof.
  split; [by intros w id|]. intros x y z Hxy Hyz id Hid. by rewrite Hyz, Hxy.
Qed.

Lemma keeps_sub {A : Type} (R R' : relation world) (m : M A) :
  (forall w w', R w w' -> R' w w') -> keeps R m -> keeps R' m.
Proof. intros HR Hm w. apply HR, Hm. Qed.

Lemma keeps_both {A : Type} (R R' : relation world) (m : M A) :
  keeps R m -> keeps R' m -> keeps (fun w w' => R w w' /\ R' w w') m.
Proof. intros Hm Hm' w. split; [apply Hm | apply Hm']. Qed.

Lemma same_table_other (w w' : world) : same_table w w' -> same_other w w'.
Proof. intros H id. by rewrite H. Qed.

Lemma same_table_only_row (a : option Z) (w w' : world) :
  same_table w w' -> only_row a w w'.
Proof. intros H id _. by rewrite H. Qed.

Section OAuthScope.
Context {L : NodeCrypto}.

(** An update of the OAuth columns. *)
Lemma other_sql_update (f : user_row -> user_row) (id : option Z) :
  (forall r, other_columns (f r) = other_columns r) ->
  keeps same_other (pool_query (sql_update f id)).
Proof.
  intros Hf w j. unfold pool_query. destruct (db_down w (queries w)); [done|].
  destruct id as [i|]; cbn [sql_update fst snd]; simpl_world; [|done].
  rewrite lookup_alter. case_decide as Hij; [|done]. subst j.
  destruct (db w !! i); cbn; [by rewrite Hf|done].
Qed.

Lemma only_row_sql_update (f : user_row -> user_row) (a : option Z) :
  keeps (only_row a) (pool_query (sql_update f a)).
Proof.
  intros w j Hj. unfold pool_query. destruct (db_down w (queries w)); [done|].
  destruct a as [i|]; cbn [sql_update fst snd]; simpl_world; [|done].
  rewrite lookup_alter. case_decide as Hij; [|done]. congruence.
Qed.

Lemma other_frame {A : Type} (m : M A) : keeps same_table m -> keeps same_other m.
Proof. apply keeps_sub, same_table_other. Qed.

Lemma only_row_frame {A : Type} (a : option Z) (m : M A) :
  keeps same_table m -> keeps (only_row a) m.
Proof. apply keeps_sub, same_table_only_row. Qed.

Lemma other_persist_callback (access refresh name : option string) (expiry : option Z)
    (id : option Z) :
  keeps same_other (pool_query (sql_update (set_oauth access refresh expiry name) id)).
Proof. by apply other_sql_update. Qed.

Lemma other_persist_refresh (access : option string) (expiry : Z) (id : option Z) :
  keeps same_other (pool_query (sql_update (set_refreshed access expiry) id)).
Proof. by apply other_sql_update. Qed.

Lemma other_persist_rotation (access refresh : option string) (expiry : Z)
    (id : option Z) :
  keeps same_other
    (pool_query (sql_update (set_refreshed_rotating access expiry refresh) id)).
Proof. by apply other_sql_update. Qed.

#[local] Hint Resolve table_Date_now table_randomBytes table_fetch
  table_modify_session table_session_destroy table_modify_userConfig
  table_assign_userConfig table_select_user table_select_by_id
  table_encrypt table_fetch_username : keeps.
#[local] Hint Resolve other_frame only_row_frame other_persist_callback
  other_persist_refresh other_persist_rotation only_row_sql_update : keeps.

Lemma other_refresh (rt : option string) (a : option Z) :
  keeps same_other (refreshEbayOAuthToken rt a).
Proof. unfold refreshEbayOAuthToken. keeps_auto same_other. Qed.

Lemma only_row_refresh (rt : option string) (a : option Z) :
  keeps (only_row a) (refreshEbayOAuthToken rt a).
Proof. unfold refreshEbayOAuthToken. keeps_auto (only_row a). Qed.

#[local] Hint Resolve other_refresh only_row_refresh : keeps.

Lemma other_callback (query : callback_query) : keeps same_other (callback query).
Proof. unfold callback. keeps_auto same_other. Qed.

Lemma other_disconnect : keeps same_other disconnect.
Proof. unfold disconnect. keeps_auto same_other. Qed.

Lemma other_loadUserConfig : keeps same_other loadUserConfig.
Proof.
  unfold loadUserConfig, use_oauth_token, sync_session. keeps_auto same_other.
Qed.

Lemma only_row_use_oauth_token (u owner : user_row) :
  keeps (only_row (account_id u)) (use_oauth_token u owner).
Proof. unfold use_oauth_token. keeps_auto (only_row (account_id u)). Qed.

Lemma only_row_sync_session (a : option Z) (u : user_row) :
  keeps (only_row a) (sync_session u).
Proof. unfold sync_session. keeps_auto (only_row a). Qed.

End OAuthScope.

Section OAuthRow.
Context {L : NodeCrypto}.

#[local] Hint Resolve table_Date_now table_randomBytes table_fetch
  table_modify_session table_session_destroy table_modify_userConfig
  table_assign_userConfig table_select_user table_select_by_id
  table_encrypt table_fetch_username : keeps.
#[local] Hint Resolve session_Date_now session_randomBytes session_fetch
  session_pool_query session_modify_userConfig session_assign_userConfig
  session_encrypt session_fetch_username : keeps.

(** The callback writes to the row the session's account names. *)
Lemma only_row_callback (query : callback_query) (w : world) (s : session_data) :
  session w = Some s -> only_row (accountId s) w (callback query w).2.
Proof.
  intros Hs. unfold callback. rewrite run_bind. cbn [get_world]. rewrite Hs.
  rewrite run_bind. cbn [modify_session].
  set (I := fun w' : world =>
              (s' ← session w'; accountId s') = accountId s /\ only_row (accountId s) w w').
  assert (HI : forall w1 w2, I w1 -> same_session w1 w2 /\ same_table w1 w2 -> I w2).
  { intros w1 w2 [Ha Hr] [Hss Hdb]. split; [by rewrite Hss|].
    intros id Hid. rewrite Hdb. by apply Hr. }
  match goal with
  | |- only_row _ _ (?m ?w1).2 =>
      assert (Ht : triple I m (fun _ w' => only_row (accountId s) w w'));
      [|apply (Ht w1); split; [by rewrite Hs|by intros id _]]
  end.
  assert (Hend : forall w', I w' -> only_row (accountId s) w w')
    by (by intros w' [_ H]).
  destruct (_ || _); [by apply triple_ret|].
  destruct (_ || _); [by apply triple_ret|].
  destruct (negb _); [by apply triple_ret|]. cbv zeta.
  destruct (_ || _); [by apply triple_ret|].
  eapply triple_try_catch with (Q1 := fun _ w' => only_row (accountId s) w w');
    [|done|intros e; by apply triple_ret].
  assert (Hthrow : forall (e : string) w', I w' -> only_row (accountId s) w w')
    by (by intros _ w' [_ H]).
  apply (triple_bind_keeps (fun w w' => same_session w w' /\ same_table w w'));
    [apply keeps_both; auto with keeps|exact HI| |exact Hthrow]. intros tokenResp.
  destruct tokenResp as [|ok [tokenData|]];
    [by apply triple_throw| |by apply triple_throw].
  destruct (_ || _); [by apply triple_ret|]. cbv zeta.
  apply (triple_bind_keeps (fun w w' => same_session w w' /\ same_table w w'));
    [apply keeps_both; auto with keeps|exact HI| |exact Hthrow]. intros now.
  apply (triple_bind_keeps (fun w w' => same_session w w' /\ same_table w w'));
    [apply keeps_both; auto with keeps|exact HI| |exact Hthrow]. intros ebayUsername.
  apply triple_get_world. intros w2 [Ha2 Hr2]. cbv zeta. rewrite Ha2.
  apply (triple_weaken _ I); [by intros ? ->|].
  apply (triple_bind_keeps (fun w w' => same_session w w' /\ same_table w w'));
    [apply keeps_both; auto with keeps|exact HI| |exact Hthrow]. intros access.
  apply (triple_bind_keeps (fun w w' => same_session w w' /\ same_table w w'));
    [|exact HI| |exact Hthrow].
  { destruct (truthy _); [apply keeps_both; auto with keeps|].
    apply keeps_both; [apply (keeps_ret same_session)|apply (keeps_ret same_table)]. }
  intros refresh.
  apply (triple_weaken _ (fun w' => only_row (accountId s) w w')); [exact Hend|].
  apply (triple_bind_keeps (only_row (accountId s)));
    [apply only_row_sql_update| | |done].
  - intros w3 w4 Hr3 H34. by etransitivity.
  - intros []. by apply triple_ret.
Qed.

Lemma only_row_disconnect (w : world) (s : session_data) :
  session w = Some s -> only_row (accountId s) w (disconnect w).2.
Proof.
  intros Hs. unfold disconnect, try_catch. rewrite run_bind. cbn [get_world].
  rewrite Hs, run_bind.
  pose proof (only_row_sql_update (set_oauth None None None None) (accountId s) w) as H.
  destruct (pool_query _ w) as [[a|e] w']; by rewrite run_ret.
Qed.

(** The middleware writes to the row the user's account names. *)
Lemma only_row_loadUserConfig (w : world) (s : session_data) (uid : Z) (u : user_row) :
  session w = Some s -> userId s = Some uid -> db w !! uid = Some u ->
  only_row (account_id u) w (loadUserConfig w).2.
Proof.
  intros Hs Hu Hdb. unfold loadUserConfig. rewrite run_bind. cbn [get_world].
  rewrite Hs. destruct (negb _); [by rewrite run_ret|].
  unfold try_catch at 1. rewrite run_bind. unfold pool_query at 1.
  destruct (db_down w (queries w)); [by rewrite run_ret|].
  rewrite Hu. unfold select_user_with_owner. rewrite Hdb.
  destruct (account_id u) as [a|] eqn:Ha;
    [destruct (db w !! a) as [owner|] eqn:Ho|].
  - set (w1 := set_db _ _).
    assert (H : keeps (only_row (Some a))
                  (assign_userConfig
                     {| ebayToken := or_str (decrypt (env w) (ebay_token owner)) "";
                        ebayClientId := or_str (decrypt (env w) (ebay_client_id owner)) "";
                        ebayClientSecret :=
                          or_str (decrypt (env w) (ebay_client_secret owner)) "";
                        ebayOAuthToken := None;
                        ebayOAuthConnected := false;
                        ebayOAuthUsername := or_else (ebay_oauth_username owner) None |}
                   ≫= λ _, use_oauth_token u owner ≫= λ _, sync_session u ≫= λ _,
                        mret Next)).
    { apply (keeps_bind _); [apply only_row_frame, table_assign_userConfig|intros _].
      apply (keeps_bind _); [rewrite <- Ha; apply only_row_use_oauth_token|intros _].
      apply (keeps_bind _); [apply only_row_sync_session|intros _].
      apply (keeps_ret _). }
    specialize (H w1).
    match type of H with only_row _ _ (?x).2 => destruct x as [[r|e] w2] end;
      [done|by rewrite run_ret].
  - rewrite run_bind. cbn [session_destroy]. by rewrite run_ret.
  - rewrite run_bind. cbn [session_destroy]. by rewrite run_ret.
Qed.

End OAuthRow.

(** The handlers that write the OAuth columns (the callback, the disconnect
    and the middleware, through its refresh) leave every other column of
    every row as it was, delete and add no row, and write to one row only:
    the callback and the disconnect to the row the session's account names,
    the middleware to the row the user's [account_id] names. *)
Theorem oauth_writes_confined :
  forall (L : NodeCrypto) (w : world) (s : session_data),
    session w = Some s ->
    (forall query,
        same_other w (callback query w).2
        /\ only_row (accountId s) w (callback query w).2)
    /\ (same_other w (disconnect w).2 /\ only_row (accountId s) w (disconnect w).2)
    /\ (same_other w (loadUserConfig w).2
        /\ forall uid u, userId s = Some uid -> db w !! uid = Some u ->
                         only_row (account_id u) w (loadUserConfig w).2).
Proof.
  intros L w s Hs. repeat split.
  - apply other_callback.
  - by apply only_row_callback.
  - apply other_disconnect.
  - by apply only_row_disconnect.
  - apply other_loadUserConfig.
  - intros uid u. by apply only_row_loadUserConfig.
Qed.

Lemma oauth_writes_confined_witness :
  (forall query,
      same_other reconsent_world (callback query reconsent_world).2
      /\ only_row (Some 1) reconsent_world (callback query reconsent_world).2)
  /\ (same_other reconsent_world (disconnect reconsent_world).2
      /\ only_row (Some 1) reconsent_world (disconnect reconsent_world).2)
  /\ (same_other reconsent_world (loadUserConfig reconsent_world).2
      /\ forall uid u, Some 1 = Some uid -> db reconsent_world !! uid = Some u ->
                       only_row (account_id u) reconsent_world
                         (loadUserConfig reconsent_world).2).
Proof.
  exact (oauth_writes_confined sample_crypto reconsent_world
           (sample_session (Some "5f2a")) eq_refl).
Defined.

(** ** The middleware: every way it can end *)

#[local] Instance attached_preorder : PreOrder attached.
Proof. split; [intros w H; exact H|]. intros a b c Hab Hbc H. by apply Hbc, Hab. Qed.

Section ResolveOutcomes.
Context {L : NodeCrypto}.

Lemma attached_frame {A : Type} (m : M A) :
  (forall w, userConfig (m w).2 = userConfig w) -> keeps attached m.
Proof. intros H w Hw. by rewrite H. Qed.

Lemma attached_Date_now : keeps attached Date_now.
Proof. by apply attached_frame. Qed.

Lemma attached_randomBytes (n : nat) : keeps attached (randomBytes n).
Proof. by apply attached_frame. Qed.

Lemma attached_fetch (r : http_request) : keeps attached (fetch r).
Proof. by apply attached_frame. Qed.

Lemma attached_pool_query {A : Type} (q : gmap Z user_row -> A * gmap Z user_row) :
  keeps attached (pool_query q).
Proof.
  apply attached_frame. intros w. unfold pool_query.
  destruct (db_down w (queries w)); [done|]. by destruct (q (db w)).
Qed.

Lemma attached_modify_userConfig (f : user_config -> user_config) :
  keeps attached (modify_userConfig f).
Proof. intros w [c Hc]. cbn. rewrite Hc. by eexists. Qed.

Lemma attached_modify_session (f : session_data -> session_data) :
  keeps attached (modify_session f).
Proof. by apply attached_frame. Qed.

#[local] Hint Resolve attached_Date_now attached_randomBytes attached_fetch
  attached_pool_query attached_modify_userConfig attached_modify_session : keeps.

Lemma attached_encrypt (p : option string) : keeps attached (encrypt p).
Proof. unfold encrypt. keeps_auto attached. Qed.

#[local] Hint Resolve attached_encrypt : keeps.

Lemma attached_refresh (rt : option string) (a : option Z) :
  keeps attached (refreshEbayOAuthToken rt a).
Proof. unfold refreshEbayOAuthToken. keeps_auto attached. Qed.

#[local] Hint Resolve attached_refresh : keeps.

Lemma attached_use_oauth_token (u owner : user_row) :
  keeps attached (use_oauth_token u owner).
Proof. unfold use_oauth_token. keeps_auto attached. Qed.

Lemma attached_sync_session (u : user_row) : keeps attached (sync_session u).
Proof. unfold sync_session. keeps_auto attached. Qed.

(** The OAuth block never throws: the refresh runs inside a [try] of its
    own. *)
Lemma use_oauth_token_returns (u owner : user_row) (w : world) :
  (use_oauth_token u owner w).1 = Return tt.
Proof.
  unfold use_oauth_token. destruct (truthy (ebay_oauth_access_token owner)); [|done].
  rewrite run_bind. cbn [get_world]. rewrite run_bind.
  assert (Hrest : forall (b : bool) w1,
    ((if negb b
      then modify_userConfig
             (set_oauth_token (decrypt (env w) (ebay_oauth_access_token owner)))
           ≫= λ _, modify_userConfig (set_oauth_connected true)
      else if truthy (ebay_oauth_refresh_token owner)
           then try_catch
                  (refreshEbayOAuthToken
                     (decrypt (env w) (ebay_oauth_refresh_token owner)) (account_id u)
                   ≫= λ refreshed,
                       if truthy refreshed
                       then modify_userConfig (set_oauth_token refreshed)
                            ≫= λ _, modify_userConfig (set_oauth_connected true)
                       else mret tt)
                  (λ _, mret tt)
           else mret tt) w1).1 = Return tt).
  { intros b w1. destruct (negb b); [done|].
    destruct (truthy (ebay_oauth_refresh_token owner)); [|done].
    unfold try_catch.
    by match goal with
       | |- context [match ?x with _ => _ end] => destruct x as [[[]|e] w2]
       end. }
  destruct (ebay_oauth_token_expiry owner) as [expiry|].
  - rewrite run_bind. cbn [Date_now]. rewrite run_ret. apply Hrest.
  - rewrite run_ret. apply Hrest.
Qed.

Lemma sync_session_session (u : user_row) (w : world) (s : session_data) :
  session w = Some s -> session (sync_session u w).2 = Some (synced u s).
Proof.
  intros Hs. unfold sync_session. rewrite run_bind. cbn [get_world]. rewrite run_bind.
  rewrite Hs. cbn [mbind option_bind].
  destruct (strict_eq (Some (role u)) (session_role s)) eqn:Hr; cbn [negb].
  - apply strict_eq_true in Hr. rewrite run_ret, run_bind. cbn [get_world].
    rewrite Hs. cbn [mbind option_bind]. case_bool_decide as Ha; cbn [negb].
    + rewrite run_ret. cbn [snd]. rewrite Hs. unfold synced. rewrite Hr, Ha.
      by destruct s.
    + cbn [modify_session snd]. simpl_world. rewrite Hs. unfold synced.
      by rewrite Hr.
  - cbn [modify_session]. rewrite run_bind. cbn [get_world]. simpl_world.
    rewrite Hs. cbn [fmap option_fmap option_map mbind option_bind set_session_role accountId].
    case_bool_decide as Ha; cbn [negb].
    + rewrite run_ret. cbn [snd]. simpl_world. unfold synced. by rewrite Ha.
    + cbn [modify_session snd]. simpl_world. done.
Qed.

#[local] Hint Resolve session_Date_now session_randomBytes session_fetch
  session_pool_query session_modify_userConfig session_assign_userConfig
  session_encrypt session_fetch_username : keeps.

Lemma session_use_oauth_token (u owner : user_row) :
  keeps same_session (use_oauth_token u owner).
Proof. unfold use_oauth_token, refreshEbayOAuthToken. keeps_auto same_session. Qed.

(** The middleware on a user whose row and owner row the lookup finds: it
    attaches the bundle, runs the OAuth block and the session block, and
    calls [next()]. *)
Lemma loadUserConfig_found_next (w : world) (s : session_data) (uid a : Z)
    (u owner : user_row) :
  session w = Some s -> userId s = Some uid -> uid <> 0 ->
  db_down w (queries w) = false ->
  db w !! uid = Some u -> account_id u = Some a -> db w !! a = Some owner ->
  exists w2,
    use_oauth_token u owner
      (set_userConfig
         (Some {| ebayToken := or_str (decrypt (env w) (ebay_token owner)) "";
                  ebayClientId := or_str (decrypt (env w) (ebay_client_id owner)) "";
                  ebayClientSecret :=
                    or_str (decrypt (env w) (ebay_client_secret owner)) "";
                  ebayOAuthToken := None;
                  ebayOAuthConnected := false;
                  ebayOAuthUsername := or_else (ebay_oauth_username owner) None |})
         (set_db (db w) (set_queries (S (queries w)) w)))
    = (Return tt, w2)
    /\ loadUserConfig w = (Return Next, (sync_session u w2).2)
    /\ userConfig (loadUserConfig w).2 = userConfig w2
    /\ db (loadUserConfig w).2 = db w2
    /\ requests (loadUserConfig w).2 = requests w2
    /\ session (loadUserConfig w).2 = Some (synced u s).
Proof.
  intros Hs Hid Hnz Hup Hu Ha Ho.
  rewrite (loadUserConfig_found w s uid a u owner) by done.
  set (w1 := set_userConfig _ _).
  pose proof (use_oauth_token_returns u owner w1) as Hret.
  pose proof (session_use_oauth_token u owner w1) as Hsess.
  destruct (use_oauth_token u owner w1) as [c w2] eqn:Huse. cbn [fst snd] in *.
  subst c. exists w2. split; [done|].
  unfold try_catch. rewrite run_bind, Huse, run_bind.
  destruct (sync_session_run u w2) as (w3 & Hsync & Hcfg & Hdb & Hreq).
  pose proof (sync_session_session u w2 s) as Hsy. rewrite Hsync in *.
  rewrite run_ret. cbn [snd] in *. repeat split; try done.
  apply Hsy. by rewrite Hsess.
Qed.

End ResolveOutcomes.

(** The middleware never throws, and ends in one of three ways.  It calls
    [next()]; for a request with a session user it has then attached a
    bundle.  Or it answers 401 "User not found", having destroyed the
    session and attached nothing.  Or it answers 500, which it does only
    when the lookup was rejected, and then session, bundle and table are as
    they were.  A request without a session user passes through with
    nothing done: no statement is sent. *)
Theorem loadUserConfig_outcomes :
  forall (L : NodeCrypto) (w : world),
    (((loadUserConfig w).1 = Return Next
      /\ (truthy_num (s ← session w; userId s) = true ->
          is_Some (userConfig (loadUserConfig w).2)))
     \/ ((loadUserConfig w).1 = Return (JsonError 401 "User not found")
         /\ session (loadUserConfig w).2 = None
         /\ userConfig (loadUserConfig w).2 = userConfig w
         /\ db (loadUserConfig w).2 = db w
         /\ requests (loadUserConfig w).2 = requests w)
     \/ ((loadUserConfig w).1 = Return (JsonError 500 "Internal server error")
         /\ db_down w (queries w) = true
         /\ session (loadUserConfig w).2 = session w
         /\ userConfig (loadUserConfig w).2 = userConfig w
         /\ db (loadUserConfig w).2 = db w
         /\ requests (loadUserConfig w).2 = requests w))
    /\ (truthy_num (s ← session w; userId s) = false ->
        loadUserConfig w = (Return Next, w)).
Proof.
  intros L w. remember (loadUserConfig w) as res eqn:Hrun.
  unfold loadUserConfig in Hrun. rewrite run_bind in Hrun. cbn [get_world] in Hrun.
  destruct (session w) as [s|] eqn:Hs; cbn [mbind option_bind];
    [|rewrite run_ret in Hrun; subst res; split; [by left|done]].
  destruct (truthy_num (userId s)) eqn:Hid; cbn [negb] in Hrun;
    [|rewrite run_ret in Hrun; subst res; split; [by left|done]].
  split; [|done].
  unfold try_catch in Hrun. rewrite run_bind in Hrun. unfold pool_query in Hrun.
  destruct (db_down w (queries w)) eqn:Hdown.
  { rewrite run_ret in Hrun. subst res. by right; right. }
  destruct (select_user_with_owner (userId s) (db w)) as [rows d] eqn:Hsel.
  assert (d = db w) as ->.
  { unfold select_user_with_owner in Hsel. by injection Hsel. }
  destruct rows as [|[u owner] rest].
  { rewrite run_bind in Hrun. cbn [session_destroy] in Hrun.
    rewrite !run_ret in Hrun. subst res. by right; left. }
  left. rewrite run_bind in Hrun. cbn [assign_userConfig] in Hrun.
  rewrite run_bind in Hrun.
  set (w1 := set_userConfig _ _) in Hrun.
  pose proof (use_oauth_token_returns u owner w1) as Hret.
  pose proof (attached_use_oauth_token u owner w1) as Hatt.
  destruct (use_oauth_token u owner w1) as [c w2]. cbn [fst snd] in *. subst c.
  rewrite run_bind in Hrun.
  destruct (sync_session_run u w2) as (w3 & Hsync & Hcfg & _).
  rewrite Hsync, !run_ret in Hrun. subst res.
  cbn [fst snd]. split; [done|]. intros _. rewrite Hcfg. apply Hatt.
  by eexists.
Qed.

(** Whatever the OAuth columns hold and whatever the provider answers, a
    request of a user whose row and owner row the lookup finds passes, and
    leaves a session whose role and account are those of the user's row:
    a role changed in the table is the session's role from the user's next
    request on.  The user id and a pending OAuth state are kept. *)
Theorem loadUserConfig_resyncs_session :
  forall (L : NodeCrypto) (w : world) (s : session_data) (uid a : Z)
         (u owner : user_row),
    session w = Some s -> userId s = Some uid -> uid <> 0 ->
    db_down w (queries w) = false ->
    db w !! uid = Some u -> account_id u = Some a -> db w !! a = Some owner ->
    (loadUserConfig w).1 = Return Next
    /\ session (loadUserConfig w).2 = Some (synced u s).
Proof.
  intros L w s uid a u owner Hs Hid Hnz Hup Hu Ha Ho.
  destruct (loadUserConfig_found_next w s uid a u owner)
    as (w2 & _ & Hrun & _ & _ & _ & Hsess); try done.
  split; [by rewrite Hrun|exact Hsess].
Qed.

Lemma loadUserConfig_resyncs_session_witness :
  (loadUserConfig outdated_world).1 = Return Next
  /\ session (loadUserConfig outdated_world).2
     = Some {| userId := Some 2; session_role := Some "operator";
               accountId := Some 1; ebayOAuthState := None |}.
Proof.
  apply (loadUserConfig_resyncs_session sample_crypto outdated_world outdated_session
           2 1 sample_operator (stored_owner (Some 1000)));
    [reflexivity | reflexivity | lia | reflexivity | reflexivity | reflexivity
    | reflexivity].
Defined.

Section WithoutOAuth.
Context {L : NodeCrypto}.

Lemma select_rows_in (id : option Z) (d : gmap Z user_row) (u owner : user_row)
    (rest : list (user_row * user_row)) :
  (select_user_with_owner id d).1 = (u, owner) :: rest ->
  exists a, d !! a = Some owner.
Proof.
  unfold select_user_with_owner. cbn [fst].
  destruct id as [i|]; [|done]. destruct (d !! i) as [u'|]; [|done].
  destruct (account_id u') as [a|]; [|done].
  destruct (d !! a) as [o|] eqn:Ho; [|done]. intros [= _ <- _]. by exists a.
Qed.

End WithoutOAuth.

(** On a table in which no row has an OAuth access token or an identity
    label, the middleware does what it did before the OAuth columns
    existed: the same reply, the same bundle, the same session, for every
    request. *)
Theorem loadUserConfig_without_oauth :
  forall (L : NodeCrypto) (w : world),
    map_Forall (fun _ r => no_oauth_row r = true) (db w) ->
    loadUserConfig w = loadUserConfig_000 w.
Proof.
  intros L w Hdb. unfold loadUserConfig, loadUserConfig_000.
  rewrite !run_bind. cbn [get_world].
  destruct (session w) as [s|]; [|done].
  destruct (negb (truthy_num (userId s))); [done|].
  unfold try_catch. rewrite !run_bind. unfold pool_query.
  destruct (db_down w (queries w)); [done|].
  destruct (select_user_with_owner (userId s) (db w)) as [rows d] eqn:Hsel.
  destruct rows as [|[u owner] rest]; [done|].
  destruct (select_rows_in (userId s) (db w) u owner rest) as [a Ho];
    [by rewrite Hsel|].
  apply Hdb in Ho. unfold no_oauth_row in Ho.
  apply andb_true_iff in Ho as [Hacc Hname].
  apply negb_true_iff in Hacc, Hname.
  rewrite !run_bind. cbn [assign_userConfig]. rewrite !run_bind.
  unfold use_oauth_token, or_else. rewrite Hacc, Hname, run_ret. reflexivity.
Qed.

Lemma manual_db_without_oauth : map_Forall (fun _ r => no_oauth_row r = true) manual_db.
Proof.
  intros i r Hr. unfold manual_db in Hr.
  apply lookup_singleton_Some in Hr as [_ <-]. reflexivity.
Qed.

Lemma loadUserConfig_without_oauth_witness :
  loadUserConfig manual_world = loadUserConfig_000 manual_world.
Proof.
  apply (loadUserConfig_without_oauth sample_crypto manual_world).
  exact manual_db_without_oauth.
Defined.

(** ** The middleware: the branches of the OAuth block *)

Section OAuthBranches.
Context {L : NodeCrypto}.

(** Expired, and nothing to refresh with: the block sends nothing. *)
Lemma use_oauth_token_cannot_refresh (u owner : user_row) (w : world) :
  truthy (ebay_oauth_access_token owner) = true ->
  match ebay_oauth_token_expiry owner with
  | Some expiry => clock w (clock_reads w) > expiry - EXPIRY_BUFFER_MS
  | None => True
  end ->
  truthy (ebay_oauth_refresh_token owner) = false
  \/ truthy (decrypt (env w) (ebay_oauth_refresh_token owner)) = false
  \/ truthy (EBAY_APP_CLIENT_ID (env w)) = false
  \/ truthy (EBAY_APP_CLIENT_SECRET (env w)) = false ->
  exists w',
    use_oauth_token u owner w = (Return tt, w')
    /\ userConfig w' = userConfig w /\ db w' = db w /\ requests w' = requests w.
Proof.
  intros Hacc Hexp Hno. unfold use_oauth_token. rewrite Hacc.
  rewrite run_bind. cbn [get_world]. rewrite run_bind.
  assert (Hrest : forall w1,
    env w1 = env w -> userConfig w1 = userConfig w -> db w1 = db w ->
    requests w1 = requests w ->
    exists w',
      (if truthy (ebay_oauth_refresh_token owner)
       then try_catch
              (refreshEbayOAuthToken
                 (decrypt (env w) (ebay_oauth_refresh_token owner)) (account_id u)
               ≫= λ refreshed,
                   if truthy refreshed
                   then modify_userConfig (set_oauth_token refreshed)
                        ≫= λ _, modify_userConfig (set_oauth_connected true)
                   else mret tt)
              (λ _, mret tt)
       else mret tt) w1 = (Return tt, w')
      /\ userConfig w' = userConfig w /\ db w' = db w /\ requests w' = requests w).
  { intros w1 He Hc Hd Hr.
    destruct (truthy (ebay_oauth_refresh_token owner)) eqn:Href;
      [|rewrite run_ret; by eexists].
    unfold try_catch. rewrite run_bind. unfold refreshEbayOAuthToken.
    rewrite run_bind. cbn [get_world]. rewrite He.
    assert (negb (truthy (EBAY_APP_CLIENT_ID (env w)))
            || negb (truthy (EBAY_APP_CLIENT_SECRET (env w)))
            || negb (truthy (decrypt (env w) (ebay_oauth_refresh_token owner)))
            = true) as ->.
    { destruct Hno as [H|[H|[H|H]]]; [congruence|rewrite H|rewrite H|rewrite H];
        cbn [negb orb]; by rewrite ?orb_true_r. }
    rewrite !run_ret. cbn [truthy]. rewrite run_ret. by eexists. }
  destruct (ebay_oauth_token_expiry owner) as [expiry|].
  - rewrite run_bind. cbn [Date_now]. rewrite run_ret.
    assert ((clock w (clock_reads w) >? expiry - EXPIRY_BUFFER_MS) = true) as ->
      by (apply Z.gtb_gt; lia).
    cbn [negb]. by apply Hrest.
  - rewrite run_ret. cbn [negb]. by apply Hrest.
Qed.

(** Expired, the provider answers the refresh, and the database rejects the
    update: the new token is dropped. *)
Lemma use_oauth_token_persist_rejected (u owner : user_row) (w : world) (a : Z)
    (r : string) (data : json_body) :
  truthy (ebay_oauth_access_token owner) = true ->
  match ebay_oauth_token_expiry owner with
  | Some expiry => clock w (clock_reads w) > expiry - EXPIRY_BUFFER_MS
  | None => True
  end ->
  decrypt (env w) (ebay_oauth_refresh_token owner) = Some r ->
  r <> "" ->
  account_id u = Some a ->
  truthy (EBAY_APP_CLIENT_ID (env w)) = true ->
  truthy (EBAY_APP_CLIENT_SECRET (env w)) = true ->
  network w (length (requests w))
    (refresh_request (default "" (EBAY_APP_CLIENT_ID (env w)))
       (default "" (EBAY_APP_CLIENT_SECRET (env w))) r)
  = Response true (Some data) ->
  truthy (access_token data) = true ->
  db_down w (queries w) = true ->
  exists w',
    use_oauth_token u owner w = (Return tt, w')
    /\ userConfig w' = userConfig w /\ db w' = db w
    /\ requests w'
       = (requests w
          ++ [refresh_request (default "" (EBAY_APP_CLIENT_ID (env w)))
                (default "" (EBAY_APP_CLIENT_SECRET (env w))) r])%list.
Proof.
  intros Hacc Hexp Hdec Hr Ha Hcid Hcs Hnet Hat Hdown.
  destruct (decrypt_Some_key _ _ _ Hdec) as [key Hkey].
  pose proof (decrypt_Some_truthy _ _ _ Hdec) as Href.
  destruct (truthy_Some _ Hat) as (t & Ht & Htne).
  apply String.eqb_neq in Hr as Hr'.
  unfold use_oauth_token. rewrite Hacc.
  rewrite run_bind. cbn [get_world]. rewrite run_bind.
  assert (Hrest : forall w1,
    env w1 = env w -> userConfig w1 = userConfig w -> db w1 = db w ->
    requests w1 = requests w -> queries w1 = queries w -> db_down w1 = db_down w ->
    network w1 = network w ->
    exists w',
      (if truthy (ebay_oauth_refresh_token owner)
       then try_catch
              (refreshEbayOAuthToken
                 (decrypt (env w) (ebay_oauth_refresh_token owner)) (account_id u)
               ≫= λ refreshed,
                   if truthy refreshed
                   then modify_userConfig (set_oauth_token refreshed)
                        ≫= λ _, modify_userConfig (set_oauth_connected true)
                   else mret tt)
              (λ _, mret tt)
       else mret tt) w1 = (Return tt, w')
      /\ userConfig w' = userConfig w /\ db w' = db w
      /\ requests w'
         = (requests w
            ++ [refresh_request (default "" (EBAY_APP_CLIENT_ID (env w)))
                  (default "" (EBAY_APP_CLIENT_SECRET (env w))) r])%list).
  { intros w1 He Hc Hd Hq Hn Hdd Hnw. rewrite Href, Hdec, Ha.
    unfold try_catch. rewrite run_bind. unfold refreshEbayOAuthToken.
    rewrite run_bind. cbn [get_world]. rewrite He, Hcid, Hcs.
    cbn [truthy negb orb from_option id]. rewrite Hr'. cbn [negb].
    rewrite run_bind. cbn [fetch]. rewrite Hnw, Hq, Hnet, Hat. cbn [negb orb].
    rewrite run_bind. cbn [Date_now]. rewrite run_bind.
    assert (Hk1 : forall w2, env w2 = env w -> getKey (env w2) = Return key)
      by (by intros w2 ->).
    destruct (truthy (refresh_token data)) eqn:Hrot.
    - destruct (truthy_Some _ Hrot) as (t2 & Ht2 & Ht2ne).
      rewrite run_bind, Ht, (encrypt_run t key) by (done || by apply Hk1).
      rewrite run_bind, Ht2, (encrypt_run t2 key) by (done || by apply Hk1).
      unfold pool_query. simpl_world. rewrite Hdd, Hn, Hdown.
      rewrite run_ret. eexists. split; [reflexivity|]. simpl_world. done.
    - rewrite run_bind, Ht, (encrypt_run t key) by (done || by apply Hk1).
      unfold pool_query. simpl_world. rewrite Hdd, Hn, Hdown.
      rewrite run_ret. eexists. split; [reflexivity|]. simpl_world. done. }
  destruct (ebay_oauth_token_expiry owner) as [expiry|].
  - rewrite run_bind. cbn [Date_now]. rewrite run_ret.
    assert ((clock w (clock_reads w) >? expiry - EXPIRY_BUFFER_MS) = true) as ->
      by (apply Z.gtb_gt; lia).
    cbn [negb]. by apply Hrest.
  - rewrite run_ret. cbn [negb]. by apply Hrest.
Qed.

End OAuthBranches.

(** A stored access token that is not within five minutes of its expiry is
    used as it is: the middleware sends no request and no update, and the
    bundle is marked connected and carries what [decrypt] makes of the
    stored token, which is [null] when the stored token does not decrypt
    under the current master secret. *)
Theorem valid_token_used_offline :
  forall (L : NodeCrypto) (w : world) (s : session_data) (uid a : Z)
         (u owner : user_row) (expiry : Z),
    session w = Some s -> userId s = Some uid -> uid <> 0 ->
    db_down w (queries w) = false ->
    db w !! uid = Some u -> account_id u = Some a -> db w !! a = Some owner ->
    truthy (ebay_oauth_access_token owner) = true ->
    ebay_oauth_token_expiry owner = Some expiry ->
    clock w (clock_reads w) <= expiry - EXPIRY_BUFFER_MS ->
    (loadUserConfig w).1 = Return Next
    /\ requests (loadUserConfig w).2 = requests w
    /\ db (loadUserConfig w).2 = db w
    /\ userConfig (loadUserConfig w).2
       = Some (set_oauth_connected true
                 (set_oauth_token (decrypt (env w) (ebay_oauth_access_token owner))
                    (manual_bundle (env w) owner))).
Proof.
  intros L w s uid a u owner expiry Hs Hid Hnz Hup Hu Ha Ho Hacc Hexp Hearly.
  destruct (loadUserConfig_found_next w s uid a u owner)
    as (w2 & Huse & Hrun & Hcfg & Hdb & Hreq & _); try done.
  edestruct (use_oauth_token_valid u owner) as (w2' & Huse' & Hreq' & Hdb' & Hcfg');
    [exact Hacc | exact Hexp | | rewrite Huse' in Huse; injection Huse as <-].
  { simpl_world. exact Hearly. }
  split; [by rewrite Hrun|]. rewrite Hreq, Hreq', Hdb, Hdb', Hcfg, Hcfg'.
  done.
Qed.

Lemma valid_token_used_offline_witness :
  (loadUserConfig (refreshing_world 1000)).1 = Return Next
  /\ requests (loadUserConfig (refreshing_world 1000)).2 = []
  /\ db (loadUserConfig (refreshing_world 1000)).2 = sample_db (Some 1000000)
  /\ userConfig (loadUserConfig (refreshing_world 1000)).2
     = Some (set_oauth_connected true
               (set_oauth_token
                  (decrypt sample_env (Some (sample_token "old-access")))
                  (manual_bundle sample_env (stored_owner (Some 1000000))))).
Proof.
  apply (valid_token_used_offline sample_crypto (refreshing_world 1000)
           (sample_session None) 1 1 (stored_owner (Some 1000000))
           (stored_owner (Some 1000000)) 1000000);
    [reflexivity | reflexivity | lia | reflexivity | reflexivity | reflexivity
    | reflexivity | reflexivity | reflexivity | vm_compute; discriminate].
Defined.

(** A stored access token that is past the buffer boundary (or has no
    expiry) and cannot be refreshed, because no refresh token is stored,
    or the stored one does not decrypt, or the app credentials are not
    configured: the middleware sends no request and no update, calls
    [next()], and the bundle has the manual keys only. *)
Theorem expired_token_without_refresh :
  forall (L : NodeCrypto) (w : world) (s : session_data) (uid a : Z)
         (u owner : user_row),
    session w = Some s -> userId s = Some uid -> uid <> 0 ->
    db_down w (queries w) = false ->
    db w !! uid = Some u -> account_id u = Some a -> db w !! a = Some owner ->
    truthy (ebay_oauth_access_token owner) = true ->
    match ebay_oauth_token_expiry owner with
    | Some expiry => clock w (clock_reads w) > expiry - EXPIRY_BUFFER_MS
    | None => True
    end ->
    truthy (ebay_oauth_refresh_token owner) = false
    \/ truthy (decrypt (env w) (ebay_oauth_refresh_token owner)) = false
    \/ truthy (EBAY_APP_CLIENT_ID (env w)) = false
    \/ truthy (EBAY_APP_CLIENT_SECRET (env w)) = false ->
    (loadUserConfig w).1 = Return Next
    /\ requests (loadUserConfig w).2 = requests w
    /\ db (loadUserConfig w).2 = db w
    /\ userConfig (loadUserConfig w).2 = Some (manual_bundle (env w) owner).
Proof.
  intros L w s uid a u owner Hs Hid Hnz Hup Hu Ha Ho Hacc Hexp Hno.
  destruct (loadUserConfig_found_next w s uid a u owner)
    as (w2 & Huse & Hrun & Hcfg & Hdb & Hreq & _); try done.
  edestruct (use_oauth_token_cannot_refresh u owner)
    as (w2' & Huse' & Hcfg' & Hdb' & Hreq');
    [exact Hacc | | | rewrite Huse' in Huse; injection Huse as <-].
  { simpl_world. exact Hexp. }
  { simpl_world. exact Hno. }
  split; [by rewrite Hrun|]. rewrite Hreq, Hreq', Hdb, Hdb', Hcfg, Hcfg'.
  done.
Qed.

Lemma expired_token_without_refresh_witness :
  (loadUserConfig unconfigured_world).1 = Return Next
  /\ requests (loadUserConfig unconfigured_world).2 = []
  /\ db (loadUserConfig unconfigured_world).2 = sample_db (Some 1000)
  /\ userConfig (loadUserConfig unconfigured_world).2
     = Some (manual_bundle (env unconfigured_world) (stored_owner (Some 1000))).
Proof.
  apply (expired_token_without_refresh sample_crypto unconfigured_world
           (sample_session None) 1 1 (stored_owner (Some 1000))
           (stored_owner (Some 1000)));
    [reflexivity | reflexivity | lia | reflexivity | reflexivity | reflexivity
    | reflexivity | reflexivity | vm_compute; reflexivity
    | right; right; left; reflexivity].
Defined.

(** The provider answers the refresh with a new access token and the
    database rejects the update that would store it: the request still
    passes, the one refresh request has been sent, the table is as it was,
    and the bundle does not carry the new token; it has the manual keys
    only. *)
Theorem rejected_refresh_update_dropped :
  forall (L : NodeCrypto) (w : world) (s : session_data) (uid a : Z)
         (u owner : user_row) (r : string) (data : json_body),
    session w = Some s -> userId s = Some uid -> uid <> 0 ->
    db_down w (queries w) = false ->
    db_down w (S (queries w)) = true ->
    db w !! uid = Some u -> account_id u = Some a -> db w !! a = Some owner ->
    truthy (ebay_oauth_access_token owner) = true ->
    match ebay_oauth_token_expiry owner with
    | Some expiry => clock w (clock_reads w) > expiry - EXPIRY_BUFFER_MS
    | None => True
    end ->
    decrypt (env w) (ebay_oauth_refresh_token owner) = Some r ->
    r <> "" ->
    truthy (EBAY_APP_CLIENT_ID (env w)) = true ->
    truthy (EBAY_APP_CLIENT_SECRET (env w)) = true ->
    network w (length (requests w))
      (refresh_request (default "" (EBAY_APP_CLIENT_ID (env w)))
         (default "" (EBAY_APP_CLIENT_SECRET (env w))) r)
    = Response true (Some data) ->
    truthy (access_token data) = true ->
    (loadUserConfig w).1 = Return Next
    /\ requests (loadUserConfig w).2
       = (requests w
          ++ [refresh_request (default "" (EBAY_APP_CLIENT_ID (env w)))
                (default "" (EBAY_APP_CLIENT_SECRET (env w))) r])%list
    /\ db (loadUserConfig w).2 = db w
    /\ userConfig (loadUserConfig w).2 = Some (manual_bundle (env w) owner).
Proof.
  intros L w s uid a u owner r data Hs Hid Hnz Hup Hdown Hu Ha Ho Hacc Hexp Hdec Hr
    Hcid Hcs Hnet Hat.
  destruct (loadUserConfig_found_next w s uid a u owner)
    as (w2 & Huse & Hrun & Hcfg & Hdb & Hreq & _); try done.
  edestruct (use_oauth_token_persist_rejected u owner)
    as (w2' & Huse' & Hcfg' & Hdb' & Hreq');
    [exact Hacc | | | exact Hr | exact Ha | | | | exact Hat |
    | rewrite Huse' in Huse; injection Huse as <-];
    simpl_world; try done.
  split; [by rewrite Hrun|]. rewrite Hreq, Hreq', Hdb, Hdb', Hcfg, Hcfg'.
  done.
Qed.

Lemma rejected_refresh_update_dropped_witness :
  (loadUserConfig rejecting_world).1 = Return Next
  /\ requests (loadUserConfig rejecting_world).2
     = [refresh_request "app-id" "app-cert" "old-refresh"]
  /\ db (loadUserConfig rejecting_world).2 = sample_db (Some 1000)
  /\ userConfig (loadUserConfig rejecting_world).2
     = Some (manual_bundle sample_env (stored_owner (Some 1000))).
Proof.
  apply (rejected_refresh_update_dropped sample_crypto rejecting_world
           (sample_session None) 1 1 (stored_owner (Some 1000))
           (stored_owner (Some 1000)) "old-refresh"
           (token_answer (Some "new-access") None));
    [reflexivity | reflexivity | lia | reflexivity | reflexivity | reflexivity
    | reflexivity | reflexivity | reflexivity | vm_compute; reflexivity
    | vm_compute; reflexivity | discriminate | reflexivity | reflexivity
    | reflexivity | reflexivity].
Defined.

(** ** The refresh: what it stores *)

(** A refresh the provider answers with a new access token, the database
    taking the update.  The owner's row afterwards is the row it was with
    the access token replaced by the new one, sealed, and the expiry by the
    clock's reading plus the answer's lifetime.  When the answer carries a
    refresh token, the stored refresh token is replaced by it, sealed; when
    it carries none, the stored refresh token stays.  The identity label
    and every other column stay. *)
Theorem refresh_rotates_refresh_token :
  forall (L : NodeCrypto) (r : string) (a : Z) (w : world) (key : list ascii)
         (data : json_body) (owner : user_row),
    gcm_correct L ->
    truthy (EBAY_APP_CLIENT_ID (env w)) = true ->
    truthy (EBAY_APP_CLIENT_SECRET (env w)) = true ->
    r <> "" ->
    network w (length (requests w))
      (refresh_request (default "" (EBAY_APP_CLIENT_ID (env w)))
         (default "" (EBAY_APP_CLIENT_SECRET (env w))) r)
    = Response true (Some data) ->
    truthy (access_token data) = true ->
    getKey (env w) = Return key ->
    db_down w (queries w) = false ->
    db w !! a = Some owner ->
    exists sealed stored,
      (refreshEbayOAuthToken (Some r) (Some a) w).1 = Return (access_token data)
      /\ db (refreshEbayOAuthToken (Some r) (Some a) w).2 !! a
         = Some (set_oauth (Some sealed) stored
                   (Some (clock w (clock_reads w) + lifetime_ms (expires_in data)))
                   (ebay_oauth_username owner) owner)
      /\ decrypt (env w) (Some sealed) = access_token data
      /\ (if truthy (refresh_token data)
          then decrypt (env w) stored = refresh_token data
          else stored = ebay_oauth_refresh_token owner).
Proof.
  intros L r a w key data owner Hgcm Hcid Hcs Hr Hnet Hacc Hkey Hup Ho.
  destruct (truthy_Some _ Hacc) as (t & Ht & Htne).
  unfold refreshEbayOAuthToken. rewrite run_bind. cbn [get_world].
  rewrite Hcid, Hcs. apply String.eqb_neq in Hr as Hr'.
  cbn [truthy negb orb from_option id]. rewrite Hr'. cbn [negb].
  rewrite run_bind. cbn [fetch]. rewrite Hnet, Hacc. cbn [negb orb].
  rewrite run_bind. cbn [Date_now]. rewrite run_bind.
  destruct (truthy (refresh_token data)) eqn:Hrot.
  - destruct (truthy_Some _ Hrot) as (t2 & Ht2 & Ht2ne).
    rewrite run_bind, Ht, (encrypt_run t key) by done.
    rewrite run_bind, Ht2, (encrypt_run t2 key) by done.
    unfold pool_query. cbn [queries db_down set_entropy_used set_clock_reads
                              set_requests]. rewrite Hup. cbn [sql_update].
    rewrite run_ret. eexists _, _. split; [reflexivity|]. cbn [snd]. simpl_world.
    rewrite lookup_alter, decide_True, Ho by done.
    split; [reflexivity|]. by rewrite !decrypt_seal_token.
  - rewrite run_bind, Ht, (encrypt_run t key) by done.
    unfold pool_query. cbn [queries db_down set_entropy_used set_clock_reads
                              set_requests]. rewrite Hup. cbn [sql_update].
    rewrite run_ret. eexists _, _. split; [reflexivity|]. cbn [snd]. simpl_world.
    rewrite lookup_alter, decide_True, Ho by done.
    split; [reflexivity|]. by rewrite !decrypt_seal_token.
Qed.

Lemma refresh_rotates_refresh_token_witness :
  exists sealed stored,
    (refreshEbayOAuthToken (Some "old-refresh") (Some 1) rotating_world).1
    = Return (Some "new-access")
    /\ db (refreshEbayOAuthToken (Some "old-refresh") (Some 1) rotating_world).2 !! 1
       = Some (set_oauth (Some sealed) stored (Some (5000 + 7200000))
                 (Some "ada_on_ebay") (stored_owner (Some 1000)))
    /\ decrypt sample_env (Some sealed) = Some "new-access"
    /\ decrypt sample_env stored = Some "new-refresh".
Proof.
  destruct (refresh_rotates_refresh_token sample_crypto "old-refresh" 1 rotating_world
              sample_key (token_answer (Some "new-access") (Some "new-refresh"))
              (stored_owner (Some 1000)))
    as (sealed & stored & H1 & H2 & H3 & H4);
    [exact sample_crypto_correct | reflexivity | reflexivity | discriminate
    | reflexivity | reflexivity | reflexivity | reflexivity | reflexivity |].
  exists sealed, stored. repeat split; assumption.
Defined.

(** ** Disconnect *)

Section Disconnect.
Context {L : NodeCrypto}.

Lemma disconnect_run (w : world) (s : session_data) :
  session w = Some s ->
  disconnect w
  = if db_down w (queries w)
    then (Return (JsonError 500 "Failed to disconnect eBay account"),
          set_queries (S (queries w)) w)
    else (Return JsonSuccess,
          set_db (sql_update (set_oauth None None None None) (accountId s) (db w)).2
            (set_queries (S (queries w)) w)).
Proof.
  intros Hs. unfold disconnect, try_catch. rewrite run_bind. cbn [get_world].
  rewrite Hs, run_bind. unfold pool_query.
  destruct (db_down w (queries w)); [by rewrite run_ret|].
  by destruct (accountId s).
Qed.

End Disconnect.

(** Disconnect, the database taking the statement, sets the four OAuth
    columns of the account's row to [NULL] and answers success; the next
    request of a user of the account then gets a bundle that is not
    connected and has no OAuth token and no identity label, while the
    manual keys are the ones the row had; no request has been sent to the
    provider.  When the database rejects the statement, disconnect answers
    500 and the table is as it was. *)
Theorem disconnect_then_resolve :
  forall (L : NodeCrypto) (w : world) (s : session_data) (uid a : Z)
         (u owner : user_row),
    session w = Some s -> userId s = Some uid -> uid <> 0 ->
    accountId s = Some a ->
    db w !! uid = Some u -> account_id u = Some a -> db w !! a = Some owner ->
    (db_down w (queries w) = true ->
     (disconnect w).1 = Return (JsonError 500 "Failed to disconnect eBay account")
     /\ db (disconnect w).2 = db w)
    /\ (db_down w (queries w) = false ->
        (disconnect w).1 = Return JsonSuccess
        /\ db (disconnect w).2 !! a = Some (set_oauth None None None None owner)
        /\ (db_down w (S (queries w)) = false ->
            (loadUserConfig (disconnect w).2).1 = Return Next
            /\ requests (loadUserConfig (disconnect w).2).2 = requests w
            /\ exists cfg,
                 userConfig (loadUserConfig (disconnect w).2).2 = Some cfg
                 /\ ebayOAuthConnected cfg = false
                 /\ ebayOAuthToken cfg = None
                 /\ ebayOAuthUsername cfg = None
                 /\ ebayToken cfg = or_str (decrypt (env w) (ebay_token owner)) ""
                 /\ ebayClientId cfg
                    = or_str (decrypt (env w) (ebay_client_id owner)) ""
                 /\ ebayClientSecret cfg
                    = or_str (decrypt (env w) (ebay_client_secret owner)) "")).
Proof.
  intros L w s uid a u owner Hs Hid Hnz Hacc Hu Ha Ho.
  rewrite (disconnect_run w s Hs), Hacc. cbn [sql_update snd].
  split; intros Hdown; rewrite Hdown; [done|].
  cbn [fst snd]. simpl_world.
  split; [done|]. split; [by rewrite lookup_alter, decide_True, Ho|].
  intros Hdown2.
  set (w1 := set_db _ _).
  assert (Hu1 : exists u1, db w1 !! uid = Some u1 /\ account_id u1 = Some a).
  { unfold w1. simpl_world. rewrite lookup_alter. case_decide.
    - subst uid. rewrite Ho. eexists. split; [reflexivity|].
      cbn. rewrite Ho in Hu. by injection Hu as ->.
    - by exists u. }
  destruct Hu1 as (u1 & Hu1 & Ha1).
  assert (Ho1 : db w1 !! a = Some (set_oauth None None None None owner)).
  { unfold w1. simpl_world. by rewrite lookup_alter, decide_True, Ho. }
  destruct (loadUserConfig_found_next w1 s uid a u1
              (set_oauth None None None None owner))
    as (w2 & Huse & Hrun & Hcfg & Hdb & Hreq & _); try done.
  unfold use_oauth_token in Huse. cbn [ebay_oauth_access_token set_oauth truthy] in Huse.
  rewrite run_ret in Huse. injection Huse as <-.
  split; [by rewrite Hrun|]. split; [by rewrite Hreq|].
  eexists. split; [rewrite Hcfg; reflexivity|]. done.
Qed.

Lemma disconnect_then_resolve_witness :
  (disconnect admin_world).1 = Return JsonSuccess
  /\ db (disconnect admin_world).2 !! 1
     = Some (set_oauth None None None None (stored_owner (Some 1000)))
  /\ (loadUserConfig (disconnect admin_world).2).1 = Return Next
  /\ requests (loadUserConfig (disconnect admin_world).2).2 = []
  /\ exists cfg,
       userConfig (loadUserConfig (disconnect admin_world).2).2 = Some cfg
       /\ ebayOAuthConnected cfg = false
       /\ ebayOAuthToken cfg = None
       /\ ebayOAuthUsername cfg = None
       /\ ebayToken cfg = "manual-token"
       /\ ebayClientId cfg = ""
       /\ ebayClientSecret cfg = "".
Proof.
  destruct (disconnect_then_resolve sample_crypto admin_world (sample_session None)
              1 1 (stored_owner (Some 1000)) (stored_owner (Some 1000)))
    as [_ H]; [reflexivity | reflexivity | lia | reflexivity | reflexivity
              | reflexivity | reflexivity |].
  destruct (H eq_refl) as (H1 & H2 & H3).
  destruct (H3 eq_refl) as (H4 & H5 & cfg & H6 & H7 & H8 & H9 & H10 & H11 & H12).
  split; [exact H1|]. split; [exact H2|]. split; [exact H4|]. split; [exact H5|].
  exists cfg. repeat split; assumption.
Defined.
